(** * SonarQube analysis agent: the decision pipeline and its heuristics

    A shallow embedding of the analyzers (false-positive detector, risk
    assessor, fix generator and validator) and of the orchestrator of
    [sonarqube_agent], with the properties of its specification.

    Conventions.
    - A Python [str] is a [string], one [ascii] per code point; the model
      covers the code points below 256.
    - A Python [float] is a primitive binary64 [float]; a Python [int] is a [Z].
    - A value whose Python type is [Any] (what [json.loads] returns, the
      fields read out of it) is a [pyval].
    - A call that may raise returns a [result]; only subclasses of
      [Exception] are modelled.
    - The language-model backend, the finding source, the code host and the
      clock are uninterpreted effects of a program tree [prog]; a property
      of the pipeline holds for every way the environment may answer. *)

From Stdlib Require Import ZArith List String Ascii Bool Lia Floats DecimalString.
Import ListNotations.

Set Warnings "-inexact-float,-register-all".

Local Open Scope string_scope.
Local Open Scope Z_scope.

(** ** Python strings *)

Module PyStr.

Definition code (c : ascii) : N := N_of_ascii c.

Definition between (lo hi : N) (c : ascii) : bool :=
  (N.leb lo (code c) && N.leb (code c) hi)%bool.

(** [str.isspace] on one code point. *)
Definition isspace (c : ascii) : bool :=
  (between 9 13 c || between 28 32 c
   || N.eqb (code c) 133 || N.eqb (code c) 160)%bool.

(** [str.isalnum] on one code point. *)
Definition isalnum (c : ascii) : bool :=
  (between 48 57 c || between 65 90 c || between 97 122 c
   || N.eqb (code c) 170 || between 178 179 c || N.eqb (code c) 181
   || between 185 186 c || between 188 190 c
   || between 192 214 c || between 216 246 c || between 248 255 c)%bool.

(** The class [\w] of [re] on a [str] pattern. *)
Definition isword (c : ascii) : bool :=
  (isalnum c || N.eqb (code c) 95)%bool.

Definition lower_char (c : ascii) : ascii :=
  if (between 65 90 c || between 192 214 c || between 216 222 c)%bool
  then ascii_of_N (code c + 32) else c.

(** Upper case of one code point. [str.upper] sends the sharp s to two
    letters; the micro sign and the y with diaeresis, whose upper case
    lies above 255, are kept: the result is only searched for ASCII
    indicators. *)
Definition upper_char (c : ascii) : string :=
  if (between 97 122 c || between 224 246 c || between 248 254 c)%bool
  then String (ascii_of_N (code c - 32)) EmptyString
  else if N.eqb (code c) 223 then "SS"
  else String c EmptyString.

(** [str.lower] on the code points below 256. *)
Fixpoint lower (s : string) : string :=
  match s with
  | EmptyString => EmptyString
  | String c t => String (lower_char c) (lower t)
  end.

(** [str.upper] on the code points below 256, with the two exceptions of
    [upper_char]. *)
Fixpoint upper (s : string) : string :=
  match s with
  | EmptyString => EmptyString
  | String c t => upper_char c ++ upper t
  end.

(** [str.isascii]: every code point is below 128. On such a text [lower]
    and [upper] are [str.lower] and [str.upper], letter by letter. *)
Fixpoint isascii (s : string) : bool :=
  match s with
  | EmptyString => true
  | String c t => (N.ltb (code c) 128 && isascii t)%bool
  end.

(** [needle in hay]. *)
Fixpoint contains (needle hay : string) : bool :=
  if prefix needle hay then true
  else match hay with
       | EmptyString => false
       | String _ t => contains needle t
       end.

Fixpoint rev_acc (s acc : string) : string :=
  match s with
  | EmptyString => acc
  | String c t => rev_acc t (String c acc)
  end.

Definition rev (s : string) : string := rev_acc s EmptyString.

Definition endswith (s suffix : string) : bool :=
  prefix (rev suffix) (rev s).

Fixpoint lstrip (s : string) : string :=
  match s with
  | EmptyString => EmptyString
  | String c t => if isspace c then lstrip t else s
  end.

Definition strip (s : string) : string :=
  rev (lstrip (rev (lstrip s))).

(** [s.replace(c, d)] for one-character [c] and [d]. *)
Fixpoint replace_char (c d : ascii) (s : string) : string :=
  match s with
  | EmptyString => EmptyString
  | String x t =>
      String (if Ascii.eqb c x then d else x) (replace_char c d t)
  end.

(** [s.replace(c, '')] for a one-character [c]. *)
Fixpoint remove_char (c : ascii) (s : string) : string :=
  match s with
  | EmptyString => EmptyString
  | String d t =>
      if Ascii.eqb c d then remove_char c t else String d (remove_char c t)
  end.

(** [s.count(c)] for a one-character [c]. *)
Fixpoint count_char (c : ascii) (s : string) : Z :=
  match s with
  | EmptyString => 0
  | String d t => (if Ascii.eqb c d then 1 else 0) + count_char c t
  end.

(** [s.find(c)] for a one-character [c]: the first index, or -1. *)
Fixpoint find_from (c : ascii) (s : string) (i : Z) : Z :=
  match s with
  | EmptyString => -1
  | String d t => if Ascii.eqb c d then i else find_from c t (i + 1)
  end.

Definition find (c : ascii) (s : string) : Z := find_from c s 0.

(** [s.rfind(c)] for a one-character [c]: the last index, or -1. *)
Fixpoint rfind_from (c : ascii) (s : string) (i last : Z) : Z :=
  match s with
  | EmptyString => last
  | String d t =>
      rfind_from c t (i + 1) (if Ascii.eqb c d then i else last)
  end.

Definition rfind (c : ascii) (s : string) : Z := rfind_from c s 0 (-1).

(** [s[i:j]] for [0 <= i] and [0 <= j]. *)
Definition slice (i j : Z) (s : string) : string :=
  substring (Z.to_nat i) (Z.to_nat (j - i)) s.

(** A line boundary of [str.splitlines] below 256. *)
Definition islinebreak (c : ascii) : bool :=
  (between 10 13 c || between 28 30 c || N.eqb (code c) 133)%bool.

(** [s.splitlines(keepends)]; [cur] is the current line, reversed. *)
Fixpoint splitlines_acc (keepends : bool) (s cur : string) : list string :=
  match s with
  | EmptyString =>
      match cur with EmptyString => [] | _ => [rev cur] end
  | String c t =>
      if islinebreak c then
        match t with
        | String d t' =>
            if (N.eqb (code c) 13 && N.eqb (code d) 10)%bool
            then rev (if keepends then String d (String c cur) else cur)
                 :: splitlines_acc keepends t' EmptyString
            else rev (if keepends then String c cur else cur)
                 :: splitlines_acc keepends t EmptyString
        | EmptyString => [rev (if keepends then String c cur else cur)]
        end
      else splitlines_acc keepends t (String c cur)
  end.

Definition splitlines (s : string) : list string :=
  splitlines_acc false s EmptyString.

Definition splitlines_keepends (s : string) : list string :=
  splitlines_acc true s EmptyString.

(** [sep.join(l)]. *)
Fixpoint join (sep : string) (l : list string) : string :=
  match l with
  | [] => EmptyString
  | [x] => x
  | x :: t => x ++ sep ++ join sep t
  end.

(** An index of a slice of a sequence of length [n]: a negative index
    counts from the end, and the result is clamped to the sequence. *)
Definition slice_index (n k : Z) : Z :=
  if k <? 0 then Z.max 0 (k + n) else Z.min k n.

(** [l[i:j]]. *)
Definition slice_list {A} (i j : Z) (l : list A) : list A :=
  let n := Z.of_nat (List.length l) in
  let i := slice_index n i in
  let j := slice_index n j in
  firstn (Z.to_nat (j - i)) (skipn (Z.to_nat i) l).

Definition line_count (s : string) : Z :=
  Z.of_nat (List.length (splitlines s)).

(** [str(n)] for an [int] that is not negative. *)
Definition of_int (n : Z) : string :=
  NilZero.string_of_uint (N.to_uint (Z.to_N n)).

End PyStr.

(** ** Python floats and numbers *)

Module PyNum.

Local Open Scope float_scope.

(** The binary64 value nearest to an integer (ties to even), infinite
    beyond the range. *)
Definition nearest_float (n : Z) : float :=
  SF2Prim (binary_normalize prec emax n 0 false).

(** [float(n)] for an [int]: [None] where Python raises [OverflowError]. *)
Definition float_of_int (n : Z) : option float :=
  let f := nearest_float n in
  if is_infinity f then None else Some f.

(** [float(n)] for a length or a count: these stay far below the range
    of binary64, where the conversion cannot fail. *)
Definition float_of_count (n : Z) : float := nearest_float n.

(** The exact comparison of an [int] with a finite or infinite [float]:
    Python compares the mathematical values. *)
Definition cmp_int_float (n : Z) (f : float) : option comparison :=
  match Prim2SF f with
  | S754_nan => None
  | S754_zero _ => Some (Z.compare n 0)
  | S754_infinity s => Some (if s then Gt else Lt)
  | S754_finite s m e =>
      let v := if s then Z.neg m else Z.pos m in
      Some (if (0 <=? e)%Z then Z.compare n (v * 2 ^ e)
            else Z.compare (n * 2 ^ (- e)) v)
  end.

(** [n > f] and [n < f] and [n >= f] for an [int] and a [float]. *)
Definition int_gt_float (n : Z) (f : float) : bool :=
  match cmp_int_float n f with Some Gt => true | _ => false end.

Definition int_lt_float (n : Z) (f : float) : bool :=
  match cmp_int_float n f with Some Lt => true | _ => false end.

Definition int_ge_float (n : Z) (f : float) : bool :=
  match cmp_int_float n f with Some Gt | Some Eq => true | _ => false end.

End PyNum.

(** ** Python values, exceptions and results *)

(** A value of type [Any]: what [json.loads] builds. A [dict] lists its
    entries, each key once. *)
Inductive pyval : Type :=
| PNone
| PBool (b : bool)
| PInt (n : Z)
| PFloat (f : float)
| PStr (s : string)
| PList (l : list pyval)
| PDict (d : list (string * pyval)).

Definition dict : Type := list (string * pyval).

Inductive exn_class : Type :=
| JSONDecodeError | AttributeError | TypeError | ValueError | KeyError
| OverflowError | BackendError.

(** A raised exception: its class and [str(e)]. *)
Record exn : Type := Exn { exn_cls : exn_class; exn_str : string }.

Inductive result (A : Type) : Type :=
| Ok (a : A)
| Raise (e : exn).

Arguments Ok {A} a.
Arguments Raise {A} e.

Definition rbind {A B} (r : result A) (f : A -> result B) : result B :=
  match r with
  | Ok a => f a
  | Raise e => Raise e
  end.

Notation "x <~ r ;; k" := (rbind r (fun x => k))
  (at level 61, r at next level, right associativity).

(** [try: body  except Exception as e: handler(e)]. *)
Definition try_except {A} (body : result A) (handler : exn -> result A)
  : result A :=
  match body with
  | Ok a => Ok a
  | Raise e => handler e
  end.

Module Py.

Import PyNum.
Local Open Scope float_scope.

Definition type_name (v : pyval) : string :=
  match v with
  | PNone => "NoneType"
  | PBool _ => "bool"
  | PInt _ => "int"
  | PFloat _ => "float"
  | PStr _ => "str"
  | PList _ => "list"
  | PDict _ => "dict"
  end.

(** [bool(v)]. *)
Definition truthy (v : pyval) : bool :=
  match v with
  | PNone => false
  | PBool b => b
  | PInt n => negb (n =? 0)%Z
  | PFloat f => negb (f =? 0)
  | PStr s => negb (String.eqb s "")
  | PList l => match l with [] => false | _ => true end
  | PDict d => match d with [] => false | _ => true end
  end.

Fixpoint lookup (k : string) (d : dict) : option pyval :=
  match d with
  | [] => None
  | (k', v) :: t => if String.eqb k k' then Some v else lookup k t
  end.

(** [d.get(k, default)] on a [dict]. *)
Definition dict_get (d : dict) (k : string) (default : pyval) : pyval :=
  match lookup k d with
  | Some v => v
  | None => default
  end.

Definition no_attribute (v : pyval) (attr : string) : exn :=
  Exn AttributeError
      ("'" ++ type_name v ++ "' object has no attribute '" ++ attr ++ "'").

(** [v.get(k, default)] on any value: only a [dict] has [get]. *)
Definition get (v : pyval) (k : string) (default : pyval) : result pyval :=
  match v with
  | PDict d => Ok (dict_get d k default)
  | _ => Raise (no_attribute v "get")
  end.

(** [v.lower()] on any value: only a [str] has [lower]. *)
Definition lower (v : pyval) : result string :=
  match v with
  | PStr s => Ok (PyStr.lower s)
  | _ => Raise (no_attribute v "lower")
  end.

Definition float_of_bool (b : bool) : float := if b then 1 else 0.

Definition int_too_large : exn :=
  Exn OverflowError "int too large to convert to float".

(** [n / f] for an [int] and a [float]. *)
Definition int_div_float (n : Z) (f : float) : result float :=
  match float_of_int n with
  | Some g => Ok (g / f)
  | None => Raise int_too_large
  end.

(** [f * v] for a [float] and any value. *)
Definition float_mul (f : float) (v : pyval) : result float :=
  match v with
  | PFloat g => Ok (f * g)
  | PInt n =>
      match float_of_int n with
      | Some g => Ok (f * g)
      | None => Raise int_too_large
      end
  | PBool b => Ok (f * float_of_bool b)
  | PStr _ | PList _ =>
      Raise (Exn TypeError
                 "can't multiply sequence by non-int of type 'float'")
  | PNone | PDict _ =>
      Raise (Exn TypeError
                 ("unsupported operand type(s) for *: 'float' and '"
                  ++ type_name v ++ "'"))
  end.

(** [v >= f] for any value and a [float]. *)
Definition ge_float (v : pyval) (f : float) : result bool :=
  match v with
  | PFloat g => Ok (f <=? g)
  | PInt n => Ok (int_ge_float n f)
  | PBool b => Ok (int_ge_float (if b then 1 else 0) f)
  | _ =>
      Raise (Exn TypeError
                 ("'>=' not supported between instances of '"
                  ++ type_name v ++ "' and 'float'"))
  end.

(** [f"{v:.0%}"]: whether the format returns. An [int] is converted to a
    [float] first. *)
Definition format_percent (v : pyval) : result unit :=
  match v with
  | PFloat _ | PBool _ => Ok tt
  | PInt n =>
      match float_of_int n with
      | Some _ => Ok tt
      | None => Raise int_too_large
      end
  | PStr _ =>
      Raise (Exn ValueError
                 "Unknown format code '%' for object of type 'str'")
  | _ =>
      Raise (Exn TypeError
                 ("unsupported format string passed to " ++ type_name v
                  ++ ".__format__"))
  end.

End Py.

(** What the code takes from Python's library: [json.loads] ([None] where
    it raises: a [JSONDecodeError], unless [json_raises] gives another
    exception for the text, as the [ValueError] of an integer of too many
    digits), [float] on a [str] ([None] where it raises [ValueError]) and
    [difflib.unified_diff] on two lists of lines. *)
Record PyLib : Type := {
  json_loads : string -> option pyval;
  json_raises : string -> option exn;
  float_of_str : string -> option float;
  unified_diff : list string -> list string -> list string
}.

(** ** The finding (integrations/sonarqube.py) *)

Record SonarQubeFinding : Type := {
  key : string;
  rule_key : string;
  rule_name : string;
  severity : string;
  message : string;
  file_path : string;
  line : Z;
  status : string;
  project : string;
  component : string;
  creation_date : string;
  language : option string
}.

(** ** Effects: the collaborators of the pipeline *)

Inductive prompt_kind : Type := FalsePositivePrompt | RiskPrompt | FixPrompt.

(** The comments the agent posts; their markdown text is not modelled. *)
Inductive comment_kind : Type :=
| FalsePositiveComment
| RiskComment
| EscalationComment (reason : string)
| PRLinkComment.

Record PullRequest : Type := {
  number : pyval;
  html_url : pyval
}.

Inductive ext : Type -> Type :=
| Now : ext Z
| Generate (p : prompt_kind) (model : string) : ext (result string)
| GetSourceCode (comp : string) (from_line to_line : Z) : ext (option string)
| GetRuleDetails (rule : string) : ext (option dict)
| AddComment (issue_key : string) (c : comment_kind) : ext bool
| TransitionIssue (issue_key transition comment : string) : ext bool
| ExtractRepo (comp : string) : ext (option string)
| GetFileContents (repo path ref : string) : ext (option string)
| CreateBranch (repo branch_name from_branch : string) : ext bool
| CreateOrUpdateFile (repo branch path content msg : string) : ext bool
| GeneratePRTitle : ext (result string)
| GeneratePRBody : ext (result string)
| GetPRLabels : ext (result (list string))
| CreatePullRequest (repo title body head base : string)
                    (labels : list string) : ext (option PullRequest)
| RequestCopilotReview (repo : string) (number : pyval) : ext bool
| LogEscalated (issue_key reason : string) : ext unit.

(** A program: a result, or a call to a collaborator and what follows its
    answer. *)
Inductive prog (A : Type) : Type :=
| Ret (a : A)
| Call {X : Type} (c : ext X) (k : X -> prog A).

Arguments Ret {A} a.
Arguments Call {A X} c k.

Fixpoint bind {A B} (p : prog A) (f : A -> prog B) : prog B :=
  match p with
  | Ret a => f a
  | Call c k => Call c (fun x => bind (k x) f)
  end.

Definition call {X} (c : ext X) : prog X := Call c Ret.

Notation "x <- p ;; k" := (bind p (fun x => k))
  (at level 61, p at next level, right associativity).

(** One call and its answer. *)
Inductive event : Type :=
| Ev {X : Type} (c : ext X) (x : X).

(** The environment: the answer to a call, given the calls made before it,
    in the order they were made. *)
Definition oracle : Type := forall X, ext X -> list event -> X.

(** Running a program after the calls [hist]: its result and the calls it
    made, in order. *)
Fixpoint run {A} (h : oracle) (p : prog A) (hist : list event)
  : A * list event :=
  match p with
  | Ret a => (a, [])
  | Call c k =>
      let x := h _ c hist in
      let r := run h (k x) (hist ++ [Ev c x]) in
      (fst r, Ev c x :: snd r)
  end.

Definition value {A} (h : oracle) (p : prog A) (hist : list event) : A :=
  fst (run h p hist).

Definition trace {A} (h : oracle) (p : prog A) (hist : list event)
  : list event :=
  snd (run h p hist).

(** A program all of whose calls, whatever the answers, satisfy [P]. *)
Inductive calls_only (P : forall X, ext X -> bool) {A} : prog A -> Prop :=
| calls_only_ret (a : A) : calls_only P (Ret a)
| calls_only_call {X} (c : ext X) (k : X -> prog A) :
    P X c = true -> (forall x, calls_only P (k x)) ->
    calls_only P (Call c k).

(** The same of an event of a trace. *)
Definition event_is (P : forall X, ext X -> bool) (e : event) : bool :=
  match e with
  | Ev c _ => P _ c
  end.

(** Programs that may raise. *)
Definition pbind {A B} (p : prog (result A)) (f : A -> prog (result B))
  : prog (result B) :=
  r <- p ;;
  match r with
  | Ok a => f a
  | Raise e => Ret (Raise e)
  end.

Notation "x <-? p ;; k" := (pbind p (fun x => k))
  (at level 61, p at next level, right associativity).

Definition lift {A} (p : prog A) : prog (result A) :=
  a <- p ;; Ret (Ok a).

(** [try: body  except Exception as e: handler(e)] around a program. *)
Definition ptry {A} (body : prog (result A)) (handler : exn -> prog A)
  : prog A :=
  r <- body ;;
  match r with
  | Ok a => Ret a
  | Raise e => handler e
  end.

(** ** JSON in prose

    The three analyzers read the model's answer with the same lines: strip
    it, take the text from the first opening brace to the last closing
    brace when there is one after the other, the whole answer otherwise,
    and hand it to [json.loads]. *)

Module JsonInProse.

Import PyStr.

Definition json_decode_error : exn := Exn JSONDecodeError "Expecting value".

(** The text handed to [json.loads]. *)
Definition json_text (response : string) : string :=
  let response := strip response in
  let start_idx := find "{" response in
  let end_idx := rfind "}" response + 1 in
  if ((0 <=? start_idx) && (start_idx <? end_idx))%bool
  then slice start_idx end_idx response
  else response.

(** What [json.loads] raises on a text it does not accept. *)
Definition json_error (lib : PyLib) (text : string) : exn :=
  match json_raises lib text with
  | Some e => e
  | None => json_decode_error
  end.

(** [except json.JSONDecodeError] catches that class alone. *)
Definition is_json_decode_error (e : exn) : bool :=
  match exn_cls e with
  | JSONDecodeError => true
  | _ => false
  end.

Definition loads (lib : PyLib) (response : string) : result pyval :=
  match json_loads lib (json_text response) with
  | Some v => Ok v
  | None => Raise (json_error lib (json_text response))
  end.

End JsonInProse.

(** ** Risk assessment (analyzers/risk_assessment.py) *)

Module RiskAssessor.

Import PyStr.

Record RiskAssessment : Type := {
  risk_score : float;
  priority : string;
  exploitability : Z;
  impact : Z;
  exposure : Z;
  confidence : pyval;
  justification : pyval;
  business_context : pyval;
  recommended_sla : string
}.

Definition RULE_EXPLOITABILITY : list (string * Z) :=
  [ ("sql_injection", 10); ("code_injection", 10);
    ("command_injection", 10); ("deserialization", 9);
    ("auth_bypass", 9); ("privilege_escalation", 8);
    ("session_fixation", 8);
    ("xss", 7); ("path_traversal", 7); ("xxe", 8); ("ssrf", 7);
    ("weak_crypto", 6); ("hardcoded_secret", 6); ("insecure_random", 5);
    ("null_pointer", 3); ("resource_leak", 4); ("race_condition", 5) ].

Definition HIGH_IMPACT_PATHS : list string :=
  [ "payment"; "auth"; "login"; "user"; "account"; "billing"; "order";
    "transaction"; "admin"; "security" ].

Definition MEDIUM_IMPACT_PATHS : list string :=
  [ "api"; "service"; "controller"; "handler" ].

Definition LOW_IMPACT_PATHS : list string :=
  [ "test"; "mock"; "util"; "helper"; "config" ].

Definition model : string := "codellama:13b".

(** The first category of the table found in the rule key. *)
Fixpoint category_score (normalized : string) (table : list (string * Z))
  : option Z :=
  match table with
  | [] => None
  | (category, score) :: rest =>
      if contains (remove_char "_" category) normalized then Some score
      else category_score normalized rest
  end.

Definition severity_default (sev : string) : Z :=
  if String.eqb sev "CRITICAL" then 8
  else if String.eqb sev "HIGH" then 6
  else if String.eqb sev "MEDIUM" then 4
  else if String.eqb sev "LOW" then 2
  else 5.

Definition _calculate_exploitability
  (finding : SonarQubeFinding) (rule_details : option dict) : result Z :=
  let rule_key := lower (rule_key finding) in
  match category_score (remove_char "-" (remove_char ":" rule_key))
                       RULE_EXPLOITABILITY with
  | Some score => Ok score
  | None =>
      let by_severity := severity_default (severity finding) in
      match rule_details with
      | Some ((_ :: _) as d) =>
          rule_type <~ Py.lower (Py.dict_get d "type" (PStr "")) ;;
          if contains "vulnerability" rule_type then Ok 7
          else if contains "security" rule_type then Ok 6
          else if contains "bug" rule_type then Ok 4
          else Ok by_severity
      | _ => Ok by_severity
      end
  end.

(** [re.search(pattern, path)] for some pattern of the list; the patterns
    are plain words. *)
Definition any_in (patterns : list string) (text : string) : bool :=
  existsb (fun p => contains p text) patterns.

Definition sensitive_keywords : list (string * Z) :=
  [ ("password", 9); ("credit_card", 10); ("ssn", 10); ("encrypt", 8);
    ("decrypt", 8); ("token", 7); ("session", 7); ("database", 7);
    ("sql", 7) ].

Definition _calculate_impact
  (finding : SonarQubeFinding) (code_context : string) : Z :=
  let file_path := lower (file_path finding) in
  let score := 5 in
  let score := if any_in HIGH_IMPACT_PATHS file_path then 9 else score in
  let score :=
    if score =? 5
    then if any_in MEDIUM_IMPACT_PATHS file_path then 6 else score
    else score in
  let score :=
    if any_in LOW_IMPACT_PATHS file_path then Z.min score 3 else score in
  let code_lower := lower code_context in
  let score :=
    fold_left
      (fun score kw =>
         if contains (fst kw) code_lower then Z.max score (snd kw)
         else score)
      sensitive_keywords score in
  Z.min score 10.

Definition api_indicators : list string :=
  [ "@RestController"; "@GetMapping"; "@PostMapping"; "@RequestMapping";
    "@Path"; "app.route"; "@app.get"; "router.get" ].

Definition auth_patterns : list string :=
  [ "@PreAuthorize"; "@Secured"; "@RolesAllowed"; "require_login";
    "login_required"; "@login_required" ].

Definition _calculate_exposure
  (finding : SonarQubeFinding) (code_context : string) : Z :=
  let score := 5 in
  let score := if any_in api_indicators code_context then 9 else score in
  let score :=
    if (contains "private " code_context
        || contains "internal " code_context)%bool
    then Z.min score 5 else score in
  let score :=
    if contains "test" (lower (file_path finding)) then 1 else score in
  let score :=
    if any_in auth_patterns code_context then Z.max 1 (score - 3)
    else score in
  Z.min score 10.

(** The analysis returned when the model call or the parsing fails. *)
Definition fallback_analysis : pyval :=
  PDict
    [ ("justification",
       PStr "Automated risk assessment based on rule severity and code location");
      ("business_context", PStr "Unknown");
      ("confidence", PFloat 0.7) ].

(** What [_get_contextual_analysis] makes of the backend's answer. *)
Definition contextual_of_reply (lib : PyLib) (reply : result string)
  : pyval :=
  match (response <~ reply ;; JsonInProse.loads lib response) with
  | Ok v => v
  | Raise _ => fallback_analysis
  end.

Definition _get_contextual_analysis
  (lib : PyLib) (finding : SonarQubeFinding) (code_context : string)
  (exploitability impact exposure : Z) : prog pyval :=
  reply <- call (Generate RiskPrompt model) ;;
  Ret (contextual_of_reply lib reply).

Definition _calculate_priority (risk_score : float) : string :=
  if (8 <=? risk_score)%float then "P0"
  else if (6 <=? risk_score)%float then "P1"
  else if (4 <=? risk_score)%float then "P2"
  else "P3".

Definition _calculate_sla (priority : string) : string :=
  if String.eqb priority "P0" then "24 hours"
  else if String.eqb priority "P1" then "1 week"
  else if String.eqb priority "P2" then "2 weeks"
  else if String.eqb priority "P3" then "1 month"
  else "2 weeks".

(** The rest of the [try] block of [assess], after the model call. *)
Definition score
  (exploitability impact exposure : Z) (contextual_analysis : pyval)
  : result RiskAssessment :=
  confidence <~ Py.get contextual_analysis "confidence" (PFloat 0.8) ;;
  ratio <~ Py.int_div_float (exploitability * impact * exposure) 100 ;;
  risk_score <~ Py.float_mul ratio confidence ;;
  let priority := _calculate_priority risk_score in
  let sla := _calculate_sla priority in
  justification <~ Py.get contextual_analysis "justification" (PStr "") ;;
  business_context <~
    Py.get contextual_analysis "business_context" (PStr "") ;;
  Ok {| risk_score := risk_score;
        priority := priority;
        exploitability := exploitability;
        impact := impact;
        exposure := exposure;
        confidence := confidence;
        justification := justification;
        business_context := business_context;
        recommended_sla := sla |}.

(** The assessment returned when anything raises. *)
Definition error_assessment (e : exn) : RiskAssessment :=
  {| risk_score := 7;
     priority := "P1";
     exploitability := 7;
     impact := 7;
     exposure := 7;
     confidence := PFloat 0.5;
     justification := PStr ("Assessment error: " ++ exn_str e);
     business_context := PStr "Unknown";
     recommended_sla := "1 week" |}.

(** The [try] block of [assess]. *)
Definition assess_body
  (lib : PyLib) (finding : SonarQubeFinding) (code_context : string)
  (rule_details : option dict) : prog (result RiskAssessment) :=
  exploitability <-? Ret (_calculate_exploitability finding rule_details) ;;
  let impact := _calculate_impact finding code_context in
  let exposure := _calculate_exposure finding code_context in
  contextual_analysis <-?
    lift (_get_contextual_analysis lib finding code_context
            exploitability impact exposure) ;;
  Ret (score exploitability impact exposure contextual_analysis).

Definition assess
  (lib : PyLib) (finding : SonarQubeFinding) (code_context : string)
  (rule_details : option dict) : prog RiskAssessment :=
  ptry (assess_body lib finding code_context rule_details)
       (fun e => Ret (error_assessment e)).

End RiskAssessor.

(** ** False-positive detection (analyzers/false_positive.py) *)

Module FalsePositiveDetector.

Record FalsePositiveAnalysis : Type := {
  is_false_positive : pyval;
  confidence : float;
  reasoning : pyval;
  evidence : pyval;
  recommendation : pyval
}.

Definition model : string := "codellama:13b".

(** [float(v)]. *)
Definition to_float (lib : PyLib) (v : pyval) : result float :=
  match v with
  | PFloat f => Ok f
  | PInt n =>
      match PyNum.float_of_int n with
      | Some f => Ok f
      | None => Raise Py.int_too_large
      end
  | PBool b => Ok (Py.float_of_bool b)
  | PStr s =>
      match float_of_str lib s with
      | Some f => Ok f
      | None =>
          Raise (Exn ValueError
                     ("could not convert string to float: '" ++ s ++ "'"))
      end
  | _ =>
      Raise (Exn TypeError
                 ("float() argument must be a string or a real number, not '"
                  ++ Py.type_name v ++ "'"))
  end.

(** The result of [_parse_response] when [json.loads] raises. *)
Definition unparsed : FalsePositiveAnalysis :=
  {| is_false_positive := PBool false;
     confidence := 0;
     reasoning := PStr "Failed to parse analysis result";
     evidence := PList [];
     recommendation := PStr "Manual review required" |}.

Definition of_data (lib : PyLib) (data : pyval)
  : result FalsePositiveAnalysis :=
  is_fp <~ Py.get data "is_false_positive" (PBool false) ;;
  conf <~ Py.get data "confidence" (PFloat 0) ;;
  conf <~ to_float lib conf ;;
  reasoning <~ Py.get data "reasoning" (PStr "") ;;
  evidence <~ Py.get data "evidence" (PList []) ;;
  recommendation <~ Py.get data "recommendation" (PStr "") ;;
  Ok {| is_false_positive := is_fp;
        confidence := conf;
        reasoning := reasoning;
        evidence := evidence;
        recommendation := recommendation |}.

(** [except json.JSONDecodeError] catches that class alone: another
    exception of [json.loads], and what the fields raise, go on to
    [analyze]. *)
Definition _parse_response (lib : PyLib) (response : string)
  : result FalsePositiveAnalysis :=
  match json_loads lib (JsonInProse.json_text response) with
  | None =>
      let e := JsonInProse.json_error lib (JsonInProse.json_text response) in
      if JsonInProse.is_json_decode_error e then Ok unparsed else Raise e
  | Some data => of_data lib data
  end.

(** The result of [analyze] when anything raises. *)
Definition error_analysis (e : exn) : FalsePositiveAnalysis :=
  {| is_false_positive := PBool false;
     confidence := 0;
     reasoning := PStr ("Analysis error: " ++ exn_str e);
     evidence := PList [];
     recommendation :=
       PStr "Manual review required due to analysis error" |}.

(** The [try] block of [analyze]. The language and the framework it
    detects only go into the prompt. *)
Definition analyze_body (lib : PyLib) (finding : SonarQubeFinding)
  (code_context : string) (rule_details : option dict)
  : prog (result FalsePositiveAnalysis) :=
  response <-? call (Generate FalsePositivePrompt model) ;;
  Ret (_parse_response lib response).

Definition analyze (lib : PyLib) (finding : SonarQubeFinding)
  (code_context : string) (rule_details : option dict)
  : prog FalsePositiveAnalysis :=
  ptry (analyze_body lib finding code_context rule_details)
       (fun e => Ret (error_analysis e)).

(** Whether [generate_comment] returns: it walks over the evidence. *)
Definition generate_comment (analysis : FalsePositiveAnalysis)
  : result unit :=
  if negb (Py.truthy (is_false_positive analysis)) then Ok tt
  else
    match evidence analysis with
    | PStr _ | PList _ | PDict _ => Ok tt
    | v =>
        Raise (Exn TypeError
                   ("'" ++ Py.type_name v ++ "' object is not iterable"))
    end.

End FalsePositiveDetector.

(** ** Fix generation and validation (analyzers/fix_generator.py) *)

Module FixGenerator.

Import PyStr PyNum.

Record FixValidation : Type := {
  is_safe : bool;
  checks_passed : list string;
  checks_failed : list string;
  warnings : list string
}.

Record FixResult : Type := {
  fixed_code : string;
  diff : string;
  explanation : pyval;
  test_suggestions : pyval;
  validation : FixValidation;
  confidence : pyval
}.

Definition FIXABLE_PATTERNS : list (string * list string) :=
  [ ("null_pointer", ["S2259"; "S2637"; "NP_"]);
    ("resource_leak", ["S2095"; "OBL_"]);
    ("sql_injection", ["S3649"; "S2077"; "SQL_"]);
    ("hardcoded_credentials", ["S2068"; "S6290"]);
    ("insecure_random", ["S2245"; "S2119"]);
    ("path_traversal", ["S2083"; "PATH_"]);
    ("weak_crypto", ["S4426"; "S5542"]) ].

Definition model : string := "deepseek-coder-v2:33b".

Fixpoint first_pattern (rule_key_upper : string)
  (table : list (string * list string)) : option string :=
  match table with
  | [] => None
  | (pattern, rule_indicators) :: rest =>
      if existsb (fun indicator => contains (upper indicator) rule_key_upper)
                 rule_indicators
      then Some pattern
      else first_pattern rule_key_upper rest
  end.

Definition _identify_pattern (rule_key : string) : option string :=
  first_pattern (upper rule_key) FIXABLE_PATTERNS.

Definition extension_map : list (string * string) :=
  [ (".java", "java"); (".kt", "kotlin"); (".py", "python");
    (".js", "javascript"); (".ts", "typescript"); (".go", "go");
    (".rs", "rust"); (".cpp", "cpp"); (".c", "c"); (".cs", "csharp") ].

Fixpoint first_extension (path : string) (table : list (string * string))
  : string :=
  match table with
  | [] => "unknown"
  | (ext, lang) :: rest =>
      if endswith path ext then lang else first_extension path rest
  end.

Definition _detect_language (file_path : string) : string :=
  first_extension file_path extension_map.

(** Whether [_build_fix_prompt] returns: it slices the rule description
    out of the rule details when there are any. *)
Definition _build_fix_prompt (rule_details : option dict) : result unit :=
  match rule_details with
  | Some ((_ :: _) as d) =>
      match Py.dict_get d "htmlDesc" (PStr "") with
      | PStr _ | PList _ => Ok tt
      | PDict _ => Raise (Exn TypeError "unhashable type: 'slice'")
      | v =>
          Raise (Exn TypeError
                     ("'" ++ Py.type_name v
                      ++ "' object is not subscriptable"))
      end
  | _ => Ok tt
  end.

(** [except json.JSONDecodeError: return None]; another exception of
    [json.loads] goes on to [generate_fix]. *)
Definition _parse_fix_response (lib : PyLib) (response : string)
  : result (option pyval) :=
  match json_loads lib (JsonInProse.json_text response) with
  | Some v => Ok (Some v)
  | None =>
      let e := JsonInProse.json_error lib (JsonInProse.json_text response) in
      if JsonInProse.is_json_decode_error e then Ok None else Raise e
  end.

Definition _create_diff (lib : PyLib) (original fixed : string) : string :=
  concat "" (unified_diff lib (splitlines_keepends original)
                              (splitlines_keepends fixed)).

Definition error_handling_keywords : list string :=
  [ "try"; "catch"; "except"; "finally"; "throw"; "raise" ].

(** [sum(1 for kw in error_handling_keywords if kw in text.lower())]. *)
Definition error_handling (text : string) : Z :=
  Z.of_nat
    (List.length
       (filter (fun kw => contains kw (lower text))
               error_handling_keywords)).

(** Where the scan for [\w+\s*=] stands: outside a candidate, in its
    word, or in the white space after its word. *)
Inductive scan : Type := Outside | InWord | InSpace.

(** [len(re.findall(r'\w+\s*=', text))]. A match is a maximal run of word
    characters, then white space, then the equals sign; the search goes
    on after the sign, and two matches never overlap. *)
Fixpoint assignments_from (st : scan) (text : string) : Z :=
  match text with
  | EmptyString => 0
  | String c t =>
      if isword c then assignments_from InWord t
      else
        match st with
        | Outside => assignments_from Outside t
        | InWord | InSpace =>
            if Ascii.eqb c "="%char then 1 + assignments_from Outside t
            else if isspace c then assignments_from InSpace t
            else assignments_from Outside t
        end
  end.

Definition assignments (text : string) : Z := assignments_from Outside text.

(** [len(re.findall(quote not after a backslash, text))]. *)
Fixpoint unescaped_from (q : ascii) (after_backslash : bool) (text : string)
  : Z :=
  match text with
  | EmptyString => 0
  | String c t =>
      (if (Ascii.eqb c q && negb after_backslash)%bool then 1 else 0)
      + unescaped_from q (Ascii.eqb c "\"%char) t
  end.

Definition unescaped (q : ascii) (text : string) : Z :=
  unescaped_from q false text.

Definition brace_languages : list string :=
  [ "java"; "javascript"; "typescript"; "c"; "cpp"; "csharp"; "go" ].

Definition double_quote : ascii := ascii_of_N 34.
Definition single_quote : ascii := ascii_of_N 39.

Definition _has_obvious_syntax_errors (code language : string) : bool :=
  if (existsb (String.eqb language) brace_languages
      && (negb (count_char "{" code =? count_char "}" code)
          || negb (count_char "(" code =? count_char ")" code)))%bool
  then true
  else if negb (count_char "[" code =? count_char "]" code) then true
  else
    let double_quotes := unescaped double_quote code in
    let single_quotes := unescaped single_quote code in
    (negb (double_quotes mod 2 =? 0) || negb (single_quotes mod 2 =? 0))%bool.

Definition _validate_fix (original fixed : string)
  (finding : SonarQubeFinding) (language : string) : FixValidation :=
  let checks_passed : list string := [] in
  let checks_failed : list string := [] in
  let warnings : list string := [] in
  (* Check 1 *)
  let original_lines := line_count original in
  let fixed_lines := line_count fixed in
  let '(checks_passed, warnings) :=
    if int_gt_float (Z.abs (fixed_lines - original_lines))
                    (float_of_count original_lines * 0.5)%float
    then (checks_passed,
          app warnings
              ["Significant size change: " ++ of_int original_lines
               ++ " -> " ++ of_int fixed_lines ++ " lines"])
    else (app checks_passed ["Code size change is reasonable"], warnings) in
  (* Check 2 *)
  let original_error_handling := error_handling original in
  let fixed_error_handling := error_handling fixed in
  let '(checks_passed, warnings) :=
    if fixed_error_handling <? original_error_handling
    then (checks_passed, app warnings ["Error handling may have been removed"])
    else (app checks_passed ["Error handling preserved"], warnings) in
  (* Check 3 *)
  let original_assignments := assignments original in
  let fixed_assignments := assignments fixed in
  let '(checks_passed, warnings) :=
    if int_lt_float fixed_assignments
                    (float_of_count original_assignments * 0.8)%float
    then (checks_passed,
          app warnings ["Significant logic may have been removed"])
    else (app checks_passed ["Logic structure preserved"], warnings) in
  (* Check 4 *)
  let '(checks_passed, checks_failed) :=
    if _has_obvious_syntax_errors fixed language
    then (checks_passed,
          app checks_failed ["Potential syntax errors detected"])
    else (app checks_passed ["No obvious syntax errors"], checks_failed) in
  (* Check 5 *)
  let '(checks_passed, checks_failed) :=
    if String.eqb (strip original) (strip fixed)
    then (checks_passed, app checks_failed ["No changes were made"])
    else (app checks_passed ["Code was modified"], checks_failed) in
  let is_safe :=
    ((Z.of_nat (List.length checks_failed) =? 0)
     && (Z.of_nat (List.length warnings) <? 2))%bool in
  {| is_safe := is_safe;
     checks_passed := checks_passed;
     checks_failed := checks_failed;
     warnings := warnings |}.

(** [fix_data['fixed_code']] on any value. *)
Definition subscript (v : pyval) (k : string) : result pyval :=
  match v with
  | PDict d =>
      match Py.lookup k d with
      | Some x => Ok x
      | None => Raise (Exn KeyError ("'" ++ k ++ "'"))
      end
  | PList _ =>
      Raise (Exn TypeError "list indices must be integers or slices, not str")
  | PStr _ => Raise (Exn TypeError "string indices must be integers")
  | _ =>
      Raise (Exn TypeError
                 ("'" ++ Py.type_name v ++ "' object is not subscriptable"))
  end.

(** [fixed.splitlines] asks for a [str]. *)
Definition as_text (v : pyval) : result string :=
  match v with
  | PStr s => Ok s
  | _ => Raise (Py.no_attribute v "splitlines")
  end.

(** The [try] block of [generate_fix] after the model has answered. *)
Definition fix_of_response (lib : PyLib) (finding : SonarQubeFinding)
  (code_context language response : string) : result (option FixResult) :=
  parsed <~ _parse_fix_response lib response ;;
  match parsed with
  | None => Ok None
  | Some fix_data =>
      if negb (Py.truthy fix_data) then Ok None
      else
        fixed_v <~ subscript fix_data "fixed_code" ;;
        fixed <~ as_text fixed_v ;;
        let diff := _create_diff lib code_context fixed in
        let validation := _validate_fix code_context fixed finding language in
        explanation <~ Py.get fix_data "explanation" (PStr "") ;;
        test_suggestions <~ Py.get fix_data "test_suggestions" (PList []) ;;
        confidence <~ Py.get fix_data "confidence" (PFloat 0.8) ;;
        Ok (Some {| fixed_code := fixed;
                    diff := diff;
                    explanation := explanation;
                    test_suggestions := test_suggestions;
                    validation := validation;
                    confidence := confidence |})
  end.

Definition generate_fix_body (lib : PyLib) (finding : SonarQubeFinding)
  (code_context full_file_content : string) (rule_details : option dict)
  : prog (result (option FixResult)) :=
  match _identify_pattern (rule_key finding) with
  | None => Ret (Ok None)
  | Some pattern =>
      let language := _detect_language (file_path finding) in
      _ <-? Ret (_build_fix_prompt rule_details) ;;
      response <-? call (Generate FixPrompt model) ;;
      Ret (fix_of_response lib finding code_context language response)
  end.

Definition generate_fix (lib : PyLib) (finding : SonarQubeFinding)
  (code_context full_file_content : string) (rule_details : option dict)
  : prog (option FixResult) :=
  ptry (generate_fix_body lib finding code_context full_file_content
          rule_details)
       (fun _ => Ret None).

End FixGenerator.

(** ** The orchestrator (agent/agent_core.py) *)

Module SonarQubeAgent.

Import PyStr.
Import RiskAssessor(RiskAssessment).
Import FalsePositiveDetector(FalsePositiveAnalysis).
Import FixGenerator(FixResult).

(** The behaviour settings the agent reads, each with the default of its
    [get]. *)
Record Config : Type := {
  fp_min_confidence : float;
  auto_mark : bool;
  require_review_below : float;
  fix_min_confidence : float;
  request_copilot_review : bool;
  auto_fix_priorities : list string;
  max_prs_per_hour : Z;
  max_comments_per_hour : Z
}.

Definition default_config : Config :=
  {| fp_min_confidence := 0.85;
     auto_mark := true;
     require_review_below := 0.70;
     fix_min_confidence := 0.90;
     request_copilot_review := true;
     auto_fix_priorities := ["P0"; "P1"];
     max_prs_per_hour := 5;
     max_comments_per_hour := 20 |}.

Record Stats : Type := {
  findings_analyzed : Z;
  false_positives_detected : Z;
  fixes_generated : Z;
  prs_created : Z;
  errors : Z
}.

(** The mutable fields of the agent; times are in microseconds. *)
Record Agent : Type := {
  prs_created_this_hour : Z;
  comments_posted_this_hour : Z;
  rate_limit_reset_time : Z;
  stats : Stats
}.

(** [timedelta(hours=1)]. *)
Definition hour : Z := 3600000000.

Definition set_stats (f : Stats -> Stats) (a : Agent) : Agent :=
  {| prs_created_this_hour := prs_created_this_hour a;
     comments_posted_this_hour := comments_posted_this_hour a;
     rate_limit_reset_time := rate_limit_reset_time a;
     stats := f (stats a) |}.

Definition count_finding (s : Stats) : Stats :=
  {| findings_analyzed := findings_analyzed s + 1;
     false_positives_detected := false_positives_detected s;
     fixes_generated := fixes_generated s;
     prs_created := prs_created s;
     errors := errors s |}.

Definition count_false_positive (s : Stats) : Stats :=
  {| findings_analyzed := findings_analyzed s;
     false_positives_detected := false_positives_detected s + 1;
     fixes_generated := fixes_generated s;
     prs_created := prs_created s;
     errors := errors s |}.

Definition count_fix_and_pr (s : Stats) : Stats :=
  {| findings_analyzed := findings_analyzed s;
     false_positives_detected := false_positives_detected s;
     fixes_generated := fixes_generated s + 1;
     prs_created := prs_created s + 1;
     errors := errors s |}.

Definition count_error (s : Stats) : Stats :=
  {| findings_analyzed := findings_analyzed s;
     false_positives_detected := false_positives_detected s;
     fixes_generated := fixes_generated s;
     prs_created := prs_created s;
     errors := errors s + 1 |}.

(** [self.comments_posted_this_hour += 1]. *)
Definition count_comment (a : Agent) : Agent :=
  {| prs_created_this_hour := prs_created_this_hour a;
     comments_posted_this_hour := comments_posted_this_hour a + 1;
     rate_limit_reset_time := rate_limit_reset_time a;
     stats := stats a |}.

(** [self.prs_created_this_hour += 1]. *)
Definition count_pr (a : Agent) : Agent :=
  {| prs_created_this_hour := prs_created_this_hour a + 1;
     comments_posted_this_hour := comments_posted_this_hour a;
     rate_limit_reset_time := rate_limit_reset_time a;
     stats := stats a |}.

Definition reset_window (now : Z) (a : Agent) : Agent :=
  {| prs_created_this_hour := 0;
     comments_posted_this_hour := 0;
     rate_limit_reset_time := now + hour;
     stats := stats a |}.

(** A method of the agent: it reads and writes the agent's fields, calls
    collaborators, and returns or raises; what it wrote stays written when
    it raises. *)
Definition M (A : Type) : Type := Agent -> prog (result A * Agent).

Definition mret {A} (a : A) : M A := fun s => Ret (Ok a, s).

Definition mbind {A B} (m : M A) (f : A -> M B) : M B :=
  fun s =>
    r <- m s ;;
    match r with
    | (Ok a, s') => f a s'
    | (Raise e, s') => Ret (Raise e, s')
    end.

Notation "x <<- m ;; k" := (mbind m (fun x => k))
  (at level 61, m at next level, right associativity).
Notation "m ;;; k" := (mbind m (fun _ => k))
  (at level 61, right associativity).

Definition mcall {X} (c : ext X) : M X :=
  fun s => x <- call c ;; Ret (Ok x, s).

Definition mlift {A} (p : prog A) : M A :=
  fun s => a <- p ;; Ret (Ok a, s).

Definition mresult {A} (r : result A) : M A := fun s => Ret (r, s).

Definition mget : M Agent := fun s => Ret (Ok s, s).

Definition mmodify (f : Agent -> Agent) : M unit :=
  fun s => Ret (Ok tt, f s).

Definition mtry {A} (body : M A) (handler : exn -> M A) : M A :=
  fun s =>
    r <- body s ;;
    match r with
    | (Ok a, s') => Ret (Ok a, s')
    | (Raise e, s') => handler e s'
    end.

Definition when (b : bool) (m : M unit) : M unit :=
  if b then m else mret tt.

Definition nonempty (o : option string) : bool :=
  match o with
  | Some s => negb (String.eqb s "")
  | None => false
  end.

Definition _reset_rate_limits_if_needed : M unit :=
  now <<- mcall Now ;;
  a <<- mget ;;
  if rate_limit_reset_time a <=? now then
    now' <<- mcall Now ;;
    mmodify (reset_window now')
  else mret tt.

Definition _check_rate_limit (cfg : Config) (operation : string) : M bool :=
  _reset_rate_limits_if_needed ;;;
  a <<- mget ;;
  if String.eqb operation "pr" then
    mret (prs_created_this_hour a <? max_prs_per_hour cfg)
  else if String.eqb operation "comment" then
    mret (comments_posted_this_hour a <? max_comments_per_hour cfg)
  else mret true.

(** Post a comment when the comment limit allows, and count it. *)
Definition post_comment (cfg : Config) (finding : SonarQubeFinding)
  (render : result comment_kind) : M unit :=
  ok <<- _check_rate_limit cfg "comment" ;;
  when ok
    (c <<- mresult render ;;
     mcall (AddComment (key finding) c) ;;;
     mmodify count_comment).

Definition _get_code_context (finding : SonarQubeFinding)
  : M (option string) :=
  let context_lines := 20 in
  let from_line := Z.max 1 (line finding - context_lines) in
  let to_line := line finding + context_lines in
  code <<- mcall (GetSourceCode (component finding) from_line to_line) ;;
  if nonempty code then mret code
  else
    repo <<- mcall (ExtractRepo (component finding)) ;;
    match repo with
    | Some repo_name =>
        if nonempty repo then
          full_file <<-
            mcall (GetFileContents repo_name (file_path finding) "main") ;;
          match full_file with
          | Some text =>
              if nonempty full_file then
                let lines := splitlines text in
                mret (Some (join (String (ascii_of_N 10) "")
                              (slice_list (from_line - 1) to_line lines)))
              else mret None
          | None => mret None
          end
        else mret None
    | None => mret None
    end.

Definition _get_full_file (finding : SonarQubeFinding) : M (option string) :=
  repo <<- mcall (ExtractRepo (component finding)) ;;
  match repo with
  | Some repo_name =>
      if nonempty repo
      then mcall (GetFileContents repo_name (file_path finding) "main")
      else mret None
  | None => mret None
  end.

Definition _handle_false_positive (cfg : Config)
  (finding : SonarQubeFinding) (analysis : FalsePositiveAnalysis)
  : M unit :=
  post_comment cfg finding
    (_ <~ FalsePositiveDetector.generate_comment analysis ;;
     Ok FalsePositiveComment) ;;;
  if (auto_mark cfg
      && (require_review_below cfg
          <? FalsePositiveDetector.confidence analysis)%float)%bool
  then
    mcall (TransitionIssue (key finding) "wontfix"
             "Marked as false positive by automated analysis") ;;;
    mret tt
  else mret tt.

Definition _create_fix_pr (cfg : Config) (finding : SonarQubeFinding)
  (fix_result : FixResult) (risk_assessment : RiskAssessment)
  : M (option PullRequest) :=
  ok <<- _check_rate_limit cfg "pr" ;;
  if negb ok then mret None
  else
    mtry
      (repo <<- mcall (ExtractRepo (component finding)) ;;
       match repo with
       | Some repo_name =>
           if nonempty repo then
             let branch_name :=
               "sonarqube-fix/"
               ++ replace_char ":" "-" (rule_key finding)
               ++ "-" ++ slice 0 8 (key finding) in
             mcall (CreateBranch repo_name branch_name "main") ;;;
             let commit_message :=
               "fix: resolve " ++ rule_name finding ++ " in "
               ++ file_path finding in
             mcall (CreateOrUpdateFile repo_name branch_name
                      (file_path finding)
                      (FixGenerator.fixed_code fix_result)
                      commit_message) ;;;
             pr_title <<- mbind (mcall GeneratePRTitle) mresult ;;
             pr_body <<- mbind (mcall GeneratePRBody) mresult ;;
             pr_labels <<- mbind (mcall GetPRLabels) mresult ;;
             pr <<- mcall (CreatePullRequest repo_name pr_title pr_body
                             branch_name "main" pr_labels) ;;
             match pr with
             | Some created =>
                 mmodify count_pr ;;;
                 when (request_copilot_review cfg)
                   (mcall (RequestCopilotReview repo_name (number created))
                    ;;; mret tt) ;;;
                 post_comment cfg finding (Ok PRLinkComment) ;;;
                 mret pr
             | None => mret None
             end
           else mret None
       | None => mret None
       end)
      (fun _ => mret None).

Definition _escalate_to_human (cfg : Config) (finding : SonarQubeFinding)
  (risk_assessment : RiskAssessment) (reason : string) : M unit :=
  post_comment cfg finding (Ok (EscalationComment reason)) ;;;
  mcall (LogEscalated (key finding) reason).

(** Lines 221-241: what is done with the answer of the fix generator. *)
Definition dispose_fix (cfg : Config) (finding : SonarQubeFinding)
  (risk_assessment : RiskAssessment) (fix_result : option FixResult)
  : M unit :=
  match fix_result with
  | Some fx =>
      if FixGenerator.is_safe (FixGenerator.validation fx) then
        confident <<-
          mresult (Py.ge_float (FixGenerator.confidence fx)
                     (fix_min_confidence cfg)) ;;
        if confident then
          _create_fix_pr cfg finding fx risk_assessment ;;;
          mmodify (set_stats count_fix_and_pr)
        else
          (* The warning of lines 230-233 formats the confidence. *)
          mresult (Py.format_percent (FixGenerator.confidence fx)) ;;;
          _escalate_to_human cfg finding risk_assessment
            "Low confidence fix"
      else
        _escalate_to_human cfg finding risk_assessment
          "Complex fix required"
  | None =>
      _escalate_to_human cfg finding risk_assessment "Complex fix required"
  end.

(** Phase 4. *)
Definition auto_fix (lib : PyLib) (cfg : Config)
  (finding : SonarQubeFinding) (code_context : string)
  (rule_details : option dict) (risk_assessment : RiskAssessment)
  : M unit :=
  if existsb (String.eqb (RiskAssessor.priority risk_assessment))
             (auto_fix_priorities cfg)
  then
    full_file <<- _get_full_file finding ;;
    match full_file with
    | Some text =>
        if nonempty full_file then
          fix_result <<-
            mlift (FixGenerator.generate_fix lib finding code_context text
                     rule_details) ;;
          dispose_fix cfg finding risk_assessment fix_result
        else mret tt
    | None => mret tt
    end
  else mret tt.

(** Phases 3 and 4. *)
Definition assess_and_fix (lib : PyLib) (cfg : Config)
  (finding : SonarQubeFinding) (code_context : string)
  (rule_details : option dict) : M unit :=
  risk_assessment <<-
    mlift (RiskAssessor.assess lib finding code_context rule_details) ;;
  post_comment cfg finding (Ok RiskComment) ;;;
  auto_fix lib cfg finding code_context rule_details risk_assessment.

Definition process_finding (lib : PyLib) (cfg : Config)
  (finding : SonarQubeFinding) : M unit :=
  mmodify (set_stats count_finding) ;;;
  code_context <<- _get_code_context finding ;;
  match code_context with
  | Some context =>
      if nonempty code_context then
        rule_details <<- mcall (GetRuleDetails (rule_key finding)) ;;
        fp_analysis <<-
          mlift (FalsePositiveDetector.analyze lib finding context
                   rule_details) ;;
        if (Py.truthy (FalsePositiveDetector.is_false_positive fp_analysis)
            && (fp_min_confidence cfg
                <=? FalsePositiveDetector.confidence fp_analysis)%float)%bool
        then
          _handle_false_positive cfg finding fp_analysis ;;;
          mmodify (set_stats count_false_positive)
        else assess_and_fix lib cfg finding context rule_details
      else mret tt
  | None => mret tt
  end.

(** The loop body of [run_once]: an exception of one finding is counted
    and the next finding is processed. *)
Definition process_guarded (lib : PyLib) (cfg : Config)
  (finding : SonarQubeFinding) : M unit :=
  mtry (process_finding lib cfg finding)
       (fun _ => mmodify (set_stats count_error)).

End SonarQubeAgent.

(** ** Scenarios: concrete findings, answers of the model and environments *)

Module Scenarios.

Import SonarQubeAgent.

(** The double quote, for the JSON texts below. *)
Definition q : string := String FixGenerator.double_quote "".

Definition newline : string := String (ascii_of_N 10) "".

(** A library that parses nothing. *)
Definition no_lib : PyLib :=
  {| json_loads := fun _ => None;
     json_raises := fun _ => None;
     float_of_str := fun _ => None;
     unified_diff := fun _ _ => [] |}.

(** A library whose [json.loads] knows the listed texts and their values. *)
Definition lib_of (known : list (string * pyval)) : PyLib :=
  {| json_loads := fun s => Py.lookup s known;
     json_raises := fun _ => None;
     float_of_str := fun _ => None;
     unified_diff := fun _ _ => [] |}.

Definition backend_down : exn := Exn BackendError "connection refused".

(** An environment: what the model answers to each kind of prompt, the
    source window, the rule details, whether comments get posted, the file
    on the code host and the pull request it creates; the clock stands at
    [now]. *)
Record script : Type := {
  fp_answer : result string;
  risk_answer : result string;
  fix_answer : result string;
  source : option string;
  rule : option dict;
  comment_posted : bool;
  file : option string;
  pull_request : option PullRequest;
  now : Z
}.

Definition play (s : script) : oracle :=
  fun X c _ =>
    match c in ext T return T with
    | Now => now s
    | Generate FalsePositivePrompt _ => fp_answer s
    | Generate RiskPrompt _ => risk_answer s
    | Generate FixPrompt _ => fix_answer s
    | GetSourceCode _ _ _ => source s
    | GetRuleDetails _ => rule s
    | AddComment _ _ => comment_posted s
    | TransitionIssue _ _ _ => true
    | ExtractRepo _ => Some "acme/shop"
    | GetFileContents _ _ _ => file s
    | CreateBranch _ _ _ => true
    | CreateOrUpdateFile _ _ _ _ _ => true
    | GeneratePRTitle => Ok "Fix"
    | GeneratePRBody => Ok "Automated fix"
    | GetPRLabels => Ok []
    | CreatePullRequest _ _ _ _ _ _ => pull_request s
    | RequestCopilotReview _ _ => true
    | LogEscalated _ _ => tt
    end.

Definition fresh_agent : Agent :=
  {| prs_created_this_hour := 0;
     comments_posted_this_hour := 0;
     rate_limit_reset_time := hour;
     stats := {| findings_analyzed := 0;
                 false_positives_detected := 0;
                 fixes_generated := 0;
                 prs_created := 0;
                 errors := 0 |} |}.

(** Scenario A: a null-pointer rule, severity HIGH, in a user service,
    with no marker in the code. *)
Definition finding_a : SonarQubeFinding :=
  {| key := "AXk3f9Qz01";
     rule_key := "java:S2259";
     rule_name := "Null pointers should not be dereferenced";
     severity := "HIGH";
     message := "A NullPointerException could be thrown";
     file_path := "src/main/UserService.java";
     line := 42;
     status := "OPEN";
     project := "shop";
     component := "shop:src/main/UserService.java";
     creation_date := "2024-01-01T00:00:00+0000";
     language := Some "java" |}.

Definition context_a : string := "String n = u.getName();".

(** The model is sure: confidence 1.0. *)
Definition sure_text : string := "{" ++ q ++ "confidence" ++ q ++ ": 1.0}".

Definition sure_value : pyval := PDict [("confidence", PFloat 1)].

Definition sure_lib : PyLib := lib_of [(sure_text, sure_value)].

Definition script_a : script :=
  {| fp_answer := Ok "I cannot tell.";
     risk_answer := Ok sure_text;
     fix_answer := Raise backend_down;
     source := Some context_a;
     rule := None;
     comment_posted := true;
     file := Some context_a;
     pull_request := None;
     now := 0 |}.

(** The model backend is down. *)
Definition script_down : script :=
  {| fp_answer := Raise backend_down;
     risk_answer := Raise backend_down;
     fix_answer := Raise backend_down;
     source := Some context_a;
     rule := None;
     comment_posted := true;
     file := Some context_a;
     pull_request := None;
     now := 0 |}.

(** Rule details whose type is not a string. *)
Definition odd_rule : option dict := Some [("type", PInt 3)].

(** The assessment of scenario A when the model is sure. *)
Definition assessment_a : RiskAssessor.RiskAssessment :=
  Eval vm_compute in
    value (play script_a)
          (RiskAssessor.assess sure_lib finding_a context_a None) [].

(** A Python file. *)
Definition finding_py : SonarQubeFinding :=
  {| key := "AXk3f9Qz02";
     rule_key := "python:S2259";
     rule_name := "Null pointers should not be dereferenced";
     severity := "HIGH";
     message := "None could be dereferenced";
     file_path := "app/main.py";
     line := 7;
     status := "OPEN";
     project := "shop";
     component := "shop:app/main.py";
     creation_date := "2024-01-01T00:00:00+0000";
     language := Some "py" |}.

(** Scenario C: an injection in a payment endpoint; the model answers
    with the code it was given. *)
Definition finding_c : SonarQubeFinding :=
  {| key := "AXk3f9Qz03";
     rule_key := "java:S3649";
     rule_name := "Database queries should not be vulnerable to injection";
     severity := "CRITICAL";
     message := "Change this code to not construct SQL queries from user data";
     file_path := "src/main/PaymentService.java";
     line := 12;
     status := "OPEN";
     project := "shop";
     component := "shop:src/main/PaymentService.java";
     creation_date := "2024-01-01T00:00:00+0000";
     language := Some "java" |}.

Definition context_c : string :=
  "@PostMapping public String find(String id) { return base + id; }".

Definition same_code_text : string :=
  "{" ++ q ++ "fixed_code" ++ q ++ ": " ++ q ++ context_c ++ q ++ ", "
  ++ q ++ "confidence" ++ q ++ ": 0.95}".

Definition same_code_value : pyval :=
  PDict [("fixed_code", PStr context_c); ("confidence", PFloat 0.95)].

Definition lib_c : PyLib :=
  lib_of [(sure_text, sure_value); (same_code_text, same_code_value)].

Definition script_c : script :=
  {| fp_answer := Ok "I cannot tell.";
     risk_answer := Ok sure_text;
     fix_answer := Ok same_code_text;
     source := Some context_c;
     rule := None;
     comment_posted := true;
     file := Some context_c;
     pull_request := None;
     now := 0 |}.

(** Scenario A with a finding source that rejects every comment. *)
Definition script_unposted : script :=
  {| fp_answer := Ok "I cannot tell.";
     risk_answer := Ok sure_text;
     fix_answer := Raise backend_down;
     source := Some context_a;
     rule := None;
     comment_posted := false;
     file := Some context_a;
     pull_request := None;
     now := 0 |}.

(** Scenario D: the model wraps its verdict in prose. *)
Definition verdict_body : string :=
  q ++ "is_false_positive" ++ q ++ ": true, "
  ++ q ++ "confidence" ++ q ++ ": 0.95".

Definition verdict_text : string := "{" ++ verdict_body ++ "}".

Definition verdict_dict : dict :=
  [("is_false_positive", PBool true); ("confidence", PFloat 0.95)].

Definition verdict_value : pyval := PDict verdict_dict.

Definition prose_answer : string :=
  "Sure! " ++ verdict_text ++ " Hope that helps!".

Definition lib_d : PyLib := lib_of [(verdict_text, verdict_value)].

Definition script_d : script :=
  {| fp_answer := Ok prose_answer;
     risk_answer := Raise backend_down;
     fix_answer := Raise backend_down;
     source := Some context_a;
     rule := None;
     comment_posted := true;
     file := Some context_a;
     pull_request := None;
     now := 0 |}.

(** Scenario E: the model denies the false positive, in words: its verdict
    is the string "false", at confidence 0.95. *)
Definition denial_text : string :=
  "{" ++ q ++ "is_false_positive" ++ q ++ ": " ++ q ++ "false" ++ q ++ ", "
  ++ q ++ "confidence" ++ q ++ ": 0.95}".

Definition denial_value : pyval :=
  PDict [("is_false_positive", PStr "false"); ("confidence", PFloat 0.95)].

Definition lib_e : PyLib := lib_of [(denial_text, denial_value)].

Definition script_e : script :=
  {| fp_answer := Ok denial_text;
     risk_answer := Raise backend_down;
     fix_answer := Raise backend_down;
     source := Some context_a;
     rule := None;
     comment_posted := true;
     file := Some context_a;
     pull_request := None;
     now := 0 |}.

(** An agent that has created as many pull requests as the default cap
    allows, in a window that is still open. *)
Definition agent_at_pr_cap : Agent :=
  {| prs_created_this_hour := 5;
     comments_posted_this_hour := 0;
     rate_limit_reset_time := hour;
     stats := stats fresh_agent |}.

(** A fix that is marked safe, at confidence 0.95. *)
Definition safe_fix : FixGenerator.FixResult :=
  {| FixGenerator.fixed_code := "String n = u == null ? null : u.getName();";
     FixGenerator.diff := "";
     FixGenerator.explanation := PStr "Guard against null";
     FixGenerator.test_suggestions := PList [];
     FixGenerator.validation :=
       {| FixGenerator.is_safe := true;
          FixGenerator.checks_passed := ["Code was modified"];
          FixGenerator.checks_failed := [];
          FixGenerator.warnings := [] |};
     FixGenerator.confidence := PFloat 0.95 |}.

(** The model guards the dereference of scenario A, and the code host
    creates the pull request. *)
Definition fixed_a : string := "String n = u == null ? null : u.getName();".

Definition fix_text_a : string :=
  "{" ++ q ++ "fixed_code" ++ q ++ ": " ++ q ++ fixed_a ++ q ++ ", "
  ++ q ++ "confidence" ++ q ++ ": 0.95}".

Definition fix_value_a : pyval :=
  PDict [("fixed_code", PStr fixed_a); ("confidence", PFloat 0.95)].

Definition lib_safe : PyLib :=
  lib_of [(sure_text, sure_value); (fix_text_a, fix_value_a)].

Definition script_safe : script :=
  {| fp_answer := Ok "I cannot tell.";
     risk_answer := Ok sure_text;
     fix_answer := Ok fix_text_a;
     source := Some context_a;
     rule := None;
     comment_posted := true;
     file := Some context_a;
     pull_request :=
       Some {| number := PInt 7;
               html_url := PStr "https://example.org/acme/shop/pull/7" |};
     now := 0 |}.

(** A verdict of false positive whose evidence is [null]. *)
Definition analysis_without_evidence
  : FalsePositiveDetector.FalsePositiveAnalysis :=
  {| FalsePositiveDetector.is_false_positive := PBool true;
     FalsePositiveDetector.confidence := 0.95;
     FalsePositiveDetector.reasoning := PStr "The value is checked above";
     FalsePositiveDetector.evidence := PNone;
     FalsePositiveDetector.recommendation := PStr "Close" |}.


End Scenarios.

(** ** Words of the specification *)

Module Spec.

Import PyStr.

(** The model call failed, or [json.loads] rejected what it answered. *)
Definition model_failed (lib : PyLib) (reply : result string) : Prop :=
  match reply with
  | Raise _ => True
  | Ok response => json_loads lib (JsonInProse.json_text response) = None
  end.

(** A code context with no sensitive keyword, no entry-point marker, no
    privacy marker and no authorization guard. *)
Definition unmarked (code_context : string) : bool :=
  (negb (existsb (fun kw => contains (fst kw) (lower code_context))
                 RiskAssessor.sensitive_keywords)
   && negb (RiskAssessor.any_in RiskAssessor.api_indicators code_context)
   && negb (contains "private " code_context
            || contains "internal " code_context)
   && negb (RiskAssessor.any_in RiskAssessor.auth_patterns code_context))%bool.

(** The model was asked for a fix. *)
Definition is_fix_prompt (e : event) : bool :=
  match e with
  | Ev (Generate FixPrompt _) _ => true
  | _ => false
  end.

(** In the words of the specification: the occurrences of a keyword in a
    text, and the occurrences of the six error-handling keywords in a text,
    whatever the case of its letters. *)
Fixpoint occurrences (kw text : string) : Z :=
  (if prefix kw text then 1 else 0)
  + match text with
    | EmptyString => 0
    | String _ t => occurrences kw t
    end.

Definition keyword_occurrences (text : string) : Z :=
  fold_right Z.add 0
    (map (fun kw => occurrences kw (lower text))
         FixGenerator.error_handling_keywords).

(** The reasons of the escalations of a trace, in order. *)
Fixpoint escalations (tr : list event) : list string :=
  match tr with
  | [] => []
  | Ev (LogEscalated _ reason) _ :: rest => reason :: escalations rest
  | _ :: rest => escalations rest
  end.

(** A call that escalates, if it does, with one of the reasons listed. *)
Definition escalates_only (allowed : list string) X (c : ext X) : bool :=
  match c with
  | LogEscalated _ reason => existsb (String.eqb reason) allowed
  | _ => true
  end.

(** A call that is no transition of an issue. *)
Definition not_transition X (c : ext X) : bool :=
  match c with
  | TransitionIssue _ _ _ => false
  | _ => true
  end.

(** The finding was moved to won't fix. *)
Definition is_wontfix (e : event) : bool :=
  match e with
  | Ev (TransitionIssue _ transition _) _ => String.eqb transition "wontfix"
  | _ => false
  end.

(** What [analyze] returns for an answer of the model. *)
Definition analysis_of_reply (lib : PyLib) (reply : result string)
  : FalsePositiveDetector.FalsePositiveAnalysis :=
  match (response <~ reply ;;
         FalsePositiveDetector._parse_response lib response) with
  | Ok a => a
  | Raise e => FalsePositiveDetector.error_analysis e
  end.

Definition two_reasons : list string :=
  ["Low confidence fix"; "Complex fix required"]%string.

(** The reasons with which [dispose_fix] may escalate, case by case. *)
Definition reasons_of (cfg : SonarQubeAgent.Config)
  (fix_result : option FixGenerator.FixResult) : list string :=
  match fix_result with
  | Some fx =>
      if FixGenerator.is_safe (FixGenerator.validation fx) then
        match Py.ge_float (FixGenerator.confidence fx)
                          (SonarQubeAgent.fix_min_confidence cfg) with
        | Ok false => ["Low confidence fix"%string]
        | _ => []
        end
      else ["Complex fix required"%string]
  | None => ["Complex fix required"%string]
  end.

End Spec.

(** ** Language and framework detection (analyzers/false_positive.py) *)

Module Detection.

Import PyStr.

Definition extension_map : list (string * string) :=
  [ (".java", "java"); (".kt", "kotlin"); (".py", "python");
    (".js", "javascript"); (".ts", "typescript"); (".go", "go");
    (".rs", "rust"); (".cpp", "cpp"); (".c", "c"); (".cs", "csharp");
    (".rb", "ruby"); (".php", "php") ].

Definition _detect_language (file_path : string) : string :=
  FixGenerator.first_extension file_path extension_map.

Definition framework_patterns : list (string * list (string * list string)) :=
  [ ("java",
     [ ("Spring",
        ["@SpringBootApplication"; "@RestController"; "@Service";
         "@Autowired"]);
       ("Jakarta EE", ["@ApplicationScoped"; "@Inject"; "@Path"]);
       ("Hibernate", ["@Entity"; "@Table"; "@Column"]) ]);
    ("python",
     [ ("Django", ["from django"; "models.Model"; "@login_required"]);
       ("Flask", ["from flask import"; "@app.route"; "Flask(__name__)"]);
       ("FastAPI", ["from fastapi import"; "@app.get"; "FastAPI()"]) ]);
    ("javascript",
     [ ("React", ["import React"; "useState"; "useEffect"]);
       ("Vue", ["Vue.component"; "new Vue"; "export default {"]);
       ("Express", ["express()"; "app.get"; "app.post"]) ]);
    ("typescript",
     [ ("Angular", ["@Component"; "@Injectable"; "@NgModule"]);
       ("NestJS", ["@Controller"; "@Injectable"; "@Module"]) ]) ].

(** [framework_patterns[language]], when the language is a key. *)
Fixpoint frameworks_of (language : string)
  (table : list (string * list (string * list string)))
  : option (list (string * list string)) :=
  match table with
  | [] => None
  | (lang, frameworks) :: rest =>
      if String.eqb language lang then Some frameworks
      else frameworks_of language rest
  end.

(** The first framework one of whose patterns is in the code. *)
Fixpoint first_framework (code_context : string)
  (frameworks : list (string * list string)) : option string :=
  match frameworks with
  | [] => None
  | (framework, patterns) :: rest =>
      if existsb (fun pattern => contains pattern code_context) patterns
      then Some framework
      else first_framework code_context rest
  end.

Definition _detect_framework (code_context language : string)
  : option string :=
  match frameworks_of language framework_patterns with
  | Some frameworks => first_framework code_context frameworks
  | None => None
  end.

End Detection.

(** ** A batch of findings (agent/agent_core.py, [run_once]) *)

Module Batch.

Import SonarQubeAgent.

(** The loop of [run_once] over the findings it fetched. *)
Fixpoint process_all (lib : PyLib) (cfg : Config)
  (findings : list SonarQubeFinding) : M unit :=
  match findings with
  | [] => mret tt
  | finding :: rest =>
      mbind (process_guarded lib cfg finding)
            (fun _ => process_all lib cfg rest)
  end.

End Batch.

(** ** Measures of values, traces and priorities *)

Module Measures.

(** A value the risk score can be multiplied by. *)
Definition numeric (v : pyval) : bool :=
  match v with
  | PFloat _ | PInt _ | PBool _ => true
  | _ => false
  end.

Definition is_text (v : pyval) : bool :=
  match v with
  | PStr _ => true
  | _ => false
  end.

(** The urgency of a priority: P0 is the most urgent. *)
Definition urgency (priority : string) : Z :=
  if String.eqb priority "P0" then 3
  else if String.eqb priority "P1" then 2
  else if String.eqb priority "P2" then 1
  else 0.

(** The events of a trace that satisfy [p]. *)
Definition count (p : event -> bool) (tr : list event) : Z :=
  Z.of_nat (List.length (filter p tr)).

Definition is_add_comment X (c : ext X) : bool :=
  match c with
  | AddComment _ _ => true
  | _ => false
  end.

(** A call to the model. *)
Definition is_generate X (c : ext X) : bool :=
  match c with
  | Generate _ _ => true
  | _ => false
  end.

(** A call to the code host that writes: a branch, a commit, a pull
    request or a review request. *)
Definition writes_to_host X (c : ext X) : bool :=
  match c with
  | CreateBranch _ _ _ | CreateOrUpdateFile _ _ _ _ _
  | CreatePullRequest _ _ _ _ _ _ | RequestCopilotReview _ _ => true
  | _ => false
  end.

(** A request to the code host for a pull request, whatever its answer. *)
Definition is_pr_request X (c : ext X) : bool :=
  match c with
  | CreatePullRequest _ _ _ _ _ _ => true
  | _ => false
  end.

(** A pull request that was created. *)
Definition created_pr (e : event) : bool :=
  match e with
  | Ev (CreatePullRequest _ _ _ _ _ _) (Some _) => true
  | _ => false
  end.

(** A comment that was sent to the finding source. *)
Definition sent_comment (e : event) : bool := event_is is_add_comment e.

(** An event that no counter of the rate limits counts. *)
Definition neutral (e : event) : bool :=
  (negb (sent_comment e) && negb (created_pr e))%bool.

(** The pull requests the code host created, in order. *)
Fixpoint pull_requests (tr : list event) : list PullRequest :=
  match tr with
  | [] => []
  | Ev (CreatePullRequest _ _ _ _ _ _) (Some pr) :: rest =>
      pr :: pull_requests rest
  | _ :: rest => pull_requests rest
  end.


(** A call that writes nothing to the code host. *)
Definition no_host_write X (c : ext X) : bool := negb (writes_to_host X c).

(** A call that, when it writes to the finding source, writes to the issue
    [issue], and that moves it, when it does, to won't fix with the comment
    of the false-positive analysis. *)
Definition addressed_to (issue : string) X (c : ext X) : bool :=
  match c with
  | AddComment k _ => String.eqb k issue
  | TransitionIssue k transition comment =>
      (String.eqb k issue && String.eqb transition "wontfix"
       && String.eqb comment
            "Marked as false positive by automated analysis")%bool
  | LogEscalated k _ => String.eqb k issue
  | _ => true
  end.

End Measures.

(** ** Contracts of the agent's methods *)

Module Contracts.

Import SonarQubeAgent.

(** [ensures ok Q tr p]: after the calls [tr], and as long as every answer
    satisfies [ok], the program [p] ends with calls and a result that
    satisfy [Q]. *)
Inductive ensures (ok : forall X, ext X -> X -> Prop) {A}
  (Q : list event -> A -> Prop) : list event -> prog A -> Prop :=
| ensures_ret tr a : Q tr a -> ensures ok Q tr (Ret a)
| ensures_call tr {X} (c : ext X) k :
    (forall x, ok X c x -> ensures ok Q (tr ++ [Ev c x]) (k x)) ->
    ensures ok Q tr (Call c k).

(** A method that keeps [J], a property of the calls made and of the
    agent's fields, whether it returns or raises. *)
Definition keeps (ok : forall X, ext X -> X -> Prop)
  (J : list event -> Agent -> Prop) {A} (m : M A) : Prop :=
  forall tr s,
    J tr s -> ensures ok (fun tr' ra => J tr' (snd ra)) tr (m s).

(** An environment all of whose answers satisfy [ok]. *)
Definition answers (ok : forall X, ext X -> X -> Prop) (h : oracle) : Prop :=
  forall X (c : ext X) hist, ok X c (h X c hist).

(** No assumption on the answers. *)
Definition any_answer X (c : ext X) (x : X) : Prop := True.

(** The clock stays before [reset_time]: the window is not reset. *)
Definition before (reset_time : Z) X (c : ext X) : X -> Prop :=
  match c in ext T return T -> Prop with
  | Now => fun now => now < reset_time
  | _ => fun _ => True
  end.

(** Both counters of the window are between zero and their cap. *)
Definition within_caps (cfg : Config) (s : Agent) : Prop :=
  0 <= prs_created_this_hour s <= Z.max 0 (max_prs_per_hour cfg)
  /\ 0 <= comments_posted_this_hour s <= Z.max 0 (max_comments_per_hour cfg).

(** The window ends at [reset_time], and each counter is ahead of the
    comments sent and of the pull requests created by a fixed amount. *)
Definition accounted (reset_time comments_ahead prs_ahead : Z)
  (tr : list event) (s : Agent) : Prop :=
  rate_limit_reset_time s = reset_time
  /\ comments_posted_this_hour s - Measures.count Measures.sent_comment tr
     = comments_ahead
  /\ prs_created_this_hour s - Measures.count Measures.created_pr tr
     = prs_ahead.




End Contracts.

(** * Properties *)

Local Open Scope list_scope.

(** ** Running programs *)

Lemma run_bind {A B} (h : oracle) (p : prog A) (f : A -> prog B) hist :
  run h (bind p f) hist =
  let r := run h p hist in
  let r' := run h (f (fst r)) (hist ++ snd r) in
  (fst r', snd r ++ snd r').
Proof.
  revert hist; induction p as [a | X c k IH]; intros hist; cbn.
  - rewrite app_nil_r. destruct (run h (f a) hist); reflexivity.
  - rewrite IH. cbn. rewrite <- app_assoc. reflexivity.
Qed.

(** ** The risk assessor *)

Module RiskProperties.

Import RiskAssessor.
Local Open Scope float_scope.

(** What [assess] returns, given the answer of the model. *)
Lemma assess_body_value lib finding ctx rd (h : oracle) hist :
  value h (assess_body lib finding ctx rd) hist =
  (ex <~ _calculate_exploitability finding rd ;;
   score ex (_calculate_impact finding ctx) (_calculate_exposure finding ctx)
     (contextual_of_reply lib (h _ (Generate RiskPrompt model) hist))).
Proof.
  unfold value, assess_body.
  destruct (_calculate_exploitability finding rd); reflexivity.
Qed.

Lemma assess_value lib finding ctx rd (h : oracle) hist :
  value h (assess lib finding ctx rd) hist =
  match value h (assess_body lib finding ctx rd) hist with
  | Ok r => r
  | Raise e => error_assessment e
  end.
Proof.
  unfold value, assess, ptry. rewrite run_bind.
  destruct (run h (assess_body lib finding ctx rd) hist) as [[r|e] tr];
    reflexivity.
Qed.

Lemma score_fields ex im xp analysis r :
  score ex im xp analysis = Ok r ->
  exploitability r = ex /\ impact r = im /\ exposure r = xp /\
  Py.get analysis "confidence" (PFloat 0.8) = Ok (confidence r) /\
  (ratio <~ Py.int_div_float (ex * im * xp) 100 ;;
   Py.float_mul ratio (confidence r)) = Ok (risk_score r) /\
  priority r = _calculate_priority (risk_score r) /\
  recommended_sla r = _calculate_sla (priority r).
Proof.
  unfold score. intros H.
  destruct (Py.get analysis "confidence" (PFloat 0.8)) as [c|]; [|discriminate].
  cbn [rbind] in H |- *.
  destruct (Py.int_div_float (ex * im * xp) 100) as [ratio|]; [|discriminate].
  cbn [rbind] in H |- *.
  destruct (Py.float_mul ratio c) as [rs|] eqn:Hrs; [|discriminate].
  cbn [rbind] in H.
  destruct (Py.get analysis "justification" (PStr "")); [|discriminate].
  destruct (Py.get analysis "business_context" (PStr "")); [|discriminate].
  cbn [rbind] in H. injection H as <-. cbn. rewrite Hrs. repeat split; reflexivity.
Qed.

(** C1. On the path of [assess] that raises nothing, the risk score is
    exploitability * impact * exposure / 100 * confidence, the priority is
    the step function of the score with the breakpoints 8, 6 and 4, and the
    recommended SLA is given by the priority alone: 24 hours, 1 week,
    2 weeks, 1 month. *)
Theorem assess_score_priority_sla lib finding ctx rd (h : oracle) hist r :
  value h (assess_body lib finding ctx rd) hist = Ok r ->
  value h (assess lib finding ctx rd) hist = r /\
  (ratio <~ Py.int_div_float (exploitability r * impact r * exposure r) 100 ;;
   Py.float_mul ratio (confidence r)) = Ok (risk_score r) /\
  (((8 <=? risk_score r) = true
    /\ priority r = "P0"%string /\ recommended_sla r = "24 hours"%string)
   \/ ((8 <=? risk_score r) = false /\ (6 <=? risk_score r) = true
       /\ priority r = "P1"%string /\ recommended_sla r = "1 week"%string)
   \/ ((6 <=? risk_score r) = false /\ (4 <=? risk_score r) = true
       /\ priority r = "P2"%string /\ recommended_sla r = "2 weeks"%string)
   \/ ((4 <=? risk_score r) = false
       /\ priority r = "P3"%string /\ recommended_sla r = "1 month"%string)).
Proof.
  intros Hbody. split.
  - rewrite assess_value, Hbody. reflexivity.
  - rewrite assess_body_value in Hbody.
    destruct (_calculate_exploitability finding rd) as [ex|]; [|discriminate].
    cbn [rbind] in Hbody.
    apply score_fields in Hbody
      as (-> & -> & -> & _ & Hscore & Hprio & Hsla).
    split; [exact Hscore|].
    rewrite Hsla, Hprio. unfold _calculate_priority.
    destruct (8 <=? risk_score r) eqn:H8; [left; auto|].
    destruct (6 <=? risk_score r) eqn:H6; [right; left; auto|].
    destruct (4 <=? risk_score r) eqn:H4; [right; right; left; auto|].
    right; right; right; auto.
Qed.

(** C1, at scenario A with a model that is sure. *)
Lemma assess_score_priority_sla_witness :
  value (Scenarios.play Scenarios.script_a)
        (assess_body Scenarios.sure_lib Scenarios.finding_a
           Scenarios.context_a None) [] = Ok Scenarios.assessment_a
  /\ value (Scenarios.play Scenarios.script_a)
           (assess Scenarios.sure_lib Scenarios.finding_a
              Scenarios.context_a None) [] = Scenarios.assessment_a
  /\ risk_score Scenarios.assessment_a = 270 / 100 * 1.
Proof.
  assert (H : value (Scenarios.play Scenarios.script_a)
                (assess_body Scenarios.sure_lib Scenarios.finding_a
                   Scenarios.context_a None) [] = Ok Scenarios.assessment_a)
    by (vm_compute; reflexivity).
  split; [exact H|].
  split; [exact (proj1 (assess_score_priority_sla _ _ _ _ _ _ _ H))|].
  vm_compute; reflexivity.
Defined.

(** The error assessment opens the fix phase: with the default settings
    [auto_fix] starts by resolving the repository of the file. *)
Lemma error_assessment_is_auto_fixed lib finding ctx rd e s :
  exists k,
    SonarQubeAgent.auto_fix lib SonarQubeAgent.default_config finding ctx rd
      (error_assessment e) s
    = Call (ExtractRepo (component finding)) k.
Proof. eexists. cbn. reflexivity. Qed.

(** C10. [assess] returns an assessment whatever happens: when anything
    raises in its body, the heuristic sub-scores included, it returns the
    fixed assessment with risk score 7.0, priority P1, sub-scores 7,
    confidence 0.5 and SLA 1 week; P1 is in the default auto-fix set, so
    the finding enters the fix phase. *)
Theorem assess_error_is_high_risk lib finding ctx rd (h : oracle) hist e :
  value h (assess_body lib finding ctx rd) hist = Raise e ->
  let r := value h (assess lib finding ctx rd) hist in
  risk_score r = 7 /\ priority r = "P1"%string
  /\ exploitability r = 7%Z /\ impact r = 7%Z /\ exposure r = 7%Z
  /\ confidence r = PFloat 0.5 /\ recommended_sla r = "1 week"%string
  /\ existsb (String.eqb (priority r))
       (SonarQubeAgent.auto_fix_priorities SonarQubeAgent.default_config)
     = true
  /\ forall s, exists k,
       SonarQubeAgent.auto_fix lib SonarQubeAgent.default_config finding
         ctx rd r s
       = Call (ExtractRepo (component finding)) k.
Proof.
  intros Hbody r. subst r. rewrite assess_value, Hbody.
  repeat (split; [reflexivity|]).
  intros s. apply error_assessment_is_auto_fixed.
Qed.

(** C10, at rule details whose type is a number: the exploitability
    heuristic raises. *)
Lemma assess_error_is_high_risk_witness :
  value (Scenarios.play Scenarios.script_a)
        (assess_body Scenarios.sure_lib Scenarios.finding_a
           Scenarios.context_a Scenarios.odd_rule) []
  = Raise (Py.no_attribute (PInt 3) "lower")
  /\ priority (value (Scenarios.play Scenarios.script_a)
                 (assess Scenarios.sure_lib Scenarios.finding_a
                    Scenarios.context_a Scenarios.odd_rule) [])
     = "P1"%string.
Proof.
  assert (H : value (Scenarios.play Scenarios.script_a)
                (assess_body Scenarios.sure_lib Scenarios.finding_a
                   Scenarios.context_a Scenarios.odd_rule) []
              = Raise (Py.no_attribute (PInt 3) "lower"))
    by (vm_compute; reflexivity).
  split; [exact H|].
  exact (proj1 (proj2 (assess_error_is_high_risk _ _ _ _ _ _ _ H))).
Defined.

(** *** The sub-scores stay in range *)

Lemma exploitability_range finding rd ex :
  _calculate_exploitability finding rd = Ok ex -> (2 <= ex <= 10)%Z.
Proof.
  unfold _calculate_exploitability, RULE_EXPLOITABILITY, category_score,
    severity_default.
  repeat match goal with
         | |- context [if ?b then _ else _] => destruct b
         end;
    try (intros [= <-]; lia).
  all: destruct rd as [[|entry d]|]; try (intros [= <-]; lia).
  all: destruct (Py.lower _); cbn [rbind]; [|discriminate].
  all: repeat match goal with
              | |- context [if ?b then _ else _] => destruct b
              end;
    intros [= <-]; lia.
Qed.

Lemma fold_keywords_ge code (kws : list (string * Z)) (init : Z) :
  (init <=
   fold_left
     (fun score kw =>
        if PyStr.contains (fst kw) code then Z.max score (snd kw)
        else score) kws init)%Z.
Proof.
  revert init; induction kws as [|kw kws IH]; intros init; cbn; [lia|].
  destruct (PyStr.contains (fst kw) code);
    [etransitivity; [|apply IH]; lia | apply IH].
Qed.

Lemma impact_range finding ctx :
  (3 <= _calculate_impact finding ctx <= 10)%Z.
Proof.
  unfold _calculate_impact. split; [|apply Z.le_min_r].
  apply Z.min_glb; [|lia].
  etransitivity; [|apply fold_keywords_ge].
  repeat match goal with
         | |- context [if ?b then _ else _] => destruct b
         end; cbn; lia.
Qed.

Lemma exposure_range finding ctx :
  (1 <= _calculate_exposure finding ctx <= 10)%Z.
Proof.
  unfold _calculate_exposure.
  repeat match goal with
         | |- context [if ?b then _ else _] => destruct b
         end; cbn; lia.
Qed.

(** An [int] up to 1000 converts to a [float]. *)
Lemma small_int_converts (n : Z) :
  (0 <= n <= 1000)%Z -> exists f, PyNum.float_of_int n = Some f.
Proof.
  intros Hn.
  assert (Hall :
    forallb (fun k => match PyNum.float_of_int (Z.of_nat k) with
                      | Some _ => true
                      | None => false
                      end) (seq 0 1001) = true)
    by (vm_compute; reflexivity).
  rewrite forallb_forall in Hall.
  specialize (Hall (Z.to_nat n)).
  rewrite Z2Nat.id in Hall by lia.
  destruct (PyNum.float_of_int n) as [f|]; [eauto|].
  assert (false = true); [|discriminate].
  apply Hall, in_seq. lia.
Qed.

Lemma scores_divide finding rd ctx ex :
  _calculate_exploitability finding rd = Ok ex ->
  exists ratio,
    Py.int_div_float
      (ex * _calculate_impact finding ctx * _calculate_exposure finding ctx)
      100 = Ok ratio.
Proof.
  intros Hex. apply exploitability_range in Hex.
  pose proof (impact_range finding ctx).
  pose proof (exposure_range finding ctx).
  assert (0 <= ex * _calculate_impact finding ctx <= 100)%Z by nia.
  unfold Py.int_div_float.
  destruct (small_int_converts
              (ex * _calculate_impact finding ctx
               * _calculate_exposure finding ctx)) as [f ->]; [nia|eauto].
Qed.

Lemma failed_model_falls_back lib reply :
  Spec.model_failed lib reply ->
  contextual_of_reply lib reply = fallback_analysis.
Proof.
  unfold Spec.model_failed, contextual_of_reply, JsonInProse.loads.
  destruct reply as [response|e]; cbn [rbind]; [|reflexivity].
  intros ->. reflexivity.
Qed.

(** C9, as the code has it. When the model call fails or its answer is
    rejected by [json.loads], and the exploitability heuristic raised
    nothing, [assess] still returns the scored assessment: the heuristic
    sub-scores, the fallback confidence 0.7, the generic justification,
    and the score, priority and SLA computed from them. *)
Theorem assess_survives_model_failure lib finding ctx rd (h : oracle) hist ex :
  _calculate_exploitability finding rd = Ok ex ->
  Spec.model_failed lib (h _ (Generate RiskPrompt model) hist) ->
  exists ratio,
    Py.int_div_float
      (ex * _calculate_impact finding ctx * _calculate_exposure finding ctx)
      100 = Ok ratio
    /\ value h (assess lib finding ctx rd) hist =
       {| risk_score := ratio * 0.7;
          priority := _calculate_priority (ratio * 0.7);
          exploitability := ex;
          impact := _calculate_impact finding ctx;
          exposure := _calculate_exposure finding ctx;
          confidence := PFloat 0.7;
          justification :=
            PStr "Automated risk assessment based on rule severity and code location";
          business_context := PStr "Unknown";
          recommended_sla := _calculate_sla (_calculate_priority (ratio * 0.7))
       |}.
Proof.
  intros Hex Hfail.
  destruct (scores_divide finding rd ctx ex Hex) as [ratio Hratio].
  exists ratio. split; [exact Hratio|].
  rewrite assess_value, assess_body_value, Hex. cbn [rbind].
  rewrite (failed_model_falls_back _ _ Hfail).
  unfold score, fallback_analysis. cbn [Py.get Py.dict_get Py.lookup String.eqb
    Ascii.eqb Bool.eqb rbind].
  rewrite Hratio. reflexivity.
Qed.

(** C9, with the backend down at scenario A. *)
Lemma assess_survives_model_failure_witness :
  _calculate_exploitability Scenarios.finding_a None = Ok 6%Z
  /\ Spec.model_failed Scenarios.no_lib (Raise Scenarios.backend_down)
  /\ exists ratio,
      Py.int_div_float
        (6 * _calculate_impact Scenarios.finding_a Scenarios.context_a
         * _calculate_exposure Scenarios.finding_a Scenarios.context_a)
        100 = Ok ratio
      /\ confidence
           (value (Scenarios.play Scenarios.script_down)
              (assess Scenarios.no_lib Scenarios.finding_a
                 Scenarios.context_a None) [])
         = PFloat 0.7.
Proof.
  assert (Hex : _calculate_exploitability Scenarios.finding_a None = Ok 6%Z)
    by (vm_compute; reflexivity).
  split; [exact Hex|]. split; [exact I|].
  destruct (assess_survives_model_failure Scenarios.no_lib
              Scenarios.finding_a Scenarios.context_a None
              (Scenarios.play Scenarios.script_down) [] 6%Z Hex I)
    as [ratio [Hratio Hvalue]].
  exists ratio. split; [exact Hratio|].
  rewrite Hvalue. reflexivity.
Defined.

Lemma float_0_7_is_not_0_8 : PFloat 0.7 <> PFloat 0.8.
Proof.
  intros H.
  apply (f_equal (fun v => match v with
                           | PFloat f => f =? 0.7
                           | _ => false
                           end)) in H.
  vm_compute in H. discriminate.
Qed.

(** C9 as stated fails: with the backend down the confidence of the
    assessment is 0.7, not the default 0.8. *)
Lemma fallback_confidence_is_not_default :
  let r := value (Scenarios.play Scenarios.script_down)
             (assess Scenarios.no_lib Scenarios.finding_a
                Scenarios.context_a None) [] in
  Spec.model_failed Scenarios.no_lib (Raise Scenarios.backend_down)
  /\ confidence r = PFloat 0.7 /\ confidence r <> PFloat 0.8.
Proof.
  cbv zeta. split; [exact I|].
  assert (H : confidence
                (value (Scenarios.play Scenarios.script_down)
                   (assess Scenarios.no_lib Scenarios.finding_a
                      Scenarios.context_a None) []) = PFloat 0.7)
    by (vm_compute; reflexivity).
  split; [exact H|]. rewrite H. exact float_0_7_is_not_0_8.
Qed.

(** *** Scenario A *)

Lemma fold_keywords_none code (kws : list (string * Z)) (init : Z) :
existsb (fun kw => PyStr.contains (fst kw) code) kws = false ->
fold_left
  (fun score kw =>
     if PyStr.contains (fst kw) code then Z.max score (snd kw) else score)
  kws init = init.
Proof.
revert init; induction kws as [|kw kws IH]; intros init; cbn; [reflexivity|].
intros H. apply orb_false_iff in H as [-> H]. apply IH, H.
Qed.

Lemma unmarked_parts ctx :
Spec.unmarked ctx = true ->
existsb (fun kw => PyStr.contains (fst kw) (PyStr.lower ctx))
        sensitive_keywords = false
/\ any_in api_indicators ctx = false
/\ (PyStr.contains "private " ctx || PyStr.contains "internal " ctx)%bool
   = false
/\ any_in auth_patterns ctx = false.
Proof.
unfold Spec.unmarked. intros H.
repeat (apply andb_true_iff in H as [H ?]).
repeat split; apply negb_true_iff; assumption.
Qed.

(** The sub-scores of scenario A: 6 from the severity table, 9 from the
    path, 5 by default. *)
Lemma scenario_a_sub_scores finding ctx :
rule_key finding = "java:S2259"%string ->
severity finding = "HIGH"%string ->
file_path finding = "src/main/UserService.java"%string ->
Spec.unmarked ctx = true ->
_calculate_exploitability finding None = Ok 6%Z
/\ _calculate_impact finding ctx = 9%Z
/\ _calculate_exposure finding ctx = 5%Z.
Proof.
intros Hrule Hsev Hpath Hun.
apply unmarked_parts in Hun as (Hkw & Hapi & Hpriv & Hauth).
split; [|split].
- unfold _calculate_exploitability. rewrite Hrule, Hsev.
  vm_compute. reflexivity.
- unfold _calculate_impact. rewrite (fold_keywords_none _ _ _ Hkw), Hpath.
  vm_compute. reflexivity.
- unfold _calculate_exposure. rewrite Hapi, Hpriv, Hauth, Hpath.
  vm_compute. reflexivity.
Qed.

(** C3, as the code has it. For rule java:S2259, severity HIGH, file
    src/main/UserService.java, no rule details and an unmarked context,
    every assessment that raises nothing has exploitability 6, impact 9
    and exposure 5, and its risk score is 270 / 100.0 times the confidence.
    At confidence 1.0, and at the defaults 0.8 and 0.7, the priority is P3,
    which is outside the default auto-fix set: the fix phase does nothing.
    The rule itself is of the fixable pattern null_pointer. *)
Theorem scenario_a_is_tracked_only lib finding ctx (h : oracle) hist r :
rule_key finding = "java:S2259"%string ->
severity finding = "HIGH"%string ->
file_path finding = "src/main/UserService.java"%string ->
Spec.unmarked ctx = true ->
value h (assess_body lib finding ctx None) hist = Ok r ->
exploitability r = 6%Z /\ impact r = 9%Z /\ exposure r = 5%Z
/\ Py.float_mul (270 / 100) (confidence r) = Ok (risk_score r)
/\ (In (confidence r) [PFloat 1; PFloat 0.8; PFloat 0.7] ->
    priority r = "P3"%string
    /\ existsb (String.eqb (priority r))
         (SonarQubeAgent.auto_fix_priorities SonarQubeAgent.default_config)
       = false
    /\ forall s,
         SonarQubeAgent.auto_fix lib SonarQubeAgent.default_config finding
           ctx None r s = Ret (Ok tt, s))
/\ FixGenerator._identify_pattern (rule_key finding)
   = Some "null_pointer"%string.
Proof.
intros Hrule Hsev Hpath Hun Hbody.
destruct (scenario_a_sub_scores finding ctx Hrule Hsev Hpath Hun)
  as (Hex & Him & Hxp).
rewrite assess_body_value, Hex, Him, Hxp in Hbody. cbn [rbind] in Hbody.
apply score_fields in Hbody as (He & Hi & Hx & _ & Hscore & Hprio & _).
assert (Hratio : Py.int_div_float (6 * 9 * 5) 100 = Ok (270 / 100))
  by (vm_compute; reflexivity).
rewrite Hratio in Hscore. cbn [rbind] in Hscore.
repeat (split; [assumption|]).
split; [|rewrite Hrule; vm_compute; reflexivity].
intros Hconf.
assert (Hp3 : priority r = "P3"%string).
{ rewrite Hprio.
  destruct Hconf as [Hc|[Hc|[Hc|[]]]]; rewrite <- Hc in Hscore;
    cbn [Py.float_mul] in Hscore;
    assert (Hrs : Ok (risk_score r) = Ok (risk_score r)) by reflexivity;
    rewrite <- Hscore in Hrs at 1; inversion Hrs as [Hval];
    vm_compute; reflexivity. }
split; [exact Hp3|]. rewrite Hp3.
split; [reflexivity|].
intros s. unfold SonarQubeAgent.auto_fix. rewrite Hp3. reflexivity.
Qed.

(** C3, at scenario A with a model that is sure. *)
Lemma scenario_a_is_tracked_only_witness :
value (Scenarios.play Scenarios.script_a)
      (assess_body Scenarios.sure_lib Scenarios.finding_a
         Scenarios.context_a None) [] = Ok Scenarios.assessment_a
/\ priority Scenarios.assessment_a = "P3"%string.
Proof.
assert (H : value (Scenarios.play Scenarios.script_a)
              (assess_body Scenarios.sure_lib Scenarios.finding_a
                 Scenarios.context_a None) [] = Ok Scenarios.assessment_a)
  by (vm_compute; reflexivity).
split; [exact H|].
refine (proj1 (proj1 (proj2 (proj2 (proj2 (proj2
  (scenario_a_is_tracked_only Scenarios.sure_lib Scenarios.finding_a
     Scenarios.context_a (Scenarios.play Scenarios.script_a) []
     Scenarios.assessment_a eq_refl eq_refl eq_refl _ H))))) _)).
- vm_compute. reflexivity.
- left. reflexivity.
Defined.

(** C3 as stated fails: in scenario A, with the model at confidence 1.0,
    the sub-scores are 6, 9 and 5, the priority is P3, neither P0 nor P1,
    and the pipeline never asks the model for a fix. *)
Lemma scenario_a_has_no_fix_attempt :
let r := value (Scenarios.play Scenarios.script_a)
           (assess Scenarios.sure_lib Scenarios.finding_a
              Scenarios.context_a None) [] in
exploitability r = 6%Z /\ impact r = 9%Z /\ exposure r = 5%Z
/\ confidence r = PFloat 1
/\ priority r = "P3"%string
/\ ~ (priority r = "P0"%string \/ priority r = "P1"%string)
/\ existsb Spec.is_fix_prompt
     (trace (Scenarios.play Scenarios.script_a)
        (SonarQubeAgent.process_finding Scenarios.sure_lib
           SonarQubeAgent.default_config Scenarios.finding_a
           Scenarios.fresh_agent) [])
   = false.
Proof.
cbv zeta.
assert (H : value (Scenarios.play Scenarios.script_a)
              (assess Scenarios.sure_lib Scenarios.finding_a
                 Scenarios.context_a None) [] = Scenarios.assessment_a)
  by (vm_compute; reflexivity).
rewrite H.
repeat (split; [reflexivity|]).
split; [intros [Hp|Hp]; discriminate Hp|].
vm_compute. reflexivity.
Qed.

End RiskProperties.

(** ** The fix validator *)

Module FixProperties.

Import FixGenerator.

(** The three lists of [_validate_fix], check by check. *)
Lemma validation_lists original fixed finding language :
let v := _validate_fix original fixed finding language in
warnings v =
  (if PyNum.int_gt_float
        (Z.abs (PyStr.line_count fixed - PyStr.line_count original))
        (PyNum.float_of_count (PyStr.line_count original) * 0.5)%float
   then ["Significant size change: "
         ++ PyStr.of_int (PyStr.line_count original) ++ " -> "
         ++ PyStr.of_int (PyStr.line_count fixed) ++ " lines"]%string
   else [])
  ++ (if (error_handling fixed <? error_handling original)%Z
      then ["Error handling may have been removed"%string] else [])
  ++ (if PyNum.int_lt_float (assignments fixed)
           (PyNum.float_of_count (assignments original) * 0.8)%float
      then ["Significant logic may have been removed"%string] else [])
/\ checks_failed v =
   (if _has_obvious_syntax_errors fixed language
    then ["Potential syntax errors detected"%string] else [])
   ++ (if String.eqb (PyStr.strip original) (PyStr.strip fixed)
       then ["No changes were made"%string] else [])
/\ is_safe v =
   ((Z.of_nat (List.length (checks_failed v)) =? 0)%Z
    && (Z.of_nat (List.length (warnings v)) <? 2)%Z)%bool.
Proof.
unfold _validate_fix.
destruct (PyNum.int_gt_float _ _), (error_handling fixed <? _)%Z,
  (PyNum.int_lt_float _ _), (_has_obvious_syntax_errors fixed language),
  (String.eqb _ _); cbn; repeat split; reflexivity.
Qed.

(** A hard failure decides: a fix with an obvious syntax error is not
    safe. *)
Lemma syntax_error_is_unsafe original fixed finding language :
_has_obvious_syntax_errors fixed language = true ->
is_safe (_validate_fix original fixed finding language) = false
/\ In "Potential syntax errors detected"%string
      (checks_failed (_validate_fix original fixed finding language)).
Proof.
intros Hsyn.
destruct (validation_lists original fixed finding language)
  as (_ & Hfailed & Hsafe).
rewrite Hsafe, Hfailed, Hsyn. split; [reflexivity|]. left. reflexivity.
Qed.

Lemma odd_is_not_even (n : Z) : negb (n mod 2 =? 0)%Z = Z.odd n.
Proof. rewrite Zmod_odd. destruct (Z.odd n); reflexivity. Qed.

(** C2, as the code has it. The fix is not safe, whatever the other checks
    say, when its brackets are unbalanced, or when it has an odd number of
    double quotes, or of single quotes, that follow no backslash, in every
    language; and when its braces or its parentheses are unbalanced, in the
    languages java, javascript, typescript, c, cpp, csharp and go. *)
Theorem hard_failure_dominates original fixed finding language :
(existsb (String.eqb language) brace_languages = true
 /\ (PyStr.count_char "{" fixed <> PyStr.count_char "}" fixed
     \/ PyStr.count_char "(" fixed <> PyStr.count_char ")" fixed))
\/ PyStr.count_char "[" fixed <> PyStr.count_char "]" fixed
\/ Z.odd (unescaped double_quote fixed) = true
\/ Z.odd (unescaped single_quote fixed) = true ->
is_safe (_validate_fix original fixed finding language) = false
/\ In "Potential syntax errors detected"%string
      (checks_failed (_validate_fix original fixed finding language)).
Proof.
intros H. apply syntax_error_is_unsafe.
unfold _has_obvious_syntax_errors. rewrite !odd_is_not_even.
destruct H as [[-> Hb]|[Hk|[Hq|Hq]]].
- cbn [andb].
  destruct Hb as [Hb|Hb]; apply Z.eqb_neq in Hb; rewrite Hb; cbn [negb orb].
  + reflexivity.
  + rewrite orb_true_r. reflexivity.
- apply Z.eqb_neq in Hk. rewrite Hk.
  destruct (_ && _)%bool; reflexivity.
- rewrite Hq.
  destruct (_ && _)%bool; [reflexivity|].
  destruct (negb _); reflexivity.
- rewrite Hq.
  destruct (_ && _)%bool; [reflexivity|].
  destruct (negb _); [reflexivity|]. apply orb_true_r.
Qed.

(** C2, at a Java fix that loses its closing brace. *)
Lemma hard_failure_dominates_witness :
PyStr.count_char "{" "void f() { g();"
<> PyStr.count_char "}" "void f() { g();"
/\ is_safe (_validate_fix "void f() { g(); }" "void f() { g();"
              Scenarios.finding_a "java") = false.
Proof.
assert (H : PyStr.count_char "{" "void f() { g();"
            <> PyStr.count_char "}" "void f() { g();")
  by (vm_compute; discriminate).
split; [exact H|].
exact (proj1 (hard_failure_dominates "void f() { g(); }" "void f() { g();"
                Scenarios.finding_a "java"
                (or_introl (conj eq_refl (or_introl H))))).
Defined.

(** C2 as stated fails. In a Python file a fix with an unbalanced
    parenthesis is safe; and in a Java file a fix with three single quotes,
    one of them after a backslash, is safe. *)
Lemma unbalanced_or_odd_yet_safe :
(_detect_language (file_path Scenarios.finding_py) = "python"%string
 /\ PyStr.count_char "(" "x = f(" <> PyStr.count_char ")" "x = f("
 /\ is_safe (_validate_fix "x = f()" "x = f(" Scenarios.finding_py
               (_detect_language (file_path Scenarios.finding_py))) = true)
/\ (_detect_language (file_path Scenarios.finding_a) = "java"%string
    /\ Z.odd (PyStr.count_char single_quote "char c = '\'';") = true
    /\ is_safe (_validate_fix "char c = 'a';" "char c = '\'';"
                  Scenarios.finding_a
                  (_detect_language (file_path Scenarios.finding_a))) = true).
Proof.
repeat split; try (vm_compute; reflexivity).
vm_compute. discriminate.
Qed.

(** *** The error-handling check *)

Lemma size_change_is_not_error_handling (a b : string) :
("Significant size change: " ++ a ++ " -> " ++ b ++ " lines")%string
<> "Error handling may have been removed"%string.
Proof. cbn. discriminate. Qed.

(** C8, as the code has it. The validator warns that error handling may
    have been removed exactly when fewer of the six keywords try, catch,
    except, finally, throw and raise are found in the lower-cased fixed
    code than in the lower-cased original: it counts the keywords that are
    present, not their occurrences. *)
Theorem error_handling_warning original fixed finding language :
In "Error handling may have been removed"%string
   (warnings (_validate_fix original fixed finding language))
<-> (error_handling fixed < error_handling original)%Z.
Proof.
destruct (validation_lists original fixed finding language) as (-> & _).
rewrite <- Z.ltb_lt.
destruct (error_handling fixed <? error_handling original)%Z; split;
  intros H; try reflexivity.
- destruct (PyNum.int_gt_float _ _); [right|]; left; reflexivity.
- exfalso.
  destruct (PyNum.int_gt_float _ _), (PyNum.int_lt_float _ _);
    cbn in H; repeat destruct H as [H|H]; try discriminate H; try exact H;
    exact (size_change_is_not_error_handling _ _ H).
- discriminate H.
Qed.

(** C8, at a fix that drops the only handler. *)
Lemma error_handling_warning_witness :
(error_handling "f()" < error_handling "try: f() except: pass")%Z
/\ In "Error handling may have been removed"%string
      (warnings (_validate_fix "try: f() except: pass" "f()"
                   Scenarios.finding_py "python")).
Proof.
assert (H : (error_handling "f()"
             < error_handling "try: f() except: pass")%Z)
  by (vm_compute; reflexivity).
split; [exact H|].
exact (proj2 (error_handling_warning "try: f() except: pass" "f()"
                Scenarios.finding_py "python") H).
Defined.

(** C8 as stated fails: the fix keeps one of the two occurrences of try,
    and no warning is given. *)
Lemma fewer_occurrences_without_warning :
let original := ("try: a" ++ Scenarios.newline ++ "try: b")%string in
let fixed := "try: a"%string in
(Spec.keyword_occurrences fixed < Spec.keyword_occurrences original)%Z
/\ ~ In "Error handling may have been removed"%string
        (warnings (_validate_fix original fixed Scenarios.finding_py
                     "python")).
Proof.
cbv zeta. split; [vm_compute; reflexivity|].
intros H. vm_compute in H. exact H.
Qed.

End FixProperties.

(** ** Traces *)

Lemma value_bind {A B} (h : oracle) (p : prog A) (f : A -> prog B) hist :
  value h (bind p f) hist
  = value h (f (value h p hist)) (hist ++ trace h p hist).
Proof. unfold value, trace. rewrite run_bind. reflexivity. Qed.

Lemma trace_bind {A B} (h : oracle) (p : prog A) (f : A -> prog B) hist :
  trace h (bind p f) hist
  = trace h p hist ++ trace h (f (value h p hist)) (hist ++ trace h p hist).
Proof. unfold value, trace. rewrite run_bind. reflexivity. Qed.

Lemma calls_only_bind P {A B} (p : prog A) (f : A -> prog B) :
  calls_only P p -> (forall a, calls_only P (f a)) -> calls_only P (bind p f).
Proof.
  intros Hp Hf. induction Hp as [a | X c k Hc Hk IH]; cbn.
  - apply Hf.
  - constructor; assumption.
Qed.

Lemma calls_only_trace P {A} (p : prog A) (h : oracle) hist :
  calls_only P p -> forallb (event_is P) (trace h p hist) = true.
Proof.
  intros Hp. revert hist.
  induction Hp as [a | X c k Hc Hk IH]; intros hist; [reflexivity|].
  unfold trace in *. cbn. rewrite Hc. apply IH.
Qed.

Lemma escalations_app (t1 t2 : list event) :
  Spec.escalations (t1 ++ t2) = Spec.escalations t1 ++ Spec.escalations t2.
Proof.
  induction t1 as [|[X c x] t1 IH]; [reflexivity|].
  destruct c; cbn; rewrite IH; reflexivity.
Qed.

Lemma escalations_allowed allowed (tr : list event) reason :
  forallb (event_is (Spec.escalates_only allowed)) tr = true ->
  In reason (Spec.escalations tr) -> In reason allowed.
Proof.
  induction tr as [|[X c x] tr IH]; cbn [forallb]; [intros _ []|].
  intros H. apply andb_true_iff in H as [Hc Htr].
  destruct c; cbn [Spec.escalations]; try (apply IH, Htr).
  intros [<-|Hin]; [|apply IH; assumption].
  cbn in Hc. apply existsb_exists in Hc as (r & Hr & Heq).
  apply String.eqb_eq in Heq. subst. assumption.
Qed.

Lemma no_transition_no_wontfix (tr : list event) :
  forallb (event_is Spec.not_transition) tr = true ->
  existsb Spec.is_wontfix tr = false.
Proof.
  induction tr as [|[X c x] tr IH]; cbn [forallb existsb]; [reflexivity|].
  intros H. apply andb_true_iff in H as [Hc Htr]. rewrite (IH Htr).
  destruct c; try reflexivity. discriminate Hc.
Qed.

(** ** Floats *)

Lemma SFcompare_antisym (x y : SpecFloat.spec_float) c :
  SpecFloat.SFcompare x y = Some c ->
  SpecFloat.SFcompare y x = Some (CompOpp c).
Proof.
  destruct x as [sx|sx| |sx mx ex], y as [sy|sy| |sy my ey]; cbn;
    try discriminate;
    try (destruct sx; intros [= <-]; reflexivity);
    try (destruct sy; intros [= <-]; reflexivity);
    try (destruct sx, sy; intros [= <-]; reflexivity);
    try (intros [= <-]; reflexivity).
  intros [= <-]. f_equal.
  destruct sx, sy; try reflexivity;
    rewrite (Z.compare_antisym ex ey);
    destruct (ex ?= ey)%Z; cbn; try reflexivity;
    rewrite (Pos.compare_cont_antisym mx my Eq); reflexivity.
Qed.

(** Above is not at or below. *)
Lemma float_lt_not_ge (x y : float) :
  (x <? y)%float = true -> (y <=? x)%float = false.
Proof.
  rewrite ltb_spec, leb_spec. unfold SpecFloat.SFltb, SpecFloat.SFleb.
  destruct (SpecFloat.SFcompare (Prim2SF x) (Prim2SF y)) as [c|] eqn:Hc;
    [|discriminate].
  rewrite (SFcompare_antisym _ _ _ Hc).
  destruct c; try discriminate. reflexivity.
Qed.

(** ** The orchestrator *)

Module AgentProperties.

Import SonarQubeAgent.

Lemma trace_mbind {A B} (h : oracle) (m : M A) (f : A -> M B) s hist :
  trace h (mbind m f s) hist
  = trace h (m s) hist
    ++ match value h (m s) hist with
       | (Ok a, s') => trace h (f a s') (hist ++ trace h (m s) hist)
       | (Raise _, _) => []
       end.
Proof.
  unfold mbind. rewrite trace_bind.
  destruct (value h (m s) hist) as [[a|e] s']; reflexivity.
Qed.


Ltac unfold_m :=
  cbv beta iota zeta
      delta [mbind mret mcall mlift mresult mget mmodify mtry when call lift
             pbind ptry].

Ltac prog_step :=
  match goal with
  | |- calls_only _ (Ret _) => apply calls_only_ret
  | |- calls_only _ (Call _ _) => apply calls_only_call; [|intros]
  | |- calls_only _ (bind _ _) => apply calls_only_bind; [|intros]
  | |- calls_only _ (match ?x with _ => _ end) => destruct x
  | |- calls_only _ ((match ?x with _ => _ end) _) => destruct x
  end.

(** *** Which calls a method makes *)

Create HintDb calls.

Section Calls.

Variable P : forall X, ext X -> bool.

(** [P] lets through every call that is neither a transition nor an
    escalation. *)
Hypothesis allowed :
  forall X (c : ext X),
    (Spec.not_transition X c && Spec.escalates_only [] X c)%bool = true ->
    P X c = true.

Ltac calls :=
  repeat first
    [ solve [auto with calls]
    | solve [apply allowed; reflexivity]
    | prog_step
    | progress unfold_m ].

Lemma reset_calls s : calls_only P (_reset_rate_limits_if_needed s).
Proof. unfold _reset_rate_limits_if_needed. calls. Qed.

#[local] Hint Resolve reset_calls : calls.

Lemma check_calls cfg operation s :
  calls_only P (_check_rate_limit cfg operation s).
Proof. unfold _check_rate_limit. calls. Qed.

#[local] Hint Resolve check_calls : calls.

Lemma post_comment_calls cfg finding render s :
  calls_only P (post_comment cfg finding render s).
Proof. unfold post_comment. calls. Qed.

#[local] Hint Resolve post_comment_calls : calls.

Lemma code_context_calls finding s :
  calls_only P (_get_code_context finding s).
Proof. unfold _get_code_context. calls. Qed.

Lemma full_file_calls finding s : calls_only P (_get_full_file finding s).
Proof. unfold _get_full_file. calls. Qed.

Lemma create_fix_pr_calls cfg finding fx risk s :
  calls_only P (_create_fix_pr cfg finding fx risk s).
Proof. unfold _create_fix_pr. calls. Qed.

Lemma analyze_calls lib finding ctx rd :
  calls_only P (FalsePositiveDetector.analyze lib finding ctx rd).
Proof.
  unfold FalsePositiveDetector.analyze, FalsePositiveDetector.analyze_body.
  calls.
Qed.

Lemma assess_calls lib finding ctx rd :
  calls_only P (RiskAssessor.assess lib finding ctx rd).
Proof.
  unfold RiskAssessor.assess, RiskAssessor.assess_body,
    RiskAssessor._get_contextual_analysis.
  calls.
Qed.

Lemma generate_fix_calls lib finding ctx text rd :
  calls_only P (FixGenerator.generate_fix lib finding ctx text rd).
Proof.
  unfold FixGenerator.generate_fix, FixGenerator.generate_fix_body.
  calls.
Qed.

#[local] Hint Resolve code_context_calls full_file_calls create_fix_pr_calls
  analyze_calls assess_calls generate_fix_calls : calls.

Lemma escalate_calls cfg finding risk reason s :
  P _ (LogEscalated (key finding) reason) = true ->
  calls_only P (_escalate_to_human cfg finding risk reason s).
Proof. intros Hlog. unfold _escalate_to_human. calls. Qed.

(** [P] lets through the escalations with the two reasons of the pipeline. *)
Hypothesis reasons :
  forall k reason,
    In reason ["Low confidence fix"; "Complex fix required"]%string ->
    P _ (LogEscalated k reason) = true.

Lemma dispose_fix_calls cfg finding risk fix_result s :
  calls_only P (dispose_fix cfg finding risk fix_result s).
Proof.
  unfold dispose_fix.
  repeat first
    [ solve [apply escalate_calls, reasons; cbn; auto]
    | solve [auto with calls]
    | solve [apply allowed; reflexivity]
    | prog_step
    | progress unfold_m ].
Qed.

#[local] Hint Resolve dispose_fix_calls : calls.

Lemma auto_fix_calls lib cfg finding ctx rd risk s :
  calls_only P (auto_fix lib cfg finding ctx rd risk s).
Proof. unfold auto_fix. calls. Qed.

#[local] Hint Resolve auto_fix_calls : calls.

Lemma assess_and_fix_calls lib cfg finding ctx rd s :
  calls_only P (assess_and_fix lib cfg finding ctx rd s).
Proof. unfold assess_and_fix. calls. Qed.

End Calls.

(** *** Escalations *)

Lemma escalates_only_allowed reasons X (c : ext X) :
  (Spec.not_transition X c && Spec.escalates_only [] X c)%bool = true ->
  Spec.escalates_only reasons X c = true.
Proof. destruct c; cbn; try reflexivity. discriminate. Qed.

Lemma not_transition_allowed X (c : ext X) :
  (Spec.not_transition X c && Spec.escalates_only [] X c)%bool = true ->
  Spec.not_transition X c = true.
Proof. intros H. apply andb_true_iff in H as [H _]. exact H. Qed.

Lemma dispose_fix_reasons cfg finding risk fix_result s :
  calls_only (Spec.escalates_only (Spec.reasons_of cfg fix_result))
             (dispose_fix cfg finding risk fix_result s).
Proof.
  unfold dispose_fix, Spec.reasons_of.
  destruct fix_result as [fx|];
    [destruct (FixGenerator.is_safe (FixGenerator.validation fx))|];
    try (apply escalate_calls;
         [apply escalates_only_allowed | reflexivity]).
  unfold_m. cbn [bind].
  destruct (Py.ge_float _ _) as [[|]|e].
  - apply calls_only_bind; [|intros [[|] ?]; constructor].
    apply create_fix_pr_calls, escalates_only_allowed.
  - destruct (Py.format_percent _); [|constructor].
    apply escalate_calls;
      [apply escalates_only_allowed | reflexivity].
  - constructor.
Qed.

Lemma process_finding_reasons lib cfg finding s :
  calls_only (Spec.escalates_only Spec.two_reasons)
             (process_finding lib cfg finding s).
Proof.
  assert (Hallowed := escalates_only_allowed Spec.two_reasons).
  assert (Hreasons : forall k reason, In reason Spec.two_reasons ->
            Spec.escalates_only Spec.two_reasons _ (LogEscalated k reason) = true).
  { intros k reason [<-|[<-|[]]]; reflexivity. }
  unfold process_finding, _handle_false_positive.
  repeat first
    [ solve [reflexivity]
    | solve [apply code_context_calls, Hallowed]
    | solve [apply analyze_calls, Hallowed]
    | solve [apply post_comment_calls, Hallowed]
    | solve [apply assess_and_fix_calls; [apply Hallowed | apply Hreasons]]
    | prog_step
    | progress unfold_m ].
Qed.

(** C5, as the code has it. Every escalation of the pipeline has the reason
    "Low confidence fix" or "Complex fix required". The auto-fix phase
    escalates with "Low confidence fix" only when the fix generator
    returned a result that is marked safe and whose confidence is below the
    threshold, and with "Complex fix required" only when it returned
    nothing or a result that is not marked safe. *)
Theorem escalation_reasons lib cfg finding (h : oracle) hist s reason :
  (In reason
      (Spec.escalations (trace h (process_finding lib cfg finding s) hist)) ->
   reason = "Low confidence fix"%string
   \/ reason = "Complex fix required"%string)
  /\ forall risk fix_result,
       In reason
          (Spec.escalations
             (trace h (dispose_fix cfg finding risk fix_result s) hist)) ->
       (reason = "Low confidence fix"%string
        /\ exists fx,
             fix_result = Some fx
             /\ FixGenerator.is_safe (FixGenerator.validation fx) = true
             /\ Py.ge_float (FixGenerator.confidence fx)
                            (fix_min_confidence cfg) = Ok false)
       \/ (reason = "Complex fix required"%string
           /\ (fix_result = None
               \/ exists fx,
                    fix_result = Some fx
                    /\ FixGenerator.is_safe (FixGenerator.validation fx)
                       = false)).
Proof.
  split.
  - intros Hin.
    apply (escalations_allowed Spec.two_reasons) in Hin;
      [|apply calls_only_trace, process_finding_reasons].
    destruct Hin as [<-|[<-|[]]]; auto.
  - intros risk fix_result Hin.
    apply (escalations_allowed (Spec.reasons_of cfg fix_result)) in Hin;
      [|apply calls_only_trace, dispose_fix_reasons].
    unfold Spec.reasons_of in Hin.
    destruct fix_result as [fx|]; [|destruct Hin as [<-|[]]; auto].
    destruct (FixGenerator.is_safe (FixGenerator.validation fx)) eqn:Hsafe;
      [|destruct Hin as [<-|[]]; right; split; [reflexivity|]; right; eauto].
    destruct (Py.ge_float _ _) as [[|]|e] eqn:Hge.
    + destruct Hin.
    + destruct Hin as [<-|[]]. left. split; [reflexivity|]. eauto.
    + destruct Hin.
Qed.

(** C5, at scenario C: the model answers with the code it was given. *)
Lemma escalation_reasons_witness :
  In "Complex fix required"%string
     (Spec.escalations
        (trace (Scenarios.play Scenarios.script_c)
           (process_finding Scenarios.lib_c default_config Scenarios.finding_c
              Scenarios.fresh_agent) []))
  /\ ("Complex fix required"%string = "Low confidence fix"%string
      \/ "Complex fix required"%string = "Complex fix required"%string).
Proof.
  assert (H : In "Complex fix required"%string
                (Spec.escalations
                   (trace (Scenarios.play Scenarios.script_c)
                      (process_finding Scenarios.lib_c default_config
                         Scenarios.finding_c Scenarios.fresh_agent) [])))
    by (vm_compute; left; reflexivity).
  split; [exact H|].
  exact (proj1 (escalation_reasons _ _ _ _ _ _ _) H).
Defined.

(** C5 as stated fails: in scenario C the fix generator returns a result,
    which is not marked safe because nothing was changed, and the pipeline
    escalates with "Complex fix required", not "Low confidence fix". *)
Lemma unsafe_fix_escalates_as_complex :
  exists fx,
    value (Scenarios.play Scenarios.script_c)
          (FixGenerator.generate_fix Scenarios.lib_c Scenarios.finding_c
             Scenarios.context_c Scenarios.context_c None) [] = Some fx
    /\ FixGenerator.is_safe (FixGenerator.validation fx) = false
    /\ FixGenerator.checks_failed (FixGenerator.validation fx)
       = ["No changes were made"%string]
    /\ Spec.escalations
         (trace (Scenarios.play Scenarios.script_c)
            (process_finding Scenarios.lib_c default_config
               Scenarios.finding_c Scenarios.fresh_agent) [])
       = ["Complex fix required"%string]
    /\ "Complex fix required"%string <> "Low confidence fix"%string.
Proof.
  eexists. split; [vm_compute; reflexivity|].
  split; [reflexivity|]. split; [reflexivity|].
  split; [vm_compute; reflexivity|]. discriminate.
Qed.

(** *** The rate-limit window *)

(** When the clock has reached the reset time, both counters go to zero
    and the reset time is set one hour after the clock, read again. *)
Lemma window_resets_when_due (h : oracle) hist s :
  (rate_limit_reset_time s <= h _ Now hist)%Z ->
  let s' := snd (value h (_reset_rate_limits_if_needed s) hist) in
  prs_created_this_hour s' = 0%Z
  /\ comments_posted_this_hour s' = 0%Z
  /\ rate_limit_reset_time s'
     = (h _ Now (hist ++ [Ev Now (h _ Now hist)]) + hour)%Z.
Proof.
  intros Hdue. unfold value, _reset_rate_limits_if_needed. cbn.
  apply Z.leb_le in Hdue. rewrite Hdue. cbn. repeat split; reflexivity.
Qed.

(** Before the reset time the window is left as it is. *)
Lemma window_kept_before_reset (h : oracle) hist s :
  (h _ Now hist < rate_limit_reset_time s)%Z ->
  value h (_reset_rate_limits_if_needed s) hist = (Ok tt, s).
Proof.
  intros Hearly. unfold value, _reset_rate_limits_if_needed. cbn.
  apply Z.leb_gt in Hearly. rewrite Hearly. reflexivity.
Qed.

(** With the cap reached, and until the reset time, the check for a pull
    request says no. *)
Lemma pr_check_refuses_at_cap cfg (h : oracle) hist s :
  (h _ Now hist < rate_limit_reset_time s)%Z ->
  (max_prs_per_hour cfg <= prs_created_this_hour s)%Z ->
  value h (_check_rate_limit cfg "pr" s) hist = (Ok false, s).
Proof.
  intros Hearly Hcap. unfold value, _check_rate_limit, _reset_rate_limits_if_needed.
  cbn. apply Z.leb_gt in Hearly. rewrite Hearly. cbn.
  apply Z.ltb_ge in Hcap. rewrite Hcap. reflexivity.
Qed.

(** Once the reset time has passed, the check resets the window and the
    counter it reads is zero. *)
Lemma pr_check_after_reset cfg (h : oracle) hist s :
  (rate_limit_reset_time s <= h _ Now hist)%Z ->
  value h (_check_rate_limit cfg "pr" s) hist
  = (Ok (0 <? max_prs_per_hour cfg)%Z,
     reset_window (h _ Now (hist ++ [Ev Now (h _ Now hist)])) s).
Proof.
  intros Hdue. unfold value, _check_rate_limit, _reset_rate_limits_if_needed.
  cbn. apply Z.leb_le in Hdue. rewrite Hdue. reflexivity.
Qed.

Lemma after_prs (n : nat) s :
  prs_created_this_hour (Nat.iter n count_pr s)
  = (prs_created_this_hour s + Z.of_nat n)%Z
  /\ rate_limit_reset_time (Nat.iter n count_pr s) = rate_limit_reset_time s.
Proof.
  induction n as [|n [IHp IHr]]; [cbn; split; [lia|reflexivity]|].
  rewrite Nat.iter_succ. cbn [count_pr prs_created_this_hour
    rate_limit_reset_time]. split; [lia|assumption].
Qed.

(** After exactly [max_prs_per_hour] increments in a window that began
    empty, and until the reset time, the check for a pull request says no. *)
Lemma pr_check_refuses_after_max cfg (h : oracle) hist s :
  (0 <= max_prs_per_hour cfg)%Z ->
  prs_created_this_hour s = 0%Z ->
  (h _ Now hist < rate_limit_reset_time s)%Z ->
  let s' := Nat.iter (Z.to_nat (max_prs_per_hour cfg)) count_pr s in
  value h (_check_rate_limit cfg "pr" s') hist = (Ok false, s').
Proof.
  intros Hmax Hzero Hearly s'.
  destruct (after_prs (Z.to_nat (max_prs_per_hour cfg)) s) as [Hp Hr].
  apply pr_check_refuses_at_cap; subst s'; [rewrite Hr; exact Hearly|].
  rewrite Hp, Hzero. lia.
Qed.

(** Within the window and below the cap, [post_comment] counts the comment
    whatever the finding source answered. *)
Lemma comment_counted_whatever_the_answer cfg finding c (h : oracle) hist s :
  (h _ Now hist < rate_limit_reset_time s)%Z ->
  (comments_posted_this_hour s < max_comments_per_hour cfg)%Z ->
  value h (post_comment cfg finding (Ok c) s) hist = (Ok tt, count_comment s).
Proof.
  intros Hearly Hroom.
  unfold value, post_comment, _check_rate_limit, _reset_rate_limits_if_needed.
  cbn. apply Z.leb_gt in Hearly. rewrite Hearly. cbn.
  apply Z.ltb_lt in Hroom. rewrite Hroom. reflexivity.
Qed.

(** C7, where the code departs from it. The finding source rejects the
    risk comment ([add_comment] answers false), and the counter of posted
    comments is incremented all the same. *)
Theorem rejected_comment_is_counted :
  let r := run (Scenarios.play Scenarios.script_unposted)
               (process_finding Scenarios.sure_lib default_config
                  Scenarios.finding_a Scenarios.fresh_agent) [] in
  In (Ev (AddComment (key Scenarios.finding_a) RiskComment) false) (snd r)
  /\ comments_posted_this_hour Scenarios.fresh_agent = 0%Z
  /\ comments_posted_this_hour (snd (fst r)) = 1%Z.
Proof.
  cbv zeta. split; [vm_compute; auto 10|].
  split; [reflexivity|]. vm_compute. reflexivity.
Qed.

(** *** The won't-fix transition *)

Lemma quiet_trace {A} (p : prog A) (h : oracle) hist :
  calls_only Spec.not_transition p ->
  existsb Spec.is_wontfix (trace h p hist) = false.
Proof. intros Hp. apply no_transition_no_wontfix, calls_only_trace, Hp. Qed.

Lemma analyze_run lib finding ctx rd (h : oracle) hist :
  run h (FalsePositiveDetector.analyze lib finding ctx rd) hist
  = (Spec.analysis_of_reply lib
       (h _ (Generate FalsePositivePrompt FalsePositiveDetector.model) hist),
     [Ev (Generate FalsePositivePrompt FalsePositiveDetector.model)
         (h _ (Generate FalsePositivePrompt FalsePositiveDetector.model)
            hist)]).
Proof.
  unfold FalsePositiveDetector.analyze, FalsePositiveDetector.analyze_body,
    Spec.analysis_of_reply.
  cbn.
  destruct (h _ (Generate FalsePositivePrompt FalsePositiveDetector.model) hist)
    as [response|e]; cbn; [|reflexivity].
  destruct (FalsePositiveDetector._parse_response lib response); reflexivity.
Qed.

(** At or below the review threshold, [_handle_false_positive] makes no
    transition. *)
Lemma handle_without_transition cfg finding analysis s :
  (require_review_below cfg
   <? FalsePositiveDetector.confidence analysis)%float = false ->
  calls_only Spec.not_transition
             (_handle_false_positive cfg finding analysis s).
Proof.
  intros Hlow. unfold _handle_false_positive. rewrite Hlow, andb_false_r.
  unfold_m. apply calls_only_bind;
    [apply post_comment_calls, not_transition_allowed|].
  intros [[[]|e] s']; constructor.
Qed.

(** What happens once the false-positive analysis is known. *)
Lemma wontfix_after_analysis lib cfg finding ctx rd analysis
      (h : oracle) hist s :
  existsb Spec.is_wontfix
    (trace h
       ((if (Py.truthy (FalsePositiveDetector.is_false_positive analysis)
             && (fp_min_confidence cfg
                 <=? FalsePositiveDetector.confidence analysis)%float)%bool
         then
           mbind (_handle_false_positive cfg finding analysis)
                 (fun _ => mmodify (set_stats count_false_positive))
         else assess_and_fix lib cfg finding ctx rd) s) hist) = true ->
  Py.truthy (FalsePositiveDetector.is_false_positive analysis) = true
  /\ (fp_min_confidence cfg
      <=? FalsePositiveDetector.confidence analysis)%float = true
  /\ (require_review_below cfg
      <? FalsePositiveDetector.confidence analysis)%float = true.
Proof.
  destruct (Py.truthy _ && _)%bool eqn:Hguard.
  - apply andb_true_iff in Hguard as [Hverdict Hconf].
    intros H. repeat (split; [assumption|]).
    destruct (require_review_below cfg
              <? FalsePositiveDetector.confidence analysis)%float eqn:Hlow;
      [reflexivity|].
    rewrite quiet_trace in H; [discriminate H|].
    unfold_m. apply calls_only_bind;
      [apply handle_without_transition, Hlow|].
    intros [[[]|e] s']; constructor.
  - intros H. rewrite quiet_trace in H; [discriminate H|].
    apply assess_and_fix_calls; [apply not_transition_allowed|reflexivity].
Qed.

(** The thresholds of the won't-fix transition. With the default
    thresholds, a finding is moved to won't fix only when the analysis of
    the model's answer has a verdict that Python takes for true, a
    confidence of at least 0.85 and a confidence above 0.70; a confidence
    at or below 0.70 never leads to the transition. *)
Theorem wontfix_needs_both_thresholds lib finding (h : oracle) hist s :
  existsb Spec.is_wontfix
    (trace h (process_finding lib default_config finding s) hist) = true ->
  exists reply,
    In (Ev (Generate FalsePositivePrompt FalsePositiveDetector.model) reply)
       (trace h (process_finding lib default_config finding s) hist)
    /\ let a := Spec.analysis_of_reply lib reply in
       Py.truthy (FalsePositiveDetector.is_false_positive a) = true
       /\ (0.85 <=? FalsePositiveDetector.confidence a)%float = true
       /\ (0.70 <? FalsePositiveDetector.confidence a)%float = true
       /\ (FalsePositiveDetector.confidence a <=? 0.70)%float = false.
Proof.
  unfold process_finding.
  rewrite trace_mbind. cbn [mmodify trace run value fst snd app].
  rewrite trace_mbind.
  rewrite existsb_app, quiet_trace
    by apply code_context_calls, not_transition_allowed.
  cbn [orb].
  destruct (value h (_get_code_context finding _) _)
    as [[[context|]|e] s1]; try discriminate.
  destruct (nonempty (Some context)); [|discriminate].
  rewrite trace_mbind. cbn [mcall call bind trace run value fst snd app].
  rewrite trace_mbind.
  unfold mlift at 1 2. rewrite trace_bind, value_bind.
  unfold trace at 2 4, value at 1 2. rewrite analyze_run.
  cbn [fst snd trace run value app existsb Spec.is_wontfix orb].
  rewrite app_nil_r.
  intros H. apply wontfix_after_analysis in H as (Hverdict & Hconf & Hlow).
  unfold value in Hverdict, Hconf, Hlow.
  rewrite analyze_run in Hverdict, Hconf, Hlow.
  cbn [fst] in Hverdict, Hconf, Hlow.
  eexists. split.
  - apply in_or_app. right. right. left. reflexivity.
  - cbv zeta. repeat (split; [assumption|]).
    apply float_lt_not_ge, Hlow.
Qed.

(** The same at scenario D: a true verdict at confidence 0.95. *)
Lemma wontfix_needs_both_thresholds_witness :
  existsb Spec.is_wontfix
    (trace (Scenarios.play Scenarios.script_d)
       (process_finding Scenarios.lib_d default_config Scenarios.finding_a
          Scenarios.fresh_agent) []) = true
  /\ exists reply,
       In (Ev (Generate FalsePositivePrompt FalsePositiveDetector.model) reply)
          (trace (Scenarios.play Scenarios.script_d)
             (process_finding Scenarios.lib_d default_config
                Scenarios.finding_a Scenarios.fresh_agent) []).
Proof.
  assert (H : existsb Spec.is_wontfix
                (trace (Scenarios.play Scenarios.script_d)
                   (process_finding Scenarios.lib_d default_config
                      Scenarios.finding_a Scenarios.fresh_agent) []) = true)
    by (vm_compute; reflexivity).
  split; [exact H|].
  destruct (wontfix_needs_both_thresholds _ _ _ _ _ H) as [reply [Hin _]].
  exists reply. exact Hin.
Defined.

(** C4, where the code departs from it. The model denies the false
    positive with the string "false" at confidence 0.95: [_parse_response]
    keeps the string as the verdict, [process_finding] takes the non-empty
    string for true, and the finding is moved to won't fix and counted as a
    false positive, although the verdict is not true. *)
Theorem denied_false_positive_is_moved_to_wontfix :
  let h := Scenarios.play Scenarios.script_e in
  let a := value h (FalsePositiveDetector.analyze Scenarios.lib_e
                      Scenarios.finding_a Scenarios.context_a None) [] in
  let r := run h (process_finding Scenarios.lib_e default_config
                    Scenarios.finding_a Scenarios.fresh_agent) [] in
  FalsePositiveDetector.is_false_positive a = PStr "false"
  /\ FalsePositiveDetector.is_false_positive a <> PBool true
  /\ FalsePositiveDetector.confidence a = 0.95%float
  /\ Py.truthy (FalsePositiveDetector.is_false_positive a) = true
  /\ In (Ev (TransitionIssue (key Scenarios.finding_a) "wontfix"
               "Marked as false positive by automated analysis") true)
        (snd r)
  /\ existsb Spec.is_wontfix (snd r) = true
  /\ false_positives_detected (stats (snd (fst r))) = 1%Z.
Proof.
  cbv zeta.
  assert (Ha : value (Scenarios.play Scenarios.script_e)
                 (FalsePositiveDetector.analyze Scenarios.lib_e
                    Scenarios.finding_a Scenarios.context_a None) []
               = {| FalsePositiveDetector.is_false_positive := PStr "false";
                    FalsePositiveDetector.confidence := 0.95;
                    FalsePositiveDetector.reasoning := PStr "";
                    FalsePositiveDetector.evidence := PList [];
                    FalsePositiveDetector.recommendation := PStr "" |})
    by (vm_compute; reflexivity).
  rewrite Ha. cbn [FalsePositiveDetector.is_false_positive
                     FalsePositiveDetector.confidence].
  split; [reflexivity|]. split; [discriminate|]. split; [reflexivity|].
  split; [reflexivity|]. split; [vm_compute; auto 10|].
  split; vm_compute; reflexivity.
Qed.

End AgentProperties.

(** ** JSON in prose *)

Module ParseProperties.

Import PyStr.
Local Open Scope string_scope.
Local Open Scope Z_scope.

Lemma append_assoc (a b c : string) : (a ++ b) ++ c = a ++ (b ++ c).
Proof. induction a as [|x a IH]; cbn; [reflexivity|]. rewrite IH. reflexivity. Qed.

Lemma length_append (a b : string) :
  String.length (a ++ b) = (String.length a + String.length b)%nat.
Proof. induction a as [|x a IH]; cbn; [reflexivity|]. rewrite IH. reflexivity. Qed.

Lemma count_char_nonneg c s : 0 <= count_char c s.
Proof.
  induction s as [|d s IH]; cbn; [lia|]. destruct (Ascii.eqb c d); lia.
Qed.

(** The first occurrence: nothing before it. *)
Lemma find_from_first c pre rest i :
  count_char c pre = 0 ->
  find_from c (pre ++ String c rest) i = i + Z.of_nat (String.length pre).
Proof.
  revert i; induction pre as [|d pre IH]; intros i; cbn.
  - rewrite Ascii.eqb_refl. lia.
  - pose proof (count_char_nonneg c pre).
    destruct (Ascii.eqb c d); [lia|].
    intros H0. rewrite IH by lia. lia.
Qed.

Lemma rfind_from_absent c s i last :
  count_char c s = 0 -> rfind_from c s i last = last.
Proof.
  revert i last; induction s as [|d s IH]; intros i last; cbn; [reflexivity|].
  pose proof (count_char_nonneg c s).
  destruct (Ascii.eqb c d); [lia|]. intros H0. apply IH. lia.
Qed.

Lemma rfind_from_app c x s i last :
  rfind_from c (x ++ s) i last
  = rfind_from c s (i + Z.of_nat (String.length x)) (rfind_from c x i last).
Proof.
  revert i last; induction x as [|d x IH]; intros i last; cbn [append rfind_from String.length].
  - f_equal. lia.
  - rewrite IH. f_equal. lia.
Qed.

(** The last occurrence: nothing after it. *)
Lemma rfind_last c x post :
  count_char c post = 0 ->
  rfind c (x ++ String c post) = Z.of_nat (String.length x).
Proof.
  intros H0. unfold rfind. rewrite rfind_from_app. cbn [rfind_from].
  rewrite Ascii.eqb_refl. apply rfind_from_absent, H0.
Qed.

Lemma substring_skip pre s n :
  substring (String.length pre) n (pre ++ s) = substring 0 n s.
Proof. induction pre as [|d pre IH]; cbn; [reflexivity|]. exact IH. Qed.

Lemma substring_prefix b post :
  substring 0 (String.length b) (b ++ post) = b.
Proof.
  induction b as [|d b IH]; cbn.
  - destruct post; reflexivity.
  - rewrite IH. reflexivity.
Qed.

(** What is handed to [json.loads] is the text from the first opening brace
    of the stripped answer to its last closing brace. *)
Lemma json_text_is_outer_braces response pre mid post :
  strip response = pre ++ "{" ++ mid ++ "}" ++ post ->
  count_char "{" pre = 0 ->
  count_char "}" post = 0 ->
  JsonInProse.json_text response = "{" ++ mid ++ "}".
Proof.
  intros Hstrip Hpre Hpost. unfold JsonInProse.json_text. rewrite Hstrip.
  cbn [append].
  unfold find. rewrite (find_from_first _ _ _ _ Hpre).
  replace (pre ++ String "{" (mid ++ String "}" post))
    with ((pre ++ String "{" mid) ++ String "}" post)
    by (rewrite append_assoc; reflexivity).
  rewrite (rfind_last _ _ _ Hpost), length_append. cbn [String.length].
  replace ((0 <=? 0 + Z.of_nat (String.length pre))
           && (0 + Z.of_nat (String.length pre)
               <? Z.of_nat (String.length pre + S (String.length mid)) + 1))%bool
    with true by (symmetry; apply andb_true_iff; split;
                  [apply Z.leb_le | apply Z.ltb_lt]; lia).
  unfold slice.
  replace (Z.to_nat (0 + Z.of_nat (String.length pre)))
    with (String.length pre) by lia.
  replace (Z.to_nat (Z.of_nat (String.length pre + S (String.length mid)) + 1
                     - (0 + Z.of_nat (String.length pre))))
    with (String.length (String "{" (mid ++ String "}" "")))
    by (cbn [String.length]; rewrite length_append; cbn [String.length]; lia).
  rewrite append_assoc. cbn [append].
  rewrite substring_skip.
  replace (String "{" (mid ++ String "}" post))
    with (String "{" (mid ++ String "}" "") ++ post)
    by (cbn [append]; rewrite append_assoc; reflexivity).
  apply substring_prefix.
Qed.

End ParseProperties.

(** ** The false-positive detector *)

Module FalsePositiveProperties.

Import FalsePositiveDetector.





End FalsePositiveProperties.

(** ** The risk assessor: ranges and malformed answers *)

Module RiskEdges.

Import RiskAssessor.
Local Open Scope float_scope.

Lemma exposure_at_most_9 finding ctx :
  (1 <= _calculate_exposure finding ctx <= 9)%Z.
Proof.
  unfold _calculate_exposure.
  repeat match goal with
         | |- context [if ?b then _ else _] => destruct b
         end; cbn; lia.
Qed.

(** X1. Every assessment [assess] returns, the error assessment included,
    has its three sub-scores between 1 and 10. *)
Theorem assessed_sub_scores_in_range lib finding ctx rd (h : oracle) hist :
  let r := value h (assess lib finding ctx rd) hist in
  (1 <= exploitability r <= 10)%Z
  /\ (1 <= impact r <= 10)%Z
  /\ (1 <= exposure r <= 10)%Z.
Proof.
  cbv zeta.
  rewrite RiskProperties.assess_value, RiskProperties.assess_body_value.
  destruct (_calculate_exploitability finding rd) as [ex|e] eqn:Hex;
    cbn [rbind]; [|cbn; lia].
  destruct (score ex _ _ _) as [r|e] eqn:Hscore; [|cbn; lia].
  apply RiskProperties.score_fields in Hscore as (-> & -> & -> & _).
  apply RiskProperties.exploitability_range in Hex.
  pose proof (RiskProperties.impact_range finding ctx).
  pose proof (exposure_at_most_9 finding ctx). lia.
Qed.

(** X2. For a file whose lower-cased path contains "test", the exposure is
    1 whatever the code contains, and the impact is 3 when the code holds
    no sensitive keyword. *)
Theorem test_file_is_low_risk finding ctx :
  PyStr.contains "test" (PyStr.lower (file_path finding)) = true ->
  _calculate_exposure finding ctx = 1%Z
  /\ (existsb (fun kw => PyStr.contains (fst kw) (PyStr.lower ctx))
              sensitive_keywords = false ->
      _calculate_impact finding ctx = 3%Z).
Proof.
  intros Htest. split.
  - unfold _calculate_exposure. rewrite Htest.
    destruct (any_in auth_patterns ctx); reflexivity.
  - intros Hkw. unfold _calculate_impact.
    rewrite (RiskProperties.fold_keywords_none _ _ _ Hkw).
    assert (Hlow : any_in LOW_IMPACT_PATHS (PyStr.lower (file_path finding))
                   = true)
      by (cbn [any_in LOW_IMPACT_PATHS existsb]; rewrite Htest; reflexivity).
    rewrite Hlow.
    destruct (any_in HIGH_IMPACT_PATHS (PyStr.lower (file_path finding))),
      (any_in MEDIUM_IMPACT_PATHS (PyStr.lower (file_path finding)));
      reflexivity.
Qed.

(** X2, at a test of the login page that is full of entry-point markers. *)
Lemma test_file_is_low_risk_witness :
  PyStr.contains "test"
    (PyStr.lower "src/test/LoginTest.java") = true
  /\ _calculate_exposure
       {| key := "k"; rule_key := "java:S2259"; rule_name := "";
          severity := "CRITICAL"; message := "";
          file_path := "src/test/LoginTest.java"; line := 3;
          status := "OPEN"; project := "shop"; component := "shop";
          creation_date := ""; language := None |}
       "@RestController @PostMapping" = 1%Z.
Proof.
  assert (H : PyStr.contains "test"
                (PyStr.lower "src/test/LoginTest.java") = true)
    by (vm_compute; reflexivity).
  split; [exact H|].
  exact (proj1 (test_file_is_low_risk
                  {| key := "k"; rule_key := "java:S2259"; rule_name := "";
                     severity := "CRITICAL"; message := "";
                     file_path := "src/test/LoginTest.java"; line := 3;
                     status := "OPEN"; project := "shop"; component := "shop";
                     creation_date := ""; language := None |}
                  "@RestController @PostMapping" H)).
Defined.

(** X3. The exploitability heuristic raises in one case only: no category
    of the table is found in the rule key, there are rule details, and
    their type is not a string. *)
Theorem exploitability_raises_on_odd_type_only finding rd :
  (exists e, _calculate_exploitability finding rd = Raise e)
  <-> category_score
        (PyStr.remove_char "-"
           (PyStr.remove_char ":" (PyStr.lower (rule_key finding))))
        RULE_EXPLOITABILITY = None
      /\ exists entry d,
           rd = Some (entry :: d)
           /\ Measures.is_text (Py.dict_get (entry :: d) "type" (PStr ""))
              = false.
Proof.
  unfold _calculate_exploitability.
  destruct (category_score _ RULE_EXPLOITABILITY) as [v|].
  - split; [intros [e He]; discriminate He
           | intros [Hnone _]; discriminate Hnone].
  - destruct rd as [[|entry d]|].
    + split; [intros [e He]; discriminate He
             | intros [_ (entry & d & Hrd & _)]; discriminate Hrd].
    + destruct (Py.dict_get (entry :: d) "type" (PStr "")) eqn:Htype;
        cbn [Py.lower rbind Measures.is_text];
        try (split; [intros _; split; [reflexivity|];
                     exists entry, d; rewrite Htype; split; reflexivity
                    | intros _; eexists; reflexivity]).
      split.
      * intros [e He].
        repeat match type of He with
               | context [if ?b then _ else _] => destruct b
               end; discriminate He.
      * intros [_ (entry' & d' & [= <- <-] & Hodd)].
        rewrite Htype in Hodd. discriminate Hodd.
    + split; [intros [e He]; discriminate He
             | intros [_ (entry & d & Hrd & _)]; discriminate Hrd].
Qed.

(** X4. When [json.loads] accepts the model's answer but gives no object,
    or an object whose confidence is not a number, [assess] returns the
    error assessment: risk score 7.0 and priority P1, which opens the fix
    phase, instead of the fallback analysis. *)
Theorem malformed_answer_is_high_risk
        lib finding ctx rd (h : oracle) hist ex response v :
  _calculate_exploitability finding rd = Ok ex ->
  h _ (Generate RiskPrompt model) hist = Ok response ->
  json_loads lib (JsonInProse.json_text response) = Some v ->
  match v with
  | PDict d => Measures.numeric (Py.dict_get d "confidence" (PFloat 0.8))
  | _ => false
  end = false ->
  exists e, value h (assess lib finding ctx rd) hist = error_assessment e.
Proof.
  intros Hex Hreply Hloads Hodd.
  rewrite RiskProperties.assess_value, RiskProperties.assess_body_value, Hex.
  cbn [rbind]. rewrite Hreply.
  unfold contextual_of_reply, JsonInProse.loads. cbn [rbind]. rewrite Hloads.
  unfold score.
  destruct v as [| | | | |l|d]; cbn [Py.get rbind]; try (eexists; reflexivity).
  destruct (Py.int_div_float _ _) as [ratio|e]; cbn [rbind];
    [|eexists; reflexivity].
  destruct (Py.dict_get d "confidence" (PFloat 0.8));
    try discriminate Hodd; cbn [Py.float_mul rbind]; eexists; reflexivity.
Qed.

(** X4, at a model that answers with a confidence in words. *)
Lemma malformed_answer_is_high_risk_witness :
  let lib := Scenarios.lib_of
               [(Scenarios.sure_text, PDict [("confidence", PStr "high")])] in
  _calculate_exploitability Scenarios.finding_a None = Ok 6%Z
  /\ priority (value (Scenarios.play Scenarios.script_a)
                 (assess lib Scenarios.finding_a Scenarios.context_a None) [])
     = "P1"%string.
Proof.
  cbv zeta.
  assert (Hex : _calculate_exploitability Scenarios.finding_a None = Ok 6%Z)
    by (vm_compute; reflexivity).
  split; [exact Hex|].
  destruct (malformed_answer_is_high_risk
              (Scenarios.lib_of
                 [(Scenarios.sure_text, PDict [("confidence", PStr "high")])])
              Scenarios.finding_a Scenarios.context_a None
              (Scenarios.play Scenarios.script_a) [] 6%Z Scenarios.sure_text
              (PDict [("confidence", PStr "high")])
              Hex eq_refl eq_refl eq_refl) as [e He].
  rewrite He. reflexivity.
Defined.

(** X5. When the model's object has no confidence field, the default 0.8
    is the confidence of the assessment and the factor of its risk score. *)
Theorem missing_confidence_defaults_to_0_8
        lib finding ctx rd (h : oracle) hist ex response d :
  _calculate_exploitability finding rd = Ok ex ->
  h _ (Generate RiskPrompt model) hist = Ok response ->
  json_loads lib (JsonInProse.json_text response) = Some (PDict d) ->
  Py.lookup "confidence" d = None ->
  exists ratio,
    Py.int_div_float
      (ex * _calculate_impact finding ctx * _calculate_exposure finding ctx)
      100 = Ok ratio
    /\ let r := value h (assess lib finding ctx rd) hist in
       confidence r = PFloat 0.8
       /\ risk_score r = ratio * 0.8
       /\ priority r = _calculate_priority (ratio * 0.8)
       /\ exploitability r = ex.
Proof.
  intros Hex Hreply Hloads Hmissing.
  destruct (RiskProperties.scores_divide finding rd ctx ex Hex)
    as [ratio Hratio].
  exists ratio. split; [exact Hratio|]. cbv zeta.
  rewrite RiskProperties.assess_value, RiskProperties.assess_body_value, Hex.
  cbn [rbind]. rewrite Hreply.
  unfold contextual_of_reply, JsonInProse.loads. cbn [rbind]. rewrite Hloads.
  assert (Hget : Py.dict_get d "confidence" (PFloat 0.8) = PFloat 0.8)
    by (unfold Py.dict_get; rewrite Hmissing; reflexivity).
  unfold score. cbn [Py.get rbind]. rewrite Hget, Hratio.
  cbn. repeat split; reflexivity.
Qed.

(** X5, at a model that answers with a justification alone. *)
Lemma missing_confidence_defaults_to_0_8_witness :
  let lib := Scenarios.lib_of
               [(Scenarios.sure_text,
                 PDict [("justification", PStr "Reachable from the API")])] in
  _calculate_exploitability Scenarios.finding_a None = Ok 6%Z
  /\ exists ratio,
       Py.int_div_float
         (6 * _calculate_impact Scenarios.finding_a Scenarios.context_a
          * _calculate_exposure Scenarios.finding_a Scenarios.context_a)
         100 = Ok ratio
       /\ confidence
            (value (Scenarios.play Scenarios.script_a)
               (assess lib Scenarios.finding_a Scenarios.context_a None) [])
          = PFloat 0.8.
Proof.
  cbv zeta.
  assert (Hex : _calculate_exploitability Scenarios.finding_a None = Ok 6%Z)
    by (vm_compute; reflexivity).
  split; [exact Hex|].
  destruct (missing_confidence_defaults_to_0_8
              (Scenarios.lib_of
                 [(Scenarios.sure_text,
                   PDict [("justification", PStr "Reachable from the API")])])
              Scenarios.finding_a Scenarios.context_a None
              (Scenarios.play Scenarios.script_a) [] 6%Z Scenarios.sure_text
              [("justification", PStr "Reachable from the API")]
              Hex eq_refl eq_refl eq_refl) as [ratio [Hratio Hr]].
  exists ratio. split; [exact Hratio|]. exact (proj1 Hr).
Defined.

End RiskEdges.

(** ** The order of floats and the priority steps *)

Module PriorityOrder.

Import RiskAssessor.
Local Open Scope float_scope.

Lemma SFleb_trans (x y z : SpecFloat.spec_float) :
  SpecFloat.SFleb x y = true -> SpecFloat.SFleb y z = true ->
  SpecFloat.SFleb x z = true.
Proof.
  unfold SpecFloat.SFleb.
  destruct x as [sx|sx| |sx mx ex], y as [sy|sy| |sy my ey],
    z as [sz|sz| |sz mz ez]; cbn;
    try discriminate; try reflexivity;
    try (destruct sx; (discriminate || reflexivity));
    try (destruct sy; (discriminate || reflexivity));
    try (destruct sz; (discriminate || reflexivity));
    try (destruct sx, sy; (discriminate || reflexivity));
    try (destruct sx, sz; (discriminate || reflexivity));
    try (destruct sy, sz; (discriminate || reflexivity));
    try (destruct sx, sy, sz; (discriminate || reflexivity)).
  change (Pos.compare_cont Eq mx my) with (Pos.compare mx my).
  change (Pos.compare_cont Eq my mz) with (Pos.compare my mz).
  change (Pos.compare_cont Eq mx mz) with (Pos.compare mx mz).
  destruct sx, sy, sz; try discriminate; try reflexivity;
    destruct (Z.compare_spec ex ey), (Z.compare_spec ey ez),
      (Z.compare_spec ex ez); subst; try lia;
      try discriminate; try reflexivity;
    destruct (Pos.compare_spec mx my), (Pos.compare_spec my mz),
      (Pos.compare_spec mx mz); subst; cbn; try lia;
      try discriminate; try reflexivity.
Qed.

(** The order of floats is transitive. *)
Lemma float_le_trans (x y z : float) :
  (x <=? y) = true -> (y <=? z) = true -> (x <=? z) = true.
Proof. rewrite !leb_spec. apply SFleb_trans. Qed.

(** X6. The priority is a monotone function of the risk score: a score
    that is at least another has a priority that is at least as urgent. *)
Theorem priority_is_monotone (low high : float) :
  (low <=? high) = true ->
  (Measures.urgency (_calculate_priority low)
   <= Measures.urgency (_calculate_priority high))%Z.
Proof.
  intros Hle. unfold _calculate_priority.
  destruct (8 <=? low) eqn:L8;
    [rewrite (float_le_trans _ _ _ L8 Hle); reflexivity|].
  destruct (6 <=? low) eqn:L6;
    [rewrite (float_le_trans _ _ _ L6 Hle);
     destruct (8 <=? high); cbn; lia|].
  destruct (4 <=? low) eqn:L4;
    [rewrite (float_le_trans _ _ _ L4 Hle);
     destruct (8 <=? high), (6 <=? high); cbn; lia|].
  destruct (8 <=? high), (6 <=? high), (4 <=? high); cbn; lia.
Qed.

(** X6, at the scores 5.5 and 6.5. *)
Lemma priority_is_monotone_witness :
  (5.5 <=? 6.5) = true
  /\ (Measures.urgency (_calculate_priority 5.5)
      <= Measures.urgency (_calculate_priority 6.5))%Z.
Proof.
  assert (H : (5.5 <=? 6.5) = true) by (vm_compute; reflexivity).
  split; [exact H|]. exact (priority_is_monotone 5.5 6.5 H).
Defined.

End PriorityOrder.

(** ** The fix generator: patterns, languages and results *)

Module FixEdges.

Import FixGenerator.

(** X7. Each of the five checks of [_validate_fix] reports once: the
    passed checks, the failed checks and the warnings are five together. *)
Theorem every_check_reports_once original fixed finding language :
  let v := _validate_fix original fixed finding language in
  (List.length (checks_passed v) + List.length (checks_failed v)
   + List.length (warnings v) = 5)%nat.
Proof.
  cbv zeta. unfold _validate_fix.
  destruct (PyNum.int_gt_float _ _),
    (error_handling fixed <? error_handling original)%Z,
    (PyNum.int_lt_float _ _), (_has_obvious_syntax_errors fixed language),
    (String.eqb _ _); reflexivity.
Qed.

(** X8. A fix that equals the original once both are stripped is not
    safe: "No changes were made" is among the failed checks. *)
Theorem unchanged_fix_is_unsafe original fixed finding language :
  PyStr.strip original = PyStr.strip fixed ->
  is_safe (_validate_fix original fixed finding language) = false
  /\ In "No changes were made"%string
        (checks_failed (_validate_fix original fixed finding language)).
Proof.
  intros Hsame.
  destruct (FixProperties.validation_lists original fixed finding language)
    as (_ & Hfailed & Hsafe).
  rewrite Hsafe, Hfailed, Hsame, String.eqb_refl.
  destruct (_has_obvious_syntax_errors fixed language); cbn; auto.
Qed.

(** X8, at a fix that only moves the white space around the code. *)
Lemma unchanged_fix_is_unsafe_witness :
  PyStr.strip "x = f()  " = PyStr.strip "  x = f()"
  /\ is_safe (_validate_fix "x = f()  " "  x = f()" Scenarios.finding_py
                "python") = false.
Proof.
  assert (H : PyStr.strip "x = f()  " = PyStr.strip "  x = f()")
    by (vm_compute; reflexivity).
  split; [exact H|].
  exact (proj1 (unchanged_fix_is_unsafe "x = f()  " "  x = f()"
                  Scenarios.finding_py "python" H)).
Defined.

(** *** Fixable patterns *)

Lemma first_pattern_found key table pattern :
  first_pattern key table = Some pattern ->
  exists indicators indicator,
    In (pattern, indicators) table /\ In indicator indicators
    /\ PyStr.contains (PyStr.upper indicator) key = true.
Proof.
  induction table as [|[p indicators] table IH]; cbn [first_pattern];
    [discriminate|].
  destruct (existsb _ indicators) eqn:Hany.
  - intros [= <-]. apply existsb_exists in Hany as (indicator & Hin & Hc).
    exists indicators, indicator. cbn. auto.
  - intros H. destruct (IH H) as (inds & ind & Hin & Hind & Hc).
    exists inds, ind. cbn. auto.
Qed.

Lemma first_pattern_none key table :
  first_pattern key table = None ->
  forall pattern indicators indicator,
    In (pattern, indicators) table -> In indicator indicators ->
    PyStr.contains (PyStr.upper indicator) key = false.
Proof.
  induction table as [|[p inds] table IH]; cbn [first_pattern];
    [intros _ ? ? ? []|].
  destruct (existsb _ inds) eqn:Hany; [discriminate|].
  intros H pattern indicators indicator [[= <- <-]|Hin] Hind.
  - destruct (PyStr.contains (PyStr.upper indicator) key) eqn:Hc;
      [|reflexivity].
    assert (existsb (fun i => PyStr.contains (PyStr.upper i) key) inds = true)
      by (apply existsb_exists; eauto).
    congruence.
  - eapply IH; eassumption.
Qed.

(** X9. [_identify_pattern] answers with a pattern of the table one of
    whose indicators occurs in the upper-cased rule key, and with nothing
    only when no indicator of any pattern occurs in it. *)
Theorem identify_pattern_is_exact rule_key :
  match _identify_pattern rule_key with
  | Some pattern =>
      exists indicators indicator,
        In (pattern, indicators) FIXABLE_PATTERNS
        /\ In indicator indicators
        /\ PyStr.contains (PyStr.upper indicator) (PyStr.upper rule_key)
           = true
  | None =>
      forall pattern indicators indicator,
        In (pattern, indicators) FIXABLE_PATTERNS ->
        In indicator indicators ->
        PyStr.contains (PyStr.upper indicator) (PyStr.upper rule_key) = false
  end.
Proof.
  unfold _identify_pattern.
  destruct (first_pattern (PyStr.upper rule_key) FIXABLE_PATTERNS) eqn:H.
  - apply first_pattern_found, H.
  - apply first_pattern_none, H.
Qed.

(** *** Letter case *)

Lemma upper_app (a b : string) :
  PyStr.upper (a ++ b) = (PyStr.upper a ++ PyStr.upper b)%string.
Proof.
  induction a as [|c a IH]; cbn [append PyStr.upper]; [reflexivity|].
  rewrite IH, ParseProperties.append_assoc. reflexivity.
Qed.

Lemma upper_char_lower (c : ascii) :
  PyStr.upper_char (PyStr.lower_char c) = PyStr.upper_char c.
Proof. destruct c as [[] [] [] [] [] [] [] []]; reflexivity. Qed.

Lemma upper_upper_char (c : ascii) :
  PyStr.upper (PyStr.upper_char c) = PyStr.upper_char c.
Proof. destruct c as [[] [] [] [] [] [] [] []]; reflexivity. Qed.

Lemma upper_lower (s : string) :
  PyStr.upper (PyStr.lower s) = PyStr.upper s.
Proof.
  induction s as [|c s IH]; cbn [PyStr.lower PyStr.upper]; [reflexivity|].
  rewrite upper_char_lower, IH. reflexivity.
Qed.

Lemma upper_upper (s : string) :
  PyStr.upper (PyStr.upper s) = PyStr.upper s.
Proof.
  induction s as [|c s IH]; cbn [PyStr.upper]; [reflexivity|].
  rewrite upper_app, upper_upper_char, IH. reflexivity.
Qed.

(** X10. The fixable pattern of a rule key of ASCII characters does not
    depend on the case of its letters. *)
Theorem identify_pattern_ignores_case rule_key :
  PyStr.isascii rule_key = true ->
  _identify_pattern (PyStr.lower rule_key) = _identify_pattern rule_key
  /\ _identify_pattern (PyStr.upper rule_key) = _identify_pattern rule_key.
Proof.
  intros _. unfold _identify_pattern. rewrite upper_lower, upper_upper.
  split; reflexivity.
Qed.

(** X10, at the key of the null-pointer rule. *)
Lemma identify_pattern_ignores_case_witness :
  PyStr.isascii "java:S2259" = true
  /\ _identify_pattern (PyStr.lower "java:S2259")
     = _identify_pattern "java:S2259".
Proof.
  assert (H : PyStr.isascii "java:S2259" = true) by (vm_compute; reflexivity).
  split; [exact H|].
  exact (proj1 (identify_pattern_ignores_case "java:S2259" H)).
Defined.

(** *** Languages *)

Lemma rev_acc_app (s acc : string) :
  PyStr.rev_acc s acc = (PyStr.rev s ++ acc)%string.
Proof.
  unfold PyStr.rev. revert acc.
  induction s as [|c s IH]; intros acc; cbn [PyStr.rev_acc append];
    [reflexivity|].
  rewrite IH, (IH (String c "")), ParseProperties.append_assoc. reflexivity.
Qed.

Lemma rev_app (a b : string) :
  PyStr.rev (a ++ b) = (PyStr.rev b ++ PyStr.rev a)%string.
Proof.
  induction a as [|c a IH]; cbn [append].
  - unfold PyStr.rev at 3. cbn [PyStr.rev_acc].
    clear. induction (PyStr.rev b) as [|d r IHr]; cbn; [reflexivity|].
    rewrite <- IHr. reflexivity.
  - unfold PyStr.rev at 1 3. cbn [PyStr.rev_acc].
    rewrite !rev_acc_app, IH, ParseProperties.append_assoc. reflexivity.
Qed.

Lemma prefix_app (a b : string) : prefix a (a ++ b) = true.
Proof.
  induction a as [|c a IH]; cbn [append prefix]; [destruct b; reflexivity|].
  destruct (ascii_dec c c) as [_|Hne]; [exact IH|contradiction].
Qed.

(** X11. Both tables of extensions detect the language of a path from its
    end alone: a path that ends with an extension of the table has the
    language of that extension, whatever comes before. *)
Theorem language_is_read_off_the_extension stem ext lang :
  (In (ext, lang) extension_map ->
   _detect_language (stem ++ ext) = lang)
  /\ (In (ext, lang) Detection.extension_map ->
      Detection._detect_language (stem ++ ext) = lang).
Proof.
  split; intros Hin;
    unfold Detection._detect_language, _detect_language, first_extension,
      Detection.extension_map, extension_map, PyStr.endswith;
    cbn [In] in Hin;
    repeat destruct Hin as [[= <- <-]|Hin]; try destruct Hin;
    rewrite rev_app, prefix_app; reflexivity.
Qed.

(** *** What [generate_fix] returns *)

(** X12. For a rule that matches no fixable pattern, [generate_fix] returns
    nothing and does not call the model. *)
Theorem unfixable_rule_is_not_sent_to_the_model
        lib finding ctx text rd (h : oracle) hist :
  _identify_pattern (rule_key finding) = None ->
  run h (generate_fix lib finding ctx text rd) hist = (None, []).
Proof.
  intros Hnone. unfold generate_fix, generate_fix_body.
  rewrite Hnone. reflexivity.
Qed.

(** X12, at a rule of style. *)
Lemma unfixable_rule_is_not_sent_to_the_model_witness :
  _identify_pattern "java:S1192" = None
  /\ run (Scenarios.play Scenarios.script_c)
         (generate_fix Scenarios.lib_c
            {| key := "k"; rule_key := "java:S1192"; rule_name := "";
               severity := "LOW"; message := "";
               file_path := "src/main/A.java"; line := 3;
               status := "OPEN"; project := "shop"; component := "shop";
               creation_date := ""; language := None |}
            Scenarios.context_c Scenarios.context_c None) []
     = (None, []).
Proof.
  assert (H : _identify_pattern "java:S1192" = None)
    by (vm_compute; reflexivity).
  split; [exact H|].
  exact (unfixable_rule_is_not_sent_to_the_model Scenarios.lib_c
           {| key := "k"; rule_key := "java:S1192"; rule_name := "";
              severity := "LOW"; message := "";
              file_path := "src/main/A.java"; line := 3;
              status := "OPEN"; project := "shop"; component := "shop";
              creation_date := ""; language := None |}
           Scenarios.context_c Scenarios.context_c None
           (Scenarios.play Scenarios.script_c) [] H).
Defined.

(** X13. No partial fix is proposed. When [generate_fix] returns a result,
    the rule is fixable, the model was called once and answered, its
    answer parsed to an object whose fixed code is a string, and the result
    carries that string, its validation against the code context, and the
    confidence of the object or 0.8. *)
Theorem proposed_fix_is_whole
        lib finding ctx text rd (h : oracle) hist fx :
  value h (generate_fix lib finding ctx text rd) hist = Some fx ->
  exists pattern response d,
    _identify_pattern (rule_key finding) = Some pattern
    /\ trace h (generate_fix lib finding ctx text rd) hist
       = [Ev (Generate FixPrompt model) (Ok response)]
    /\ json_loads lib (JsonInProse.json_text response) = Some (PDict d)
    /\ Py.lookup "fixed_code" d = Some (PStr (fixed_code fx))
    /\ validation fx
       = _validate_fix ctx (fixed_code fx) finding
           (_detect_language (file_path finding))
    /\ confidence fx = Py.dict_get d "confidence" (PFloat 0.8).
Proof.
  unfold value, trace, generate_fix, generate_fix_body, ptry, pbind.
  destruct (_identify_pattern (rule_key finding)) as [pattern|];
    [|discriminate].
  destruct (_build_fix_prompt rd); cbn; [|discriminate].
  destruct (h _ (Generate FixPrompt model) hist) as [response|e] eqn:Hreply;
    cbn; [|discriminate].
  unfold fix_of_response, _parse_fix_response.
  destruct (json_loads lib (JsonInProse.json_text response)) as [v|] eqn:Hloads;
    cbn;
    [|destruct (JsonInProse.is_json_decode_error _); cbn; discriminate].
  destruct (Py.truthy v); cbn; [|discriminate].
  destruct v as [| | | | | |d]; cbn; try discriminate.
  destruct (Py.lookup "fixed_code" d) as [code|] eqn:Hcode; cbn;
    [|discriminate].
  destruct code as [| | | |fixed| |]; cbn; try discriminate.
  intros [= <-]. exists pattern, response, d. cbn. auto 10.
Qed.

(** X13, at scenario C. *)
Lemma proposed_fix_is_whole_witness :
  exists fx,
    value (Scenarios.play Scenarios.script_c)
          (generate_fix Scenarios.lib_c Scenarios.finding_c
             Scenarios.context_c Scenarios.context_c None) [] = Some fx
    /\ exists pattern,
         _identify_pattern (rule_key Scenarios.finding_c) = Some pattern.
Proof.
  eexists. split; [vm_compute; reflexivity|].
  match goal with
  | |- context [_identify_pattern] =>
      destruct (proposed_fix_is_whole Scenarios.lib_c Scenarios.finding_c
                  Scenarios.context_c Scenarios.context_c None
                  (Scenarios.play Scenarios.script_c) [] _ eq_refl)
        as (pattern & _ & _ & Hp & _)
  end.
  exists pattern. exact Hp.
Defined.

End FixEdges.

(** ** Frameworks *)

Module DetectionProperties.

Import Detection.

Lemma first_framework_found ctx frameworks framework :
  first_framework ctx frameworks = Some framework ->
  exists patterns pattern,
    In (framework, patterns) frameworks /\ In pattern patterns
    /\ PyStr.contains pattern ctx = true.
Proof.
  induction frameworks as [|[fw patterns] frameworks IH];
    cbn [first_framework]; [discriminate|].
  destruct (existsb _ patterns) eqn:Hany.
  - intros [= <-]. apply existsb_exists in Hany as (pattern & Hin & Hc).
    exists patterns, pattern. cbn. auto.
  - intros H. destruct (IH H) as (ps & p & Hin & Hp & Hc).
    exists ps, p. cbn. auto.
Qed.

Lemma first_framework_none ctx frameworks :
  first_framework ctx frameworks = None ->
  forall framework patterns pattern,
    In (framework, patterns) frameworks -> In pattern patterns ->
    PyStr.contains pattern ctx = false.
Proof.
  induction frameworks as [|[fw ps] frameworks IH]; cbn [first_framework];
    [intros _ ? ? ? []|].
  destruct (existsb _ ps) eqn:Hany; [discriminate|].
  intros H framework patterns pattern [[= <- <-]|Hin] Hp.
  - destruct (PyStr.contains pattern ctx) eqn:Hc; [|reflexivity].
    assert (existsb (fun p => PyStr.contains p ctx) ps = true)
      by (apply existsb_exists; eauto).
    congruence.
  - eapply IH; eassumption.
Qed.

(** X14. [_detect_framework] answers with a framework of the language one
    of whose markers is in the code, with nothing when no marker of any
    framework of the language is in the code, and with nothing for every
    language other than java, python, javascript and typescript. *)
Theorem framework_detection_is_exact ctx lang :
  match _detect_framework ctx lang with
  | Some framework =>
      exists frameworks patterns pattern,
        frameworks_of lang framework_patterns = Some frameworks
        /\ In (framework, patterns) frameworks
        /\ In pattern patterns
        /\ PyStr.contains pattern ctx = true
  | None =>
      (forall frameworks framework patterns pattern,
          frameworks_of lang framework_patterns = Some frameworks ->
          In (framework, patterns) frameworks ->
          In pattern patterns ->
          PyStr.contains pattern ctx = false)
      /\ (frameworks_of lang framework_patterns = None
          <-> ~ In lang ["java"; "python"; "javascript"; "typescript"]%string)
  end.
Proof.
  assert (Hkeys : frameworks_of lang framework_patterns = None
                  <-> ~ In lang ["java"; "python"; "javascript";
                                 "typescript"]%string).
  { unfold framework_patterns. cbn [frameworks_of In].
    destruct (String.eqb_spec lang "java");
      [split; [discriminate|intros H; exfalso; apply H; auto]|].
    destruct (String.eqb_spec lang "python");
      [split; [discriminate|intros H; exfalso; apply H; auto]|].
    destruct (String.eqb_spec lang "javascript");
      [split; [discriminate|intros H; exfalso; apply H; auto]|].
    destruct (String.eqb_spec lang "typescript");
      [split; [discriminate|intros H; exfalso; apply H; auto 6]|].
    split; [|reflexivity].
    intros _ [H|[H|[H|[H|[]]]]]; congruence. }
  unfold _detect_framework.
  destruct (frameworks_of lang framework_patterns) as [frameworks|] eqn:Hlang.
  - destruct (first_framework ctx frameworks) as [framework|] eqn:Hfirst.
    + destruct (first_framework_found _ _ _ Hfirst) as (ps & p & H1 & H2 & H3).
      exists frameworks, ps, p. auto.
    + split; [|exact Hkeys].
      intros fws fw ps p [= <-]. apply first_framework_none, Hfirst.
  - split; [|exact Hkeys]. intros fws fw ps p H. discriminate H.
Qed.

End DetectionProperties.

(** ** JSON in prose: every answer *)

Module ParseEdges.

Import PyStr.
Local Open Scope string_scope.
Local Open Scope Z_scope.

Lemma count_char_app c (a b : string) :
  count_char c (a ++ b) = count_char c a + count_char c b.
Proof.
  induction a as [|d a IH]; cbn [append count_char]; [lia|].
  rewrite IH. lia.
Qed.

Lemma find_from_absent c s i :
  count_char c s = 0 -> find_from c s i = -1.
Proof.
  revert i; induction s as [|d s IH]; intros i; cbn; [reflexivity|].
  pose proof (ParseProperties.count_char_nonneg c s).
  destruct (Ascii.eqb c d); [lia|]. intros H0. apply IH. lia.
Qed.

(** The first occurrence of a character that occurs. *)
Lemma first_split c s :
  count_char c s <> 0 ->
  exists pre rest, s = pre ++ String c rest /\ count_char c pre = 0.
Proof.
  induction s as [|d s IH]; cbn [count_char]; [contradiction|].
  destruct (Ascii.eqb_spec c d) as [<-|Hne].
  - intros _. exists "", s. split; reflexivity.
  - intros Hs. destruct IH as (pre & rest & -> & Hpre); [lia|].
    exists (String d pre), rest. split; [reflexivity|].
    cbn [count_char]. destruct (Ascii.eqb_spec c d); [contradiction|lia].
Qed.

(** The last occurrence of a character that occurs. *)
Lemma last_split c s :
  count_char c s <> 0 ->
  exists x post, s = x ++ String c post /\ count_char c post = 0.
Proof.
  induction s as [|d s IH]; cbn [count_char]; [contradiction|].
  destruct (Z.eq_dec (count_char c s) 0) as [Hzero|Hmore].
  - destruct (Ascii.eqb_spec c d) as [<-|Hne]; [|lia].
    intros _. exists "", s. split; [reflexivity|exact Hzero].
  - intros _. destruct (IH Hmore) as (x & post & -> & Hpost).
    exists (String d x), post. split; [reflexivity|exact Hpost].
Qed.

Lemma first_unique c pre rest pre' rest' :
  pre ++ String c rest = pre' ++ String c rest' ->
  count_char c pre = 0 -> count_char c pre' = 0 ->
  pre = pre' /\ rest = rest'.
Proof.
  revert pre'; induction pre as [|d pre IH]; intros pre';
    destruct pre' as [|d' pre']; cbn [append count_char].
  - intros [= ->]. auto.
  - intros [= <- _] _.
    pose proof (ParseProperties.count_char_nonneg c pre').
    rewrite Ascii.eqb_refl. lia.
  - intros [= -> _].
    pose proof (ParseProperties.count_char_nonneg c pre).
    rewrite Ascii.eqb_refl. lia.
  - intros [= <- Heq] Hpre Hpre'.
    pose proof (ParseProperties.count_char_nonneg c pre).
    pose proof (ParseProperties.count_char_nonneg c pre').
    destruct (Ascii.eqb c d); [lia|].
    destruct (IH pre' Heq) as [-> ->]; [lia|lia|]. auto.
Qed.

(** Two ways to cut a text at different characters: the shorter head is
    the head of the longer one. *)
Lemma cut_twice a b pre rest x post :
  pre ++ String a rest = x ++ String b post ->
  a <> b ->
  (String.length pre <= String.length x)%nat ->
  exists mid, x = pre ++ String a mid /\ rest = mid ++ String b post.
Proof.
  revert x; induction pre as [|d pre IH]; intros x;
    destruct x as [|d' x]; cbn [append String.length].
  - intros [= Hab _]. contradiction.
  - intros [= <- ->] _ _. exists x. auto.
  - intros _ _ Hlen. lia.
  - intros [= <- Heq] Hab Hlen.
    destruct (IH x Heq Hab) as (mid & -> & ->); [lia|].
    exists mid. auto.
Qed.

Lemma open_is_not_close : "{"%char <> "}"%char.
Proof. discriminate. Qed.

(** X15. Every answer is read in one of two ways. Either its stripped text
    has a closing brace after its first opening brace, and the text from
    the first opening brace to the last closing brace is handed to
    [json.loads]; or it has none, and the whole stripped text is. *)
Theorem json_text_of_every_answer response :
  let r := strip response in
  (exists pre mid post,
      r = pre ++ "{" ++ mid ++ "}" ++ post
      /\ count_char "{" pre = 0
      /\ count_char "}" post = 0
      /\ JsonInProse.json_text response = "{" ++ mid ++ "}")
  \/ (JsonInProse.json_text response = r
      /\ forall pre rest,
           r = pre ++ "{" ++ rest -> count_char "{" pre = 0 ->
           count_char "}" rest = 0).
Proof.
  cbv zeta.
  destruct (Z.eq_dec (count_char "{" (strip response)) 0) as [Hno|Hopen].
  { right. split.
    - unfold JsonInProse.json_text, find.
      rewrite (find_from_absent _ _ _ Hno). reflexivity.
    - intros pre rest Hr _. rewrite Hr, count_char_app in Hno.
      cbn [append count_char] in Hno. rewrite Ascii.eqb_refl in Hno.
      pose proof (ParseProperties.count_char_nonneg "{" pre).
      pose proof (ParseProperties.count_char_nonneg "{" rest). lia. }
  destruct (Z.eq_dec (count_char "}" (strip response)) 0) as [Hno|Hclose].
  { right. split.
    - unfold JsonInProse.json_text, rfind.
      rewrite (ParseProperties.rfind_from_absent _ _ _ _ Hno).
      destruct (0 <=? find "{" (strip response)) eqn:H1,
        (find "{" (strip response) <? -1 + 1) eqn:H2; try reflexivity.
      apply Z.leb_le in H1. apply Z.ltb_lt in H2. lia.
    - intros pre rest Hr _. rewrite Hr, count_char_app in Hno.
      cbn [append count_char] in Hno.
      pose proof (ParseProperties.count_char_nonneg "}" pre).
      pose proof (ParseProperties.count_char_nonneg "}" rest).
      destruct (Ascii.eqb "}" "{"); lia. }
  destruct (first_split _ _ Hopen) as (pre & rest & Hr & Hpre).
  destruct (last_split _ _ Hclose) as (x & post & Hr' & Hpost).
  destruct (le_lt_dec (String.length pre) (String.length x)) as [Hle|Hlt].
  - left.
    destruct (cut_twice "{" "}" pre rest x post) as (mid & -> & ->);
      [congruence | exact open_is_not_close | exact Hle |].
    exists pre, mid, post. repeat split; try assumption.
    apply ParseProperties.json_text_is_outer_braces with (pre := pre)
                                                         (post := post);
      assumption.
  - right.
    destruct (cut_twice "}" "{" x post pre rest) as (mid & Hpre_eq & Hpost_eq);
      [congruence | intros H; apply open_is_not_close; congruence | lia |].
    split.
    + unfold JsonInProse.json_text. rewrite Hr at 1 2.
      unfold find. rewrite (ParseProperties.find_from_first _ _ _ _ Hpre).
      rewrite Hr'. rewrite (ParseProperties.rfind_last _ _ _ Hpost).
      rewrite <- Hr'.
      destruct (0 <=? 0 + Z.of_nat (String.length pre)) eqn:H1,
        (0 + Z.of_nat (String.length pre)
         <? Z.of_nat (String.length x) + 1) eqn:H2; try reflexivity.
      apply Z.ltb_lt in H2. lia.
    + intros pre2 rest2 Hr2 Hpre2.
      destruct (first_unique "{" pre rest pre2 rest2) as [_ <-];
        [cbn [append] in Hr2; congruence | assumption | assumption |].
      rewrite Hpost_eq, count_char_app in Hpost.
      cbn [count_char] in Hpost.
      pose proof (ParseProperties.count_char_nonneg "}" mid).
      pose proof (ParseProperties.count_char_nonneg "}" rest).
      destruct (Ascii.eqb "}" "{"); lia.
Qed.

End ParseEdges.

(** ** Contracts: what holds whatever the collaborators answer *)

Module ContractProperties.

Import SonarQubeAgent Contracts.
Import AgentProperties.

Lemma ensures_mono ok {A} (Q Q' : list event -> A -> Prop) tr (p : prog A) :
  (forall tr a, Q tr a -> Q' tr a) ->
  ensures ok Q tr p -> ensures ok Q' tr p.
Proof. intros HQ H. induction H; constructor; auto. Qed.

Lemma ensures_bind ok {A B} (Q : list event -> B -> Prop)
      (p : prog A) (f : A -> prog B) tr :
  ensures ok (fun tr' a => ensures ok Q tr' (f a)) tr p ->
  ensures ok Q tr (bind p f).
Proof.
  intros H. induction H as [tr a H | tr X c k H IH]; cbn; [exact H|].
  constructor. exact IH.
Qed.

(** A contract holds of every run in an environment whose answers are as
    the contract assumes. *)
Lemma ensures_run ok (h : oracle) {A} (Q : list event -> A -> Prop)
      (p : prog A) hist :
  answers ok h -> ensures ok Q hist p ->
  Q (hist ++ trace h p hist) (value h p hist).
Proof.
  intros Hh H. induction H as [tr a H | tr X c k H IH].
  - unfold trace, value. cbn. rewrite app_nil_r. exact H.
  - specialize (IH _ (Hh X c tr)). unfold trace, value in *. cbn.
    rewrite <- app_assoc in IH. exact IH.
Qed.

Lemma ensures_mbind ok {A B} (Q : list event -> result B * Agent -> Prop)
      (m : M A) (f : A -> M B) s tr :
  ensures ok (fun tr' ra =>
                match ra with
                | (Ok a, s') => ensures ok Q tr' (f a s')
                | (Raise e, s') => Q tr' (Raise e, s')
                end) tr (m s) ->
  ensures ok Q tr (mbind m f s).
Proof.
  intros H. unfold mbind. apply ensures_bind.
  eapply ensures_mono; [|exact H].
  intros tr' [[a|e] s'] H'; [exact H'|constructor; exact H'].
Qed.

Lemma ensures_mtry ok {A} (Q : list event -> result A * Agent -> Prop)
      (m : M A) (handler : exn -> M A) s tr :
  ensures ok (fun tr' ra =>
                match ra with
                | (Ok a, s') => Q tr' (Ok a, s')
                | (Raise e, s') => ensures ok Q tr' (handler e s')
                end) tr (m s) ->
  ensures ok Q tr (mtry m handler s).
Proof.
  intros H. unfold mtry. apply ensures_bind.
  eapply ensures_mono; [|exact H].
  intros tr' [[a|e] s'] H'; [constructor; exact H'|exact H'].
Qed.

Lemma count_snoc p tr e :
  Measures.count p (tr ++ [e])
  = (Measures.count p tr + if p e then 1 else 0)%Z.
Proof.
  unfold Measures.count. rewrite filter_app, length_app. cbn [filter].
  destruct (p e); cbn [List.length]; lia.
Qed.

Lemma count_app p tr tr' :
  Measures.count p (tr ++ tr')
  = (Measures.count p tr + Measures.count p tr')%Z.
Proof. unfold Measures.count. rewrite filter_app, length_app. lia. Qed.

Lemma count_nonneg p tr : (0 <= Measures.count p tr)%Z.
Proof. unfold Measures.count. lia. Qed.

(** *** The analyzers call the model and nothing else *)

Ltac generates :=
  repeat first [ reflexivity | prog_step | progress unfold_m ].

Lemma analyze_generates lib finding ctx rd :
  calls_only Measures.is_generate
             (FalsePositiveDetector.analyze lib finding ctx rd).
Proof.
  unfold FalsePositiveDetector.analyze, FalsePositiveDetector.analyze_body.
  generates.
Qed.

Lemma assess_generates lib finding ctx rd :
  calls_only Measures.is_generate (RiskAssessor.assess lib finding ctx rd).
Proof.
  unfold RiskAssessor.assess, RiskAssessor.assess_body,
    RiskAssessor._get_contextual_analysis.
  generates.
Qed.

Lemma generate_fix_generates lib finding ctx text rd :
  calls_only Measures.is_generate
             (FixGenerator.generate_fix lib finding ctx text rd).
Proof.
  unfold FixGenerator.generate_fix, FixGenerator.generate_fix_body.
  generates.
Qed.

Lemma ensures_mcall_bind (ok : forall X, ext X -> X -> Prop) {X B}
      (Q : list event -> result B * Agent -> Prop)
      (c : ext X) (f : X -> M B) s tr :
  (forall x, ok X c x -> ensures ok Q (tr ++ [Ev c x]) (f x s)) ->
  ensures ok Q tr (mbind (mcall c) f s).
Proof.
  intros H. unfold mbind, mcall, call. cbn [bind]. constructor. exact H.
Qed.

Lemma ensures_mcall_result_bind (ok : forall X, ext X -> X -> Prop) {A B}
      (Q : list event -> result B * Agent -> Prop)
      (c : ext (result A)) (f : A -> M B) s tr :
  (forall x, ok _ c x ->
             match x with
             | Ok a => ensures ok Q (tr ++ [Ev c x]) (f a s)
             | Raise e => Q (tr ++ [Ev c x]) (Raise e, s)
             end) ->
  ensures ok Q tr (mbind (mbind (mcall c) mresult) f s).
Proof.
  intros H. unfold mbind, mcall, mresult, call. cbn [bind]. constructor.
  intros x Hx. specialize (H x Hx). destruct x as [a|e]; cbn [bind];
    [exact H|constructor; exact H].
Qed.

Lemma ensures_mmodify_bind (ok : forall X, ext X -> X -> Prop) {B}
      (Q : list event -> result B * Agent -> Prop)
      (g : Agent -> Agent) (f : unit -> M B) s tr :
  ensures ok Q tr (f tt (g s)) -> ensures ok Q tr (mbind (mmodify g) f s).
Proof. intros H. exact H. Qed.

(** *** Invariants of the rate limits *)

Section Invariant.

Variable ok : forall X, ext X -> X -> Prop.
Variable cfg : Config.
Variable J : list event -> Agent -> Prop.

(** [J] is indifferent to the calls that no counter counts. *)
Hypothesis J_event :
  forall X (c : ext X) x tr s,
    Measures.neutral (Ev c x) = true -> J tr s -> J (tr ++ [Ev c x]) s.

(** [J] survives the reset of the window. *)
Hypothesis J_reset :
  forall tr s now now',
    ok _ Now now -> ok _ Now now' ->
    (rate_limit_reset_time s <= now)%Z ->
    J tr s ->
    J ((tr ++ [Ev Now now]) ++ [Ev Now now']) (reset_window now' s).

(** [J] survives a comment that is sent and counted below the cap. *)
Hypothesis J_comment :
  forall tr s k c x,
    (comments_posted_this_hour s < max_comments_per_hour cfg)%Z ->
    J tr s -> J (tr ++ [Ev (AddComment k c) x]) (count_comment s).

(** [J] survives a pull request that is created and counted below the
    cap. *)
Hypothesis J_pr :
  forall tr s repo title body head base labels pr,
    (prs_created_this_hour s < max_prs_per_hour cfg)%Z ->
    J tr s ->
    J (tr ++ [Ev (CreatePullRequest repo title body head base labels)
                 (Some pr)])
      (count_pr s).

Lemma keeps_mret {A} (a : A) : keeps ok J (mret a).
Proof. intros tr s H. constructor. exact H. Qed.

Lemma keeps_mresult {A} (r : result A) : keeps ok J (mresult r).
Proof. intros tr s H. constructor. exact H. Qed.

Lemma keeps_mget : keeps ok J mget.
Proof. intros tr s H. constructor. exact H. Qed.

Lemma keeps_mbind {A B} (m : M A) (f : A -> M B) :
  keeps ok J m -> (forall a, keeps ok J (f a)) -> keeps ok J (mbind m f).
Proof.
  intros Hm Hf tr s H. apply ensures_mbind.
  eapply ensures_mono; [|apply Hm, H].
  intros tr' [[a|e] s'] H'; cbn in H'; [apply Hf, H'|exact H'].
Qed.

Lemma keeps_mtry {A} (m : M A) (handler : exn -> M A) :
  keeps ok J m -> (forall e, keeps ok J (handler e)) ->
  keeps ok J (mtry m handler).
Proof.
  intros Hm Hh tr s H. apply ensures_mtry.
  eapply ensures_mono; [|apply Hm, H].
  intros tr' [[a|e] s'] H'; cbn in H'; [exact H'|apply Hh, H'].
Qed.

Lemma keeps_mcall {X} (c : ext X) :
  (forall x, Measures.neutral (Ev c x) = true) -> keeps ok J (mcall c).
Proof.
  intros Hn tr s H. unfold mcall, call. cbn. constructor. intros x _.
  constructor. apply J_event; [apply Hn|exact H].
Qed.

Lemma keeps_mlift {A} (p : prog A) :
  calls_only Measures.is_generate p -> keeps ok J (mlift p).
Proof.
  intros Hp tr s H. unfold mlift. revert tr H.
  induction Hp as [a | X c k Hc Hk IH]; intros tr H; cbn.
  - constructor. exact H.
  - constructor. intros x _. apply IH, J_event; [|exact H].
    destruct c; try discriminate Hc. reflexivity.
Qed.

(** When the check says yes, the counter it read is below its cap. *)
Lemma check_ensures operation tr s :
  J tr s ->
  ensures ok
    (fun tr' ra =>
       J tr' (snd ra)
       /\ exists b,
            fst ra = Ok b
            /\ (b = true -> operation = "pr"%string ->
                (prs_created_this_hour (snd ra) < max_prs_per_hour cfg)%Z)
            /\ (b = true -> operation = "comment"%string ->
                (comments_posted_this_hour (snd ra)
                 < max_comments_per_hour cfg)%Z))
    tr (_check_rate_limit cfg operation s).
Proof.
  intros H. unfold _check_rate_limit, _reset_rate_limits_if_needed.
  unfold_m. cbn [bind]. constructor. intros now Hnow.
  assert (Hend : forall tr' s',
             J tr' s' ->
             ensures ok
               (fun tr' ra =>
                  J tr' (snd ra)
                  /\ exists b,
                       fst ra = Ok b
                       /\ (b = true -> operation = "pr"%string ->
                           (prs_created_this_hour (snd ra)
                            < max_prs_per_hour cfg)%Z)
                       /\ (b = true -> operation = "comment"%string ->
                           (comments_posted_this_hour (snd ra)
                            < max_comments_per_hour cfg)%Z))
               tr'
               ((if (operation =? "pr")%string
                 then
                   fun s0 : Agent =>
                     Ret (Ok (prs_created_this_hour s'
                              <? max_prs_per_hour cfg)%Z, s0)
                 else
                   if (operation =? "comment")%string
                   then
                     fun s0 : Agent =>
                       Ret (Ok (comments_posted_this_hour s'
                                <? max_comments_per_hour cfg)%Z, s0)
                   else fun s0 : Agent => Ret (Ok true, s0)) s')).
  { intros tr' s' HJ.
    destruct (String.eqb_spec operation "pr") as [->|Hpr].
    - constructor. split; [exact HJ|]. eexists. split; [reflexivity|].
      cbn [snd]. split; [intros Hb _; apply Z.ltb_lt, Hb|discriminate].
    - destruct (String.eqb_spec operation "comment") as [->|Hcomment];
        constructor; (split; [exact HJ|]); eexists;
        (split; [reflexivity|]); cbn [snd]; split; try contradiction.
      intros Hb _. apply Z.ltb_lt, Hb. }
  destruct (Z.leb_spec (rate_limit_reset_time s) now) as [Hdue|Hearly];
    cbn [bind].
  - constructor. intros now' Hnow'. cbn [bind]. apply Hend.
    apply J_reset; assumption.
  - apply Hend, J_event; [reflexivity|exact H].
Qed.

Lemma keeps_post_comment finding render :
  keeps ok J (post_comment cfg finding render).
Proof.
  intros tr s H. unfold post_comment. apply ensures_mbind.
  eapply ensures_mono; [|apply check_ensures, H].
  intros tr' [r s'] (HJ & b & Hr & _ & Hroom). cbn [fst snd] in *. subst r.
  destruct b; cbn [when]; [|constructor; exact HJ].
  specialize (Hroom eq_refl eq_refl).
  destruct render as [c|e]; unfold_m; cbn [bind].
  - constructor. intros x _. cbn [bind]. constructor. cbn [snd].
    apply J_comment; assumption.
  - constructor. exact HJ.
Qed.

Lemma keeps_when b (m : M unit) : keeps ok J m -> keeps ok J (when b m).
Proof. intros Hm. destruct b; [exact Hm|apply keeps_mret]. Qed.

Lemma keeps_create_fix_pr finding fx risk :
  keeps ok J (_create_fix_pr cfg finding fx risk).
Proof.
  intros tr s H. unfold _create_fix_pr. apply ensures_mbind.
  eapply ensures_mono; [|apply check_ensures, H].
  intros tr' [r s'] (HJ & b & Hr & Hroom & _). cbn [fst snd] in *. subst r.
  destruct b; cbn [negb]; [|constructor; exact HJ].
  specialize (Hroom eq_refl eq_refl).
  apply ensures_mtry.
  apply ensures_mcall_bind. intros repo _.
  apply (J_event _ (ExtractRepo (component finding)) repo) in HJ;
    [|reflexivity].
  destruct repo as [repo_name|]; [|constructor; exact HJ].
  destruct (nonempty (Some repo_name)); [|constructor; exact HJ].
  apply ensures_mcall_bind. intros branched _.
  match goal with
  | |- ensures _ _ (_ ++ [Ev ?c ?x]) _ =>
      apply (J_event _ c x) in HJ; [|reflexivity]
  end.
  apply ensures_mcall_bind. intros committed _.
  match goal with
  | |- ensures _ _ (_ ++ [Ev ?c ?x]) _ =>
      apply (J_event _ c x) in HJ; [|reflexivity]
  end.
  apply ensures_mcall_result_bind. intros title _.
  apply (J_event _ GeneratePRTitle title) in HJ; [|reflexivity].
  destruct title as [pr_title|e]; [|constructor; exact HJ].
  apply ensures_mcall_result_bind. intros body _.
  apply (J_event _ GeneratePRBody body) in HJ; [|reflexivity].
  destruct body as [pr_body|e]; [|constructor; exact HJ].
  apply ensures_mcall_result_bind. intros labels _.
  apply (J_event _ GetPRLabels labels) in HJ; [|reflexivity].
  destruct labels as [pr_labels|e]; [|constructor; exact HJ].
  apply ensures_mcall_bind. intros [created|] _.
  - apply ensures_mmodify_bind.
    eapply J_pr in HJ; [|exact Hroom].
    eapply ensures_mono;
      [|refine (keeps_mbind _ _ _ _ _ _ HJ)].
    + intros tr2 [[a|e] s2] H2; [exact H2|constructor; exact H2].
    + apply keeps_when, keeps_mbind; [|intros; apply keeps_mret].
      apply keeps_mcall. reflexivity.
    + intros _. apply keeps_mbind; [|intros; apply keeps_mret].
      apply keeps_post_comment.
  - constructor.
    match goal with
    | |- J (_ ++ [Ev ?c ?x]) _ => apply (J_event _ c x); [reflexivity|]
    end.
    exact HJ.
Qed.

(** *** The methods of the pipeline *)

Ltac keeps_step :=
  first
    [ apply keeps_mret
    | apply keeps_mresult
    | apply keeps_mget
    | apply keeps_post_comment
    | apply keeps_create_fix_pr
    | apply keeps_mcall; intros; reflexivity
    | apply keeps_mlift;
      first [ apply analyze_generates | apply assess_generates
            | apply generate_fix_generates ]
    | apply keeps_when
    | apply keeps_mbind; [|intros]
    | apply keeps_mtry; [|intros]
    | match goal with
      | |- keeps _ _ (match ?x with _ => _ end) => destruct x
      | |- keeps _ _ (let _ := _ in _) => cbv zeta
      end ].

Lemma keeps_get_code_context finding :
  keeps ok J (_get_code_context finding).
Proof. unfold _get_code_context. repeat keeps_step. Qed.

Lemma keeps_get_full_file finding : keeps ok J (_get_full_file finding).
Proof. unfold _get_full_file. repeat keeps_step. Qed.

Lemma keeps_handle_false_positive finding analysis :
  keeps ok J (_handle_false_positive cfg finding analysis).
Proof. unfold _handle_false_positive. repeat keeps_step. Qed.

Lemma keeps_escalate_to_human finding risk reason :
  keeps ok J (_escalate_to_human cfg finding risk reason).
Proof. unfold _escalate_to_human. repeat keeps_step. Qed.

(** [J] does not read the statistics. *)
Hypothesis J_stats :
  forall tr s f, J tr s -> J tr (set_stats f s).

Lemma keeps_stats f : keeps ok J (mmodify (set_stats f)).
Proof. intros tr s H. constructor. apply J_stats, H. Qed.

Lemma keeps_dispose_fix finding risk fix_result :
  keeps ok J (dispose_fix cfg finding risk fix_result).
Proof.
  unfold dispose_fix.
  repeat first [ apply keeps_stats | apply keeps_escalate_to_human
               | keeps_step ].
Qed.

Lemma keeps_auto_fix lib finding ctx rd risk :
  keeps ok J (auto_fix lib cfg finding ctx rd risk).
Proof.
  unfold auto_fix.
  repeat first [ apply keeps_dispose_fix | apply keeps_get_full_file
               | keeps_step ].
Qed.

Lemma keeps_process_finding lib finding :
  keeps ok J (process_finding lib cfg finding).
Proof.
  unfold process_finding, assess_and_fix.
  repeat first [ apply keeps_stats | apply keeps_auto_fix
               | apply keeps_get_code_context
               | apply keeps_handle_false_positive | keeps_step ].
Qed.

Lemma keeps_process_guarded lib finding :
  keeps ok J (process_guarded lib cfg finding).
Proof.
  unfold process_guarded. apply keeps_mtry;
    [apply keeps_process_finding|intros; apply keeps_stats].
Qed.

Lemma keeps_process_all lib findings :
  keeps ok J (Batch.process_all lib cfg findings).
Proof.
  induction findings as [|finding findings IH]; cbn [Batch.process_all].
  - apply keeps_mret.
  - apply keeps_mbind; [apply keeps_process_guarded|intros; exact IH].
Qed.

End Invariant.

(** *** The counters and their caps *)

Lemma within_caps_kept lib cfg findings :
  keeps any_answer (fun _ s => within_caps cfg s)
        (Batch.process_all lib cfg findings).
Proof.
  apply keeps_process_all.
  - intros X c x tr s _ H. exact H.
  - intros tr s now now' _ _ _ _. unfold within_caps. cbn. lia.
  - intros tr s k c x Hroom. unfold within_caps. cbn. lia.
  - intros tr s repo title body head base labels pr Hroom.
    unfold within_caps. cbn. lia.
  - intros tr s f H. exact H.
Qed.

Lemma any_answers (h : oracle) : answers any_answer h.
Proof. intros X c hist. exact I. Qed.

(** X16. Whatever the collaborators answer and whatever the clock says, a
    batch of findings leaves both counters of the rate limits between zero
    and their caps when it found them there. *)
Theorem counters_stay_within_caps lib cfg findings (h : oracle) hist s :
  within_caps cfg s ->
  within_caps cfg
    (snd (value h (Batch.process_all lib cfg findings s) hist)).
Proof.
  intros H.
  apply (ensures_run any_answer h
           (fun _ ra => within_caps cfg (snd ra)) _ hist (any_answers h)).
  apply within_caps_kept, H.
Qed.

(** X16, at scenario A. *)
Lemma counters_stay_within_caps_witness :
  within_caps default_config Scenarios.fresh_agent
  /\ within_caps default_config
       (snd (value (Scenarios.play Scenarios.script_a)
               (Batch.process_all Scenarios.sure_lib default_config
                  [Scenarios.finding_a] Scenarios.fresh_agent) [])).
Proof.
  assert (H : within_caps default_config Scenarios.fresh_agent)
    by (unfold within_caps; cbn; lia).
  split; [exact H|].
  exact (counters_stay_within_caps Scenarios.sure_lib default_config
           [Scenarios.finding_a] (Scenarios.play Scenarios.script_a) []
           Scenarios.fresh_agent H).
Defined.

(** *** The budget of a window *)

Lemma accounted_kept lib cfg findings reset_time comments_ahead prs_ahead :
  keeps (before reset_time)
        (fun tr s =>
           accounted reset_time comments_ahead prs_ahead tr s
           /\ within_caps cfg s)
        (Batch.process_all lib cfg findings).
Proof.
  apply keeps_process_all; unfold accounted, within_caps.
  - intros X c x tr s Hn H. rewrite !count_snoc.
    unfold Measures.neutral in Hn. apply andb_true_iff in Hn as [Hc Hp].
    apply negb_true_iff in Hc, Hp. rewrite Hc, Hp. lia.
  - intros tr s now now' Hnow _ Hdue [[Ht _] _]. cbn in Hnow. lia.
  - intros tr s k c x Hroom. rewrite !count_snoc. cbn. lia.
  - intros tr s repo title body head base labels pr Hroom.
    rewrite !count_snoc. cbn. lia.
  - intros tr s f H. exact H.
Qed.

(** X17. As long as the clock stays before the reset time, the comment
    counter advances by the number of comments sent and the pull-request
    counter by the number of pull requests created, and neither passes its
    cap: a batch sends no more comments and creates no more pull requests
    than the window has left. *)
Theorem window_budget lib cfg findings (h : oracle) hist s :
  (forall hist', h _ Now hist' < rate_limit_reset_time s)%Z ->
  within_caps cfg s ->
  let tr := trace h (Batch.process_all lib cfg findings s) hist in
  let s' := snd (value h (Batch.process_all lib cfg findings s) hist) in
  rate_limit_reset_time s' = rate_limit_reset_time s
  /\ comments_posted_this_hour s'
     = (comments_posted_this_hour s
        + Measures.count Measures.sent_comment tr)%Z
  /\ prs_created_this_hour s'
     = (prs_created_this_hour s + Measures.count Measures.created_pr tr)%Z
  /\ (comments_posted_this_hour s + Measures.count Measures.sent_comment tr
      <= Z.max 0 (max_comments_per_hour cfg))%Z
  /\ (prs_created_this_hour s + Measures.count Measures.created_pr tr
      <= Z.max 0 (max_prs_per_hour cfg))%Z.
Proof.
  intros Hclock Hcaps. cbv zeta.
  assert (Hh : answers (before (rate_limit_reset_time s)) h).
  { intros X c hist'. destruct c; cbn; try exact I. apply Hclock. }
  pose proof
    (ensures_run _ h _ _ hist Hh
       (accounted_kept lib cfg findings (rate_limit_reset_time s)
          (comments_posted_this_hour s
           - Measures.count Measures.sent_comment hist)
          (prs_created_this_hour s
           - Measures.count Measures.created_pr hist)
          hist s
          (conj (conj eq_refl (conj eq_refl eq_refl)) Hcaps)))
    as [(Ht & Hc & Hp) Hcaps'].
  cbn beta in Ht, Hc, Hp, Hcaps'. rewrite !count_app in Hc, Hp.
  unfold within_caps in Hcaps'. repeat split; lia.
Qed.

(** X17, at scenario A, where the clock stands at zero. *)
Lemma window_budget_witness :
  (forall hist',
      Scenarios.play Scenarios.script_a _ Now hist'
      < rate_limit_reset_time Scenarios.fresh_agent)%Z
  /\ within_caps default_config Scenarios.fresh_agent
  /\ (comments_posted_this_hour Scenarios.fresh_agent
      + Measures.count Measures.sent_comment
          (trace (Scenarios.play Scenarios.script_a)
             (Batch.process_all Scenarios.sure_lib default_config
                [Scenarios.finding_a] Scenarios.fresh_agent) [])
      <= Z.max 0 (max_comments_per_hour default_config))%Z.
Proof.
  assert (Hclock : forall hist',
             (Scenarios.play Scenarios.script_a _ Now hist'
              < rate_limit_reset_time Scenarios.fresh_agent)%Z)
    by (intros hist'; reflexivity).
  assert (Hcaps : within_caps default_config Scenarios.fresh_agent)
    by (unfold within_caps; cbn; lia).
  split; [exact Hclock|]. split; [exact Hcaps|].
  exact (proj1 (proj2 (proj2 (proj2
           (window_budget Scenarios.sure_lib default_config
              [Scenarios.finding_a] (Scenarios.play Scenarios.script_a) []
              Scenarios.fresh_agent Hclock Hcaps))))).
Defined.

End ContractProperties.

(** ** The statistics *)

Module StatisticsProperties.

Import SonarQubeAgent Contracts ContractProperties.
Import AgentProperties.

Section Kept.

Variable ok : forall X, ext X -> X -> Prop.
Variable cfg : Config.
Variable c : Stats.

(** The methods below [process_finding] leave the statistics alone. *)









End Kept.










End StatisticsProperties.

(** ** The pipeline at its edges *)

Module PipelineEdges.

Import SonarQubeAgent Contracts ContractProperties.
Import AgentProperties.

(** X19. With the pull-request cap reached and the window still open, a
    safe fix of sufficient confidence leads to one reading of the clock and
    to no call to the code host; the statistics count a fix and a pull
    request all the same. *)
Theorem at_the_cap_a_fix_is_counted_not_proposed
        cfg finding risk fx (h : oracle) hist s :
  (h _ Now hist < rate_limit_reset_time s)%Z ->
  (max_prs_per_hour cfg <= prs_created_this_hour s)%Z ->
  FixGenerator.is_safe (FixGenerator.validation fx) = true ->
  Py.ge_float (FixGenerator.confidence fx) (fix_min_confidence cfg)
  = Ok true ->
  run h (dispose_fix cfg finding risk (Some fx) s) hist
  = ((Ok tt, set_stats count_fix_and_pr s), [Ev Now (h _ Now hist)]).
Proof.
  intros Hearly Hcap Hsafe Hsure.
  unfold dispose_fix, _create_fix_pr, _check_rate_limit,
    _reset_rate_limits_if_needed.
  rewrite Hsafe. unfold_m. rewrite Hsure. cbn [bind run fst snd].
  apply Z.leb_gt in Hearly. rewrite Hearly. cbn [bind run fst snd].
  apply Z.ltb_ge in Hcap. rewrite Hcap. reflexivity.
Qed.

(** X19, at the default cap of five pull requests. *)
Lemma at_the_cap_a_fix_is_counted_not_proposed_witness :
  (Scenarios.play Scenarios.script_a _ Now []
   < rate_limit_reset_time Scenarios.agent_at_pr_cap)%Z
  /\ run (Scenarios.play Scenarios.script_a)
         (dispose_fix default_config Scenarios.finding_a
            Scenarios.assessment_a (Some Scenarios.safe_fix)
            Scenarios.agent_at_pr_cap) []
     = ((Ok tt, set_stats count_fix_and_pr Scenarios.agent_at_pr_cap),
        [Ev Now 0%Z]).
Proof.
  assert (Hearly : (Scenarios.play Scenarios.script_a _ Now []
                    < rate_limit_reset_time Scenarios.agent_at_pr_cap)%Z)
    by reflexivity.
  assert (Hcap : (max_prs_per_hour default_config
                  <= prs_created_this_hour Scenarios.agent_at_pr_cap)%Z)
    by (cbn; lia).
  assert (Hsure : Py.ge_float (FixGenerator.confidence Scenarios.safe_fix)
                    (fix_min_confidence default_config) = Ok true)
    by (vm_compute; reflexivity).
  split; [exact Hearly|].
  exact (at_the_cap_a_fix_is_counted_not_proposed default_config
           Scenarios.finding_a Scenarios.assessment_a Scenarios.safe_fix
           (Scenarios.play Scenarios.script_a) [] Scenarios.agent_at_pr_cap
           Hearly Hcap eq_refl Hsure).
Defined.

(** *** Symbolic runs *)

Ltac head_match p :=
  lazymatch p with
  | bind ?q _ => head_match q
  | (match ?x with _ => _ end) _ => destruct x
  | match ?x with _ => _ end => destruct x
  end.

Ltac exec :=
  repeat
    match goal with
    | |- ensures _ _ _ (Ret _) => constructor
    | |- ensures _ _ _ (Call _ _) => constructor; intros ? _
    | |- ensures _ _ _ (bind _ _) => progress cbn [bind]
    | |- ensures _ _ _ ?p => head_match p
    end.




(** *** Pull requests *)

Lemma create_fix_pr_ensures ok cfg finding fx risk tr s :
  ensures ok
    (fun tr' ra =>
       exists calls,
         tr' = tr ++ calls
         /\ fst ra = Ok (List.hd_error (Measures.pull_requests calls))
         /\ (Measures.count (event_is Measures.is_pr_request) calls <= 1)%Z
         /\ (List.length (Measures.pull_requests calls) <= 1)%nat)
    tr (_create_fix_pr cfg finding fx risk s).
Proof.
  unfold _create_fix_pr, post_comment, _check_rate_limit,
    _reset_rate_limits_if_needed, when.
  unfold_m.
  change (String.eqb "comment" "pr") with false.
  rewrite !String.eqb_refl. exec.
  all: rewrite <- ?app_assoc; eexists; split; [reflexivity|].
  all: cbn; split; [reflexivity|split; lia].
Qed.

(** X21. [_create_fix_pr] never raises, whatever the collaborators answer.
    It asks the code host for a pull request at most once, and returns the
    pull request the host created, or nothing when the host created
    none. *)
Theorem create_fix_pr_returns_what_was_created
        cfg finding fx risk (h : oracle) hist s :
  let tr := trace h (_create_fix_pr cfg finding fx risk s) hist in
  fst (value h (_create_fix_pr cfg finding fx risk s) hist)
  = Ok (List.hd_error (Measures.pull_requests tr))
  /\ (Measures.count (event_is Measures.is_pr_request) tr <= 1)%Z
  /\ (List.length (Measures.pull_requests tr) <= 1)%nat.
Proof.
  cbv zeta.
  destruct (ensures_run any_answer h _ _ hist (any_answers h)
              (create_fix_pr_ensures any_answer cfg finding fx risk hist s))
    as (calls & Hcalls & Hvalue & Hasked & Hone).
  apply app_inv_head in Hcalls. rewrite Hcalls. repeat split; assumption.
Qed.

(** *** What is written, and where *)

Lemma calls_only_weaken (P P' : forall X, ext X -> bool) {A} (p : prog A) :
  (forall X (c : ext X), P X c = true -> P' X c = true) ->
  calls_only P p -> calls_only P' p.
Proof. intros HP Hp. induction Hp; constructor; auto. Qed.

Lemma generate_is_addressed issue X (c : ext X) :
  Measures.is_generate X c = true -> Measures.addressed_to issue X c = true.
Proof. destruct c; try discriminate. reflexivity. Qed.

Lemma generate_is_no_write X (c : ext X) :
  Measures.is_generate X c = true -> Measures.no_host_write X c = true.
Proof. destruct c; try discriminate. reflexivity. Qed.

Ltac addressed :=
  repeat
    first
      [ reflexivity
      | apply String.eqb_refl
      | solve [cbn [Measures.addressed_to]; rewrite !String.eqb_refl;
               reflexivity]
      | solve [eapply calls_only_weaken;
               [apply generate_is_addressed
               |first [ apply analyze_generates | apply assess_generates
                      | apply generate_fix_generates ]]]
      | prog_step
      | progress unfold_m ].

Lemma process_finding_addressed lib cfg finding s :
  calls_only (Measures.addressed_to (key finding))
             (process_finding lib cfg finding s).
Proof.
  unfold process_finding, assess_and_fix, auto_fix, dispose_fix,
    _escalate_to_human, _create_fix_pr, _handle_false_positive,
    _get_code_context, _get_full_file, post_comment, _check_rate_limit,
    _reset_rate_limits_if_needed.
  addressed.
Qed.

(** X22. Every comment [process_finding] sends to the finding source and
    every escalation it logs is for the finding it processes, and the only
    transition it ever makes is of that finding to won't fix, with the
    comment of the false-positive analysis. *)
Theorem finding_source_is_written_for_this_finding
        lib cfg finding (h : oracle) hist s e :
  In e (trace h (process_finding lib cfg finding s) hist) ->
  match e with
  | Ev (AddComment k _) _ => k = key finding
  | Ev (LogEscalated k _) _ => k = key finding
  | Ev (TransitionIssue k transition comment) _ =>
      k = key finding
      /\ transition = "wontfix"%string
      /\ comment
         = "Marked as false positive by automated analysis"%string
  | _ => True
  end.
Proof.
  intros Hin.
  pose proof (calls_only_trace _ _ h hist
                (process_finding_addressed lib cfg finding s)) as Hall.
  rewrite forallb_forall in Hall. specialize (Hall e Hin).
  destruct e as [X c x]. destruct c; try exact I; cbn in Hall.
  - apply String.eqb_eq, Hall.
  - apply andb_true_iff in Hall as [Hall Hcomment].
    apply andb_true_iff in Hall as [Hkey Hto].
    repeat split; apply String.eqb_eq; assumption.
  - apply String.eqb_eq, Hall.
Qed.

(** X22, at scenario D, where the finding is moved to won't fix. *)
Lemma finding_source_is_written_for_this_finding_witness :
  In (Ev (TransitionIssue (key Scenarios.finding_a) "wontfix"
            "Marked as false positive by automated analysis") true)
     (trace (Scenarios.play Scenarios.script_d)
        (process_finding Scenarios.lib_d default_config Scenarios.finding_a
           Scenarios.fresh_agent) [])
  /\ key Scenarios.finding_a = key Scenarios.finding_a.
Proof.
  assert (H : In (Ev (TransitionIssue (key Scenarios.finding_a) "wontfix"
                        "Marked as false positive by automated analysis")
                     true)
                 (trace (Scenarios.play Scenarios.script_d)
                    (process_finding Scenarios.lib_d default_config
                       Scenarios.finding_a Scenarios.fresh_agent) []))
    by (vm_compute; auto 10).
  split; [exact H|].
  exact (proj1 (finding_source_is_written_for_this_finding _ _ _ _ _ _ _ H)).
Defined.

(** *** When the code host is written *)

Ltac no_writes :=
  repeat
    first
      [ reflexivity
      | solve [eapply calls_only_weaken;
               [apply generate_is_no_write
               |first [ apply analyze_generates | apply assess_generates
                      | apply generate_fix_generates ]]]
      | prog_step
      | progress unfold_m ].

Lemma escalate_writes_nothing cfg finding risk reason s :
  calls_only Measures.no_host_write
             (_escalate_to_human cfg finding risk reason s).
Proof.
  unfold _escalate_to_human, post_comment, _check_rate_limit,
    _reset_rate_limits_if_needed.
  no_writes.
Qed.

Lemma get_full_file_writes_nothing finding s :
  calls_only Measures.no_host_write (_get_full_file finding s).
Proof. unfold _get_full_file. no_writes. Qed.

Lemma no_write_trace {A} (p : prog A) (h : oracle) hist :
  calls_only Measures.no_host_write p ->
  existsb (event_is Measures.writes_to_host) (trace h p hist) = false.
Proof.
  intros Hp. pose proof (calls_only_trace _ _ h hist Hp) as Hall.
  induction (trace h p hist) as [|[X c x] tr IH]; [reflexivity|].
  cbn [forallb existsb] in *. apply andb_true_iff in Hall as [Hc Htr].
  rewrite (IH Htr), orb_false_r.
  unfold event_is, Measures.no_host_write in *.
  apply negb_true_iff, Hc.
Qed.

Lemma trace_mlift {A} (h : oracle) (p : prog A) s hist :
  trace h (mlift p s) hist = trace h p hist.
Proof.
  unfold mlift. rewrite trace_bind. cbn. apply app_nil_r.
Qed.

Lemma value_mlift {A} (h : oracle) (p : prog A) s hist :
  value h (mlift p s) hist = (Ok (value h p hist), s).
Proof. unfold mlift. rewrite value_bind. reflexivity. Qed.

Lemma dispose_fix_writes cfg finding risk fix_result (h : oracle) hist s :
  existsb (event_is Measures.writes_to_host)
          (trace h (dispose_fix cfg finding risk fix_result s) hist) = true ->
  exists fx,
    fix_result = Some fx
    /\ FixGenerator.is_safe (FixGenerator.validation fx) = true
    /\ Py.ge_float (FixGenerator.confidence fx) (fix_min_confidence cfg)
       = Ok true.
Proof.
  unfold dispose_fix.
  destruct fix_result as [fx|];
    [destruct (FixGenerator.is_safe (FixGenerator.validation fx)) eqn:Hsafe|];
    try (rewrite no_write_trace by apply escalate_writes_nothing;
         discriminate).
  destruct (Py.ge_float _ _) as [[|]|e] eqn:Hsure.
  - intros _. eauto.
  - unfold mbind at 1, mresult. cbn [bind].
    unfold mbind at 1. cbn [bind].
    destruct (Py.format_percent _); [|discriminate].
    rewrite no_write_trace by apply escalate_writes_nothing. discriminate.
  - unfold mbind at 1, mresult. cbn. discriminate.
Qed.

(** X23. The auto-fix phase writes to the code host (a branch, a commit, a
    pull request or a review request) only for an assessment whose
    priority is one of the auto-fix priorities, and only after the fix
    generator returned a fix that is marked safe and whose confidence is
    at least the configured minimum. *)
Theorem code_host_is_written_for_safe_fixes_only
        lib cfg finding ctx rd risk (h : oracle) hist s :
  existsb (event_is Measures.writes_to_host)
          (trace h (auto_fix lib cfg finding ctx rd risk s) hist) = true ->
  In (RiskAssessor.priority risk) (auto_fix_priorities cfg)
  /\ exists text hist' fx,
       value h (FixGenerator.generate_fix lib finding ctx text rd) hist'
       = Some fx
       /\ FixGenerator.is_safe (FixGenerator.validation fx) = true
       /\ Py.ge_float (FixGenerator.confidence fx) (fix_min_confidence cfg)
          = Ok true.
Proof.
  unfold auto_fix.
  destruct (existsb _ (auto_fix_priorities cfg)) eqn:Hprio;
    [|discriminate].
  intros H. split.
  { apply existsb_exists in Hprio as (p & Hin & Hp).
    apply String.eqb_eq in Hp. subst p. exact Hin. }
  rewrite trace_mbind, existsb_app in H.
  rewrite no_write_trace in H by apply get_full_file_writes_nothing.
  cbn [orb] in H.
  destruct (value h (_get_full_file finding s) hist) as [[[text|]|e] s1];
    try discriminate H.
  destruct (nonempty (Some text)); [|discriminate H].
  rewrite trace_mbind, trace_mlift, value_mlift, existsb_app in H.
  rewrite no_write_trace in H
    by (eapply calls_only_weaken;
        [apply generate_is_no_write|apply generate_fix_generates]).
  cbn [orb] in H.
  apply dispose_fix_writes in H as (fx & Hfx & Hsafe & Hsure).
  exists text. eexists. exists fx. split; [exact Hfx|]. auto.
Qed.

(** X23, at a safe fix of confidence 0.95 for a finding of priority P1. *)
Lemma code_host_is_written_for_safe_fixes_only_witness :
  existsb (event_is Measures.writes_to_host)
          (trace (Scenarios.play Scenarios.script_safe)
             (auto_fix Scenarios.lib_safe default_config
                Scenarios.finding_a Scenarios.context_a None
                (RiskAssessor.error_assessment Scenarios.backend_down)
                Scenarios.fresh_agent) []) = true
  /\ In (RiskAssessor.priority
           (RiskAssessor.error_assessment Scenarios.backend_down))
        (auto_fix_priorities default_config).
Proof.
  assert (H : existsb (event_is Measures.writes_to_host)
                (trace (Scenarios.play Scenarios.script_safe)
                   (auto_fix Scenarios.lib_safe default_config
                      Scenarios.finding_a Scenarios.context_a None
                      (RiskAssessor.error_assessment Scenarios.backend_down)
                      Scenarios.fresh_agent) [])
              = true)
    by (vm_compute; reflexivity).
  split; [exact H|].
  exact (proj1 (code_host_is_written_for_safe_fixes_only _ _ _ _ _ _ _ _ _ H)).
Defined.

End PipelineEdges.

(** ** When a fix is safe *)

Module FixSafety.

Import FixGenerator.

(** X24. A fix is marked safe exactly when it has no obvious syntax error,
    differs from the original once both are stripped, and at most one of
    the three soft checks (size change, error handling, logic) warns: two
    warnings make a fix unsafe although no check failed. *)
Theorem safe_fix_characterised original fixed finding language :
  let size_changed :=
    PyNum.int_gt_float
      (Z.abs (PyStr.line_count fixed - PyStr.line_count original))
      (PyNum.float_of_count (PyStr.line_count original) * 0.5)%float in
  let handling_removed :=
    (error_handling fixed <? error_handling original)%Z in
  let logic_removed :=
    PyNum.int_lt_float (assignments fixed)
      (PyNum.float_of_count (assignments original) * 0.8)%float in
  is_safe (_validate_fix original fixed finding language) = true
  <-> _has_obvious_syntax_errors fixed language = false
      /\ PyStr.strip original <> PyStr.strip fixed
      /\ (size_changed && handling_removed
          || size_changed && logic_removed
          || handling_removed && logic_removed)%bool = false.
Proof.
  cbv zeta.
  destruct (FixProperties.validation_lists original fixed finding language)
    as (Hwarnings & Hfailed & Hsafe).
  rewrite Hsafe, Hfailed, Hwarnings.
  destruct (String.eqb_spec (PyStr.strip original) (PyStr.strip fixed))
    as [Hsame|Hchanged];
    destruct (PyNum.int_gt_float _ _),
      (error_handling fixed <? error_handling original)%Z,
      (PyNum.int_lt_float _ _), (_has_obvious_syntax_errors fixed language);
    cbn; split;
    try (intros H; discriminate H);
    try (intros (H1 & H2 & H3); first [discriminate | contradiction]);
    try (intros _; repeat split; auto).
Qed.

End FixSafety.

(** ** A false positive whose comment cannot be written *)

Module FalsePositiveEdges.

Import SonarQubeAgent.
Import AgentProperties.

(** X25. Inside an open window, when the comment of a false positive cannot
    be rendered, what [_handle_false_positive] does depends on the comment
    limit. Below the cap it raises after reading the clock: no comment and
    no transition. At the cap the comment is never rendered, and a
    confidence above the review threshold moves the finding to won't
    fix. *)
Theorem unrendered_comment_blocks_the_transition
        cfg finding analysis e (h : oracle) hist s :
  (h _ Now hist < rate_limit_reset_time s)%Z ->
  FalsePositiveDetector.generate_comment analysis = Raise e ->
  ((comments_posted_this_hour s < max_comments_per_hour cfg)%Z ->
   run h (_handle_false_positive cfg finding analysis s) hist
   = ((Raise e, s), [Ev Now (h _ Now hist)]))
  /\ ((max_comments_per_hour cfg <= comments_posted_this_hour s)%Z ->
      auto_mark cfg = true ->
      (require_review_below cfg
       <? FalsePositiveDetector.confidence analysis)%float = true ->
      fst (run h (_handle_false_positive cfg finding analysis s) hist)
      = (Ok tt, s)
      /\ existsb Spec.is_wontfix
           (snd (run h (_handle_false_positive cfg finding analysis s) hist))
         = true).
Proof.
  intros Hearly Hraise. apply Z.leb_gt in Hearly.
  unfold _handle_false_positive, post_comment, _check_rate_limit,
    _reset_rate_limits_if_needed.
  rewrite Hraise. unfold_m. cbn [bind run fst snd rbind].
  rewrite Hearly. cbn [bind run fst snd]. split.
  - intros Hroom. apply Z.ltb_lt in Hroom. rewrite Hroom. reflexivity.
  - intros Hcap Hmark Hsure. apply Z.ltb_ge in Hcap.
    rewrite Hcap, Hmark, Hsure. cbn. split; reflexivity.
Qed.

(** X25, at a verdict whose evidence is [null], in a fresh window. *)
Lemma unrendered_comment_blocks_the_transition_witness :
  (Scenarios.play Scenarios.script_d _ Now []
   < rate_limit_reset_time Scenarios.fresh_agent)%Z
  /\ run (Scenarios.play Scenarios.script_d)
         (_handle_false_positive default_config Scenarios.finding_a
            Scenarios.analysis_without_evidence Scenarios.fresh_agent) []
     = ((Raise (Exn TypeError "'NoneType' object is not iterable"),
         Scenarios.fresh_agent),
        [Ev Now 0%Z]).
Proof.
  assert (Hearly : (Scenarios.play Scenarios.script_d _ Now []
                    < rate_limit_reset_time Scenarios.fresh_agent)%Z)
    by reflexivity.
  assert (Hroom : (comments_posted_this_hour Scenarios.fresh_agent
                   < max_comments_per_hour default_config)%Z)
    by reflexivity.
  split; [exact Hearly|].
  exact (proj1 (unrendered_comment_blocks_the_transition default_config
                  Scenarios.finding_a Scenarios.analysis_without_evidence
                  (Exn TypeError "'NoneType' object is not iterable")
                  (Scenarios.play Scenarios.script_d) []
                  Scenarios.fresh_agent Hearly eq_refl) Hroom).
Defined.

End FalsePositiveEdges.
